(** * The Pennsylvania commute data story: calculators, renderers, navigation

    A shallow embedding of the script logic of the Svelte components
    ([src/routes/+page.svelte], [src/lib/stores/navigation.ts],
    [src/lib/components/Navigation.svelte] and
    [src/lib/components/chapters/Chapter1..6.svelte]) and the properties the
    specification states about it.

    Conventions of the embedding.
    - A JavaScript number is a [num]: an exact rational, one of the two
      infinities, or NaN.  The arithmetic on the finite part is exact:
      the rounding of doubles, their overflow to an infinity, their
      underflow and the sign of zero are not modelled.  A property whose
      truth on doubles depends on them is therefore stated on a range of
      inputs on which doubles neither overflow nor underflow, and concludes
      what rounding preserves (a sign, an order with a margin, a bound that
      is itself a double); such range hypotheses are part of the statement
      also where the proof on exact numbers does not use them.
    - Layout quantities the browser reports (scroll offsets, bounding boxes)
      are finite, and are rationals.
    - A component is a record of its script variables; a function of the
      script is a function on that record; a [try]/[catch] block is a
      computation in an error monad.
    - A DOM container is the list of its child nodes, [None] while the
      [bind:this] reference is not attached. *)

From Stdlib Require Import QArith ZArith List String Ascii Bool Lia Lqa DecimalString.
From Stdlib Require Import Sorted Permutation Qround.
Import ListNotations.

Local Open Scope Z_scope.

(* ===================================================================== *)
(** ** JavaScript numbers *)
(* ===================================================================== *)

Module JsNum.

Local Open Scope Q_scope.

Inductive num : Type :=
| Fin (q : Q)
| PosInf
| NegInf
| NaN.

Definition isFinite (x : num) : bool :=
  match x with Fin _ => true | _ => false end.

Definition isNaN (x : num) : bool :=
  match x with NaN => true | _ => false end.

(** Sign of a rational: [Lt], [Eq] or [Gt] against zero. *)
Definition Qsign (q : Q) : comparison := 0 ?= q.

Definition neg (x : num) : num :=
  match x with
  | Fin q => Fin (- q)
  | PosInf => NegInf
  | NegInf => PosInf
  | NaN => NaN
  end.

Definition add (x y : num) : num :=
  match x, y with
  | NaN, _ | _, NaN => NaN
  | Fin a, Fin b => Fin (a + b)
  | PosInf, NegInf | NegInf, PosInf => NaN
  | PosInf, _ | _, PosInf => PosInf
  | NegInf, _ | _, NegInf => NegInf
  end.

Definition sub (x y : num) : num := add x (neg y).

(** An infinity of the sign of [q]; NaN when [q] is zero. *)
Definition infOfSign (positive : bool) (q : Q) : num :=
  match Qsign q with
  | Lt => if positive then PosInf else NegInf
  | Gt => if positive then NegInf else PosInf
  | Eq => NaN
  end.

Definition mul (x y : num) : num :=
  match x, y with
  | NaN, _ | _, NaN => NaN
  | Fin a, Fin b => Fin (a * b)
  | PosInf, Fin q | Fin q, PosInf => infOfSign true q
  | NegInf, Fin q | Fin q, NegInf => infOfSign false q
  | PosInf, PosInf | NegInf, NegInf => PosInf
  | PosInf, NegInf | NegInf, PosInf => NegInf
  end.

(** Division.  A finite number over zero is an infinity of the sign of the
    numerator (zero is taken as positive zero), and [0 / 0] is NaN. *)
Definition div (x y : num) : num :=
  match x, y with
  | NaN, _ | _, NaN => NaN
  | Fin a, Fin b =>
      if Qeq_bool b 0 then infOfSign true a else Fin (a / b)
  | Fin _, PosInf | Fin _, NegInf => Fin 0
  | PosInf, Fin b =>
      match Qsign b with Gt => NegInf | _ => PosInf end
  | NegInf, Fin b =>
      match Qsign b with Gt => PosInf | _ => NegInf end
  | _, _ => NaN
  end.

(** [x < y]; false as soon as one side is NaN. *)
Definition lt (x y : num) : bool :=
  match x, y with
  | NaN, _ | _, NaN => false
  | Fin a, Fin b => negb (Qle_bool b a)
  | NegInf, NegInf => false
  | NegInf, _ => true
  | _, PosInf => match x with PosInf => false | _ => true end
  | _, _ => false
  end.

Definition gt (x y : num) : bool := lt y x.

(** [x === y] on numbers. *)
Definition eqb (x y : num) : bool :=
  match x, y with
  | Fin a, Fin b => Qeq_bool a b
  | PosInf, PosInf | NegInf, NegInf => true
  | _, _ => false
  end.

Definition le (x y : num) : bool := lt x y || eqb x y.
Definition ge (x y : num) : bool := le y x.

(** ToBoolean on a number: zero and NaN are falsy. *)
Definition truthy (x : num) : bool :=
  match x with
  | Fin q => negb (Qeq_bool q 0)
  | NaN => false
  | _ => true
  end.

(** [a || b] on numbers. *)
Definition or (a b : num) : num := if truthy a then a else b.

Definition Qfloor (q : Q) : Z := Z.div (Qnum q) (Zpos (Qden q)).

(** [Math.round]: the nearest integer, halves towards plus infinity. *)
Definition round (x : num) : num :=
  match x with
  | Fin q => Fin (inject_Z (Qfloor (q + (1 # 2))))
  | _ => x
  end.

Definition min2 (x y : num) : num :=
  match x, y with
  | NaN, _ | _, NaN => NaN
  | _, _ => if lt y x then y else x
  end.

Definition max2 (x y : num) : num :=
  match x, y with
  | NaN, _ | _, NaN => NaN
  | _, _ => if lt x y then y else x
  end.

(** [Math.min(...xs)] and [Math.max(...xs)]: the infinities on no
    argument, NaN as soon as one argument is NaN. *)
Definition minOf (xs : list num) : num := fold_left min2 xs PosInf.
Definition maxOf (xs : list num) : num := fold_left max2 xs NegInf.

(** A number is non-negative and finite. *)
Definition nonNegFinite (x : num) : Prop :=
  match x with
  | Fin q => 0 <= q
  | _ => False
  end.

(** [Number.MAX_SAFE_INTEGER], [2^53 - 1]. *)
Definition MAX_SAFE_INTEGER : Q := 9007199254740991.

(** A finite number between [lo] and [hi]. *)
Definition within (lo hi : Q) (x : num) : Prop :=
  match x with
  | Fin q => lo <= q <= hi
  | _ => False
  end.

(** A finite number whose magnitude is at most [MAX_SAFE_INTEGER]: sums,
    differences and products of a few such numbers stay far inside the
    range of doubles. *)
Definition moderate (x : num) : Prop :=
  within (- MAX_SAFE_INTEGER) MAX_SAFE_INTEGER x.

Definition ofZ (z : Z) : num := Fin (inject_Z z).

(** *** [Number.prototype.toFixed] *)

(** The decimal digits of a natural number, ["0"] for zero. *)
Definition digits (n : N) : string := NilZero.string_of_uint (N.to_uint n).

Fixpoint zeros (k : nat) : string :=
match k with
| O => EmptyString
| S k' => String "0" (zeros k')
end.

(** [m] split [d] characters before its end, padded so that at least one
    character stays in front: the integer and the fraction digits. *)
Definition splitFraction (d : nat) (m : string) : string * string :=
let padded := (zeros (S d - String.length m) ++ m)%string in
let k := (String.length padded - d)%nat in
(substring 0 k padded, substring k d padded).

(** The digits of the non-negative [a] with [d] fraction digits: the
    integer nearest to [a * 10^d], the larger one of two. *)
Definition fixedDigits (d : nat) (a : Q) : string :=
let n := Z.to_N (Qfloor (a * inject_Z (10 ^ Z.of_nat d) + (1 # 2))) in
match d with
| O => digits n
| S _ => let (int, frac) := splitFraction d (digits n) in
         (int ++ "." ++ frac)%string
end.

(** [x.toFixed(d)], on the exact value of [x].  A magnitude of [1e21]
    and more, which JavaScript prints in exponent notation, is printed in
    full here, so that the properties about [toFixed] below are stated for
    values under that magnitude. *)
Definition toFixed (d : nat) (x : num) : string :=
match x with
| NaN => "NaN"
| PosInf => "Infinity"
| NegInf => "-Infinity"
| Fin q =>
    if Qle_bool 0 q then fixedDigits d q
    else ("-" ++ fixedDigits d (- q))%string
end.

(** *** Numerals *)

Definition isDigit (c : ascii) : bool :=
((48 <=? nat_of_ascii c) && (nat_of_ascii c <=? 57))%nat.

Fixpoint allDigits (s : string) : bool :=
match s with
| EmptyString => true
| String c rest => isDigit c && allDigits rest
end.

(** A string of one decimal digit or more. *)
Definition isDigits (s : string) : bool :=
match s with
| EmptyString => false
| _ => allDigits s
end.

(** The numeral of a finite whole number: digits, with a minus sign in
    front or not.  ["NaN"] and ["Infinity"] are not of that form. *)
Definition isNumeral (s : string) : bool :=
match s with
| String "-" rest => isDigits rest
| _ => isDigits s
end.

(** [x] is the finite number [q]. *)
Definition isFin (x : num) (q : Q) : Prop :=
match x with
| Fin p => p == q
| _ => False
end.

End JsNum.

Import JsNum.

Declare Scope num_scope.
Delimit Scope num_scope with num.
Bind Scope num_scope with num.
Infix "+" := add : num_scope.
Infix "-" := sub : num_scope.
Infix "*" := mul : num_scope.
Infix "/" := div : num_scope.

(* ===================================================================== *)
(** ** The navigation store ([src/lib/stores/navigation.ts]) *)
(* ===================================================================== *)

Module NavigationStore.

Record ChapterInfo : Type := {
  id : Z;
  title : string;
  subtitle : string
}.

(** [export const chapters = [...]]: the entries of the chapter menu. *)
Definition chapters : list ChapterInfo :=
  [ {| id := 1; title := "The Time Thief";
       subtitle := "How Commutes Steal Your Life" |};
    {| id := 2; title := "The Money Drain";
       subtitle := "The True Cost of Getting to Work" |};
    {| id := 3; title := "The Carbon Footprint";
       subtitle := "Environmental Impact of Commuting" |};
    {| id := 4; title := "Geography of Inequality";
       subtitle := "Where You Live Matters" |};
    {| id := 5; title := "Pennsylvania Counties Leading the Way";
       subtitle := "Show What's Working" |};
    {| id := 6; title := "Your Pennsylvania Choice";
       subtitle := "Personal Action Calculator" |};
    {| id := 7; title := "Productivity Paradox";
       subtitle := "The Hidden Economic Cost" |};
    {| id := 8; title := "Remote Work Revolution";
       subtitle := "A New Way Forward" |};
    {| id := 9; title := "Cities That Got It Right";
       subtitle := "Success Stories" |};
    {| id := 10; title := "Your Choice, Your Impact";
       subtitle := "Take Action Today" |} ].

(** [writable(1)]: the store's initial value. *)
Definition currentChapter_initial : Z := 1.

End NavigationStore.

(* ===================================================================== *)
(** ** The page: scroll detection and programmatic navigation
     ([src/routes/+page.svelte], [src/lib/components/Navigation.svelte]) *)
(* ===================================================================== *)

Module Page.

Import NavigationStore.

(** A section element, by its box in page coordinates. *)
Record Element : Type := {
  pageTop : Q;
  boxHeight : Q
}.

(** What a scroll event finds on [window]. *)
Record Window : Type := {
  scrollY : Q;
  innerHeight : Q
}.

Record DOMRect : Type := {
  top : Q;
  height : Q
}.

(** [element.getBoundingClientRect()]: the box relative to the viewport. *)
Definition getBoundingClientRect (w : Window) (e : Element) : DOMRect :=
  {| top := (pageTop e - scrollY w)%Q; height := boxHeight e |}.

(** The script variables of the page and of the navigation bar, the
    store, and the two effects of [scrollToChapter] on the outside: the
    [scrollIntoView] calls issued so far (latest first, by section index)
    and the delays in milliseconds of the [setTimeout] callbacks that have
    not run yet (oldest first). *)
Record State : Type := {
  currentChapter : Z;
  chapterElements : list (option Element);
  scrolling : bool;
  showMenu : bool;
  scrollIntoViewCalls : list Z;
  pendingTimeouts : list Z
}.

Definition set_currentChapter (v : Z) (s : State) : State :=
  {| currentChapter := v;
     chapterElements := chapterElements s;
     scrolling := scrolling s;
     showMenu := showMenu s;
     scrollIntoViewCalls := scrollIntoViewCalls s;
     pendingTimeouts := pendingTimeouts s |}.

Definition set_showMenu (b : bool) (s : State) : State :=
  {| currentChapter := currentChapter s;
     chapterElements := chapterElements s;
     scrolling := scrolling s;
     showMenu := b;
     scrollIntoViewCalls := scrollIntoViewCalls s;
     pendingTimeouts := pendingTimeouts s |}.

(** [chapterElements[index]]: [undefined] out of range and [null] while
    the section is not bound are both falsy, hence both [None]. *)
Definition elementAt (els : list (option Element)) (index : Z)
  : option Element :=
  if index <? 0 then None
  else match nth_error els (Z.to_nat index) with
       | Some (Some e) => Some e
       | _ => None
       end.

(** [window.scrollY + window.innerHeight / 2] *)
Definition scrollPosition (w : Window) : Q :=
  (scrollY w + innerHeight w / 2)%Q.

(** The test of the loop body of [handleScroll] on one bound element. *)
Definition containsMidpoint (w : Window) (e : Element) : bool :=
  let rect := getBoundingClientRect w e in
  let elementTop := (top rect + scrollY w)%Q in
  let elementBottom := (elementTop + height rect)%Q in
  Qle_bool elementTop (scrollPosition w)
  && negb (Qle_bool elementBottom (scrollPosition w)).

(** The [for] loop of [handleScroll] from index [i] on: the index at which
    it reaches [currentChapter.set(i + 1); break], if it does. *)
Fixpoint firstContaining (w : Window) (els : list (option Element)) (i : Z)
  : option Z :=
  match els with
  | [] => None
  | Some e :: rest =>
      if containsMidpoint w e then Some i
      else firstContaining w rest (i + 1)
  | None :: rest => firstContaining w rest (i + 1)
  end.

Definition handleScroll (w : Window) (s : State) : State :=
  if scrolling s then s
  else match firstContaining w (chapterElements s) 0 with
       | Some i => set_currentChapter (i + 1) s
       | None => s
       end.

Definition scrollToChapter (index : Z) (s : State) : State :=
  match elementAt (chapterElements s) index with
  | Some _ =>
      {| currentChapter := currentChapter s;
         chapterElements := chapterElements s;
         scrolling := true;
         showMenu := showMenu s;
         scrollIntoViewCalls := index :: scrollIntoViewCalls s;
         pendingTimeouts := pendingTimeouts s ++ [1000] |}
  | None => s
  end.

(** The callback of [setTimeout(() => { scrolling = false; }, 1000)]. *)
Definition timeoutCallback (s : State) : State :=
  {| currentChapter := currentChapter s;
     chapterElements := chapterElements s;
     scrolling := false;
     showMenu := showMenu s;
     scrollIntoViewCalls := scrollIntoViewCalls s;
     pendingTimeouts := tl (pendingTimeouts s) |}.

Definition handleNavigate (chapterId : Z) (s : State) : State :=
  scrollToChapter (chapterId - 1) s.

(** [Navigation.svelte], with [onNavigate] bound to [handleNavigate]. *)
Definition goToChapter (chapterId : Z) (s : State) : State :=
  handleNavigate chapterId (set_showMenu false (set_currentChapter chapterId s)).

Definition nextChapter (s : State) : State :=
  let current := currentChapter s in
  if current <? 6 then goToChapter (current + 1) s else s.

Definition prevChapter (s : State) : State :=
  let current := currentChapter s in
  if 1 <? current then goToChapter (current - 1) s else s.

(** The callback of [onMount]: [if ($currentChapter > 1)
    scrollToChapter($currentChapter - 1)], after which the scroll listener
    is installed. *)
Definition onMount (s : State) : State :=
  if 1 <? currentChapter s then scrollToChapter (currentChapter s - 1) s
  else s.

(** [$: chapterElements = [chapter1Element, ..., chapter6Element]]: the
    reactive statement, run again once the sections are bound. *)
Definition set_chapterElements (els : list (option Element)) (s : State)
  : State :=
  {| currentChapter := currentChapter s;
     chapterElements := els;
     scrolling := scrolling s;
     showMenu := showMenu s;
     scrollIntoViewCalls := scrollIntoViewCalls s;
     pendingTimeouts := pendingTimeouts s |}.

(** The page as rendered: the store at its initial value and six
    sections.  The callback of [onMount] runs while the reactive
    [chapterElements] still holds the six [null]s it was computed from
    before the sections were bound, so that its [scrollToChapter] finds no
    element; the reactive statement then puts the bound sections in. *)
Definition mounted (e1 e2 e3 e4 e5 e6 : Element) : State :=
  set_chapterElements [Some e1; Some e2; Some e3; Some e4; Some e5; Some e6]
    (onMount
       {| currentChapter := currentChapter_initial;
          chapterElements := [None; None; None; None; None; None];
          scrolling := false;
          showMenu := false;
          scrollIntoViewCalls := [];
          pendingTimeouts := [] |}).

(** What the event loop delivers to the page. *)
Inductive Event : Type :=
| Scroll (w : Window)          (* a scroll event: [handleScroll] *)
| HeroButton                   (* [on:click={() => scrollToChapter(0)}] *)
| MenuItem (chapterId : Z)     (* [on:click={() => goToChapter(chapter.id)}] *)
| NextButton
| PrevButton
| ToggleMenu                   (* [showMenu = !showMenu] *)
| TimeoutFires.                (* a pending [setTimeout] callback runs *)

Definition step (ev : Event) (s : State) : State :=
  match ev with
  | Scroll w => handleScroll w s
  | HeroButton => scrollToChapter 0 s
  | MenuItem chapterId => goToChapter chapterId s
  | NextButton => nextChapter s
  | PrevButton => prevChapter s
  | ToggleMenu => set_showMenu (negb (showMenu s)) s
  | TimeoutFires =>
      match pendingTimeouts s with
      | [] => s
      | _ :: _ => timeoutCallback s
      end
  end.

(** The events in the order they are delivered. *)
Definition run (evs : list Event) (s : State) : State :=
  fold_left (fun acc ev => step ev acc) evs s.

Definition isTimeout (ev : Event) : bool :=
  match ev with TimeoutFires => true | _ => false end.

(** The box [[a, b)] of a section, in page coordinates. *)
Definition section (a b : Q) : Element :=
  {| pageTop := a; boxHeight := (b - a)%Q |}.

(** The half-open interval test of the specification. *)
Definition inSection (y : Q) (e : Element) : Prop :=
  (pageTop e <= y /\ y < pageTop e + boxHeight e)%Q.

(** [style="width: {($currentChapter / 6) * 100}%"]: the width of the
    progress bar, in percent. *)
Definition progressWidth (s : State) : num :=
  (ofZ (currentChapter s) / Fin 6 * Fin 100)%num.

(** [disabled={$currentChapter === 1}] on the Previous button. *)
Definition prevDisabled (s : State) : bool := currentChapter s =? 1.

(** [disabled={$currentChapter === 6}] on the Next button. *)
Definition nextDisabled (s : State) : bool := currentChapter s =? 6.

(** The events that stay within the six sections: every menu entry picked
    is one of the chapters 1 to 6. *)
Definition withinSections (ev : Event) : bool :=
  match ev with
  | MenuItem chapterId => (1 <=? chapterId) && (chapterId <=? 6)
  | _ => true
  end.

(** While the page scrolls programmatically a timeout is pending. *)
Definition timeoutPending (s : State) : Prop :=
  scrolling s = true -> pendingTimeouts s <> [].

End Page.

(* ===================================================================== *)
(** ** Loading static JSON: [fetch], [try]/[catch], the console *)
(* ===================================================================== *)

Module Fetch.

(** What a [try] block can throw. *)
Inductive Error : Type :=
| NetworkError (url : string)   (* [fetch(url)] rejects *)
| SyntaxError (url : string)    (* [response.json()] rejects: not JSON *)
| TypeError (property : string). (* a property read on [undefined] *)

(** What the server does with one request: [await fetch(url)] followed by
    [await response.json()] either rejects at the first step, rejects at
    the second, or yields the parsed body. *)
Inductive Response (A : Type) : Type :=
| Unreachable
| NotJson
| Json (body : A).

Arguments Unreachable {A}.
Arguments NotJson {A}.
Arguments Json {A} body.

Definition failed {A : Type} (r : Response A) : bool :=
match r with Json _ => false | _ => true end.

(** [console.error(message, error)] *)
Record LogEntry : Type := {
  message : string;
  logged : Error
}.

(** A [try] block over the script variables [S]: it runs to a value or
    throws, and the assignments made before a [throw] stay. *)
Definition Try (S A : Type) : Type := S -> (Error + A) * S.

Definition ret {S A : Type} (a : A) : Try S A := fun s => (inr a, s).

Definition bind {S A B : Type} (m : Try S A) (k : A -> Try S B) : Try S B :=
fun s =>
  match m s with
  | (inl e, s') => (inl e, s')
  | (inr a, s') => k a s'
  end.

Definition throw {S A : Type} (e : Error) : Try S A := fun s => (inl e, s).

(** An assignment to the script variables. *)
Definition assign {S : Type} (f : S -> S) : Try S unit := fun s => (inr tt, f s).

(** The script variables as they are at this point. *)
Definition get {S : Type} : Try S S := fun s => (inr s, s).

(** [const data = await (await fetch(url)).json()] *)
Definition fetchJson {S A : Type} (url : string) (r : Response A) : Try S A :=
match r with
| Unreachable => throw (NetworkError url)
| NotJson => throw (SyntaxError url)
| Json body => ret body
end.

(** [object.property.…]: reading through a missing object throws. *)
Definition property {S A : Type} (name : string) (o : option A) : Try S A :=
match o with
| Some a => ret a
| None => throw (TypeError name)
end.

(** [try { body } catch (error) { handler(error) }] *)
Definition tryCatch {S : Type} (body : Try S unit) (handler : Error -> S -> S)
  (s : S) : S :=
match body s with
| (inr _, s') => s'
| (inl e, s') => handler e s'
end.

Definition threw {S A : Type} (body : Try S A) (s : S) : bool :=
match fst (body s) with inl _ => true | inr _ => false end.

(** A numeric field of a parsed body: [None] when the field is missing. *)
Definition toNumber (v : option num) : num :=
match v with Some x => x | None => NaN end.

(** [v || fallback] on a numeric field. *)
Definition orElse (v : option num) (fallback : num) : num :=
match v with
| Some x => if truthy x then x else fallback
| None => fallback
end.

(** [pa_summary_stats.json] *)
Record SummaryStats : Type := {
  total_commuters : option num;
  avg_commute_minutes : option num;
  annual_hours_lost : option num;
  summary_transit_pct : option num;
  summary_wfh_pct : option num;
  bike_walk_pct : option num
}.

Record ModeSplit : Type := {
  drive_alone_pct : option num;
  transit_pct : option num;
  wfh_pct : option num
}.

Record Scenario : Type := {
  emissions_tons : option num;
  mode_split : option ModeSplit
}.

(** [pa_scenarios.json]: the scenario named [current]. *)
Record Scenarios : Type := {
  current : option Scenario
}.

(** A numeric field as JSON can hold it: missing, or a finite number. *)
Definition jsonNumber (v : option num) : bool :=
match v with
| None | Some (Fin _) => true
| Some _ => false
end.

(** A figure of a data file as it is plausible: missing, zero, or
    between a millionth and [MAX_SAFE_INTEGER].  Quotients of a few such
    figures neither overflow nor underflow, also on doubles. *)
Definition plausibleNumber (v : option num) : bool :=
match v with
| None => true
| Some (Fin q) =>
    Qeq_bool q 0 || (Qle_bool (1 # 1000000) q && Qle_bool q MAX_SAFE_INTEGER)
| Some _ => false
end.

(** The console holds an error logged under [msg]. *)
Definition logs (msg : string) (console : list LogEntry) : Prop :=
exists e : Error, In {| message := msg; logged := e |} console.

End Fetch.

(* ===================================================================== *)
(** ** What a template shows and what its inputs admit *)
(* ===================================================================== *)

Module Template.

(** The branch of a chapter's template that is on screen. *)
Inductive View : Type :=
| LoadingState     (* [{#if !dataLoaded}]: the loading placeholder *)
| LoadFailure      (* a message that the data could not be loaded *)
| Content.         (* the chapter's narrative and charts *)

(** The attributes of an [<input>] that bound its value. *)
Inductive InputType : Type := range | number.

Record Input : Type := {
  type : InputType;
  min : Q;
  max : Q;
  step : Q
}.

(** [v] is [min] plus a whole number of steps. *)
Definition onStep (i : Input) (v : Q) : bool :=
(Qden (Qred ((v - min i) / step i)) =? 1)%positive.

(** [v] satisfies the bounds the attributes declare: no range underflow,
    no range overflow, no step mismatch. *)
Definition accepts (i : Input) (v : Q) : bool :=
Qle_bool (min i) v && Qle_bool v (max i) && onStep i v.

End Template.

Notation "x <- m ;; k" := (Fetch.bind m (fun x => k))
  (at level 61, m at next level, right associativity).
Notation "m ;;; k" := (Fetch.bind m (fun _ => k))
  (at level 61, right associativity).

(* ===================================================================== *)
(** ** Chapter 1: the state figures and the personal calculator
       ([src/lib/components/chapters/Chapter1.svelte]) *)
(* ===================================================================== *)

Module Chapter1.

Import Fetch Template.
Local Open Scope num_scope.
Local Open Scope Q_scope.

Record Stats : Type := {
  totalCommuters : option num;
  avgCommuteMinutes : option num;
  annualHoursLost : option num;
  annualCO2Tons : option num;
  carsEquivalent : num;
  avgCO2PerPerson : num
}.

(** The script variables, the console, and the [setTimeout] calls made so
    far as pairs of a delay in milliseconds and the [animationStep] the
    callback assigns. *)
Record State : Type := {
  PA_STATS : Stats;
  userCommuteMinutes : num;
  animationStep : Z;
  dataLoaded : bool;
  console : list LogEntry;
  timeouts : list (Z * Z)
}.

Definition initial : State :=
{| PA_STATS := {| totalCommuters := Some (Fin 0);
                  avgCommuteMinutes := Some (Fin 0);
                  annualHoursLost := Some (Fin 0);
                  annualCO2Tons := Some (Fin 0);
                  carsEquivalent := Fin 0;
                  avgCO2PerPerson := Fin 0 |};
   userCommuteMinutes := Fin 27;
   animationStep := 0;
   dataLoaded := false;
   console := [];
   timeouts := [] |}.

(** The four [setTimeout(() => animationStep = k, delay)] calls. *)
Definition animationSequence : list (Z * Z) :=
[(500, 1); (2000, 2); (4000, 3); (6000, 4)]%Z.

(** The constants of the [catch] branch. *)
Definition fallbackStats : Stats :=
{| totalCommuters := Some (Fin 6179069);
   avgCommuteMinutes := Some (Fin 9.9);
   annualHoursLost := Some (Fin 509773192);
   annualCO2Tons := Some (Fin 2166258);
   carsEquivalent := Fin 470000;
   avgCO2PerPerson := Fin 0.35 |}.

(** The body of the [try] block of [onMount]. *)
Definition tryBlock (summary : Response SummaryStats)
  (scenarios : Response Scenarios) : Try State unit :=
summaryData <- fetchJson "/pa_summary_stats.json" summary ;;
scenariosData <- fetchJson "/pa_scenarios.json" scenarios ;;
let totalCommuters_ := total_commuters summaryData in
currentScenario <- property "current" (current scenariosData) ;;
let annualCO2Tons_ := emissions_tons currentScenario in
let avgCO2PerPerson_ := (toNumber annualCO2Tons_ / toNumber totalCommuters_)%num in
let carsEquivalent_ := round (toNumber annualCO2Tons_ / Fin 4.6)%num in
assign (fun s =>
  let stats := {| totalCommuters := total_commuters summaryData;
                  avgCommuteMinutes := avg_commute_minutes summaryData;
                  annualHoursLost := annual_hours_lost summaryData;
                  annualCO2Tons := annualCO2Tons_;
                  carsEquivalent := carsEquivalent_;
                  avgCO2PerPerson := avgCO2PerPerson_ |} in
  {| PA_STATS := stats;
     userCommuteMinutes := round (toNumber (avgCommuteMinutes stats));
     animationStep := animationStep s;
     dataLoaded := true;
     console := console s;
     timeouts := (timeouts s ++ animationSequence)%list |}).

(** The [catch] branch of [onMount]. *)
Definition catchBlock (error : Error) (s : State) : State :=
{| PA_STATS := fallbackStats;
   userCommuteMinutes := userCommuteMinutes s;
   animationStep := animationStep s;
   dataLoaded := true;
   console := (console s
               ++ [{| message := "Error loading PA data:"; logged := error |}])%list;
   timeouts := (timeouts s ++ animationSequence)%list |}.

Definition onMount (summary : Response SummaryStats)
  (scenarios : Response Scenarios) (s : State) : State :=
tryCatch (tryBlock summary scenarios) catchBlock s.

(** [$: userAnnualHours = (userCommuteMinutes * 2 * 5 * 50) / 60] *)
Definition userAnnualHours (s : State) : num :=
(userCommuteMinutes s * Fin 2 * Fin 5 * Fin 50 / Fin 60)%num.

(** [$: userAnnualCO2 =
       (userCommuteMinutes * 0.5 * 2 * 250 * 8.887 / 25) / 1000] *)
Definition userAnnualCO2 (s : State) : num :=
(userCommuteMinutes s * Fin 0.5 * Fin 2 * Fin 250 * Fin 8.887 / Fin 25
 / Fin 1000)%num.

(** [$: comparisonToPAAvg =
       ((userAnnualCO2 / PA_STATS.avgCO2PerPerson - 1) * 100).toFixed(1)] *)
Definition comparisonToPAAvg (s : State) : string :=
toFixed 1 ((userAnnualCO2 s / avgCO2PerPerson (PA_STATS s) - Fin 1) * Fin 100)%num.

(** [{#if !dataLoaded} ... {:else} ... {/if}] *)
Definition view (s : State) : View :=
if negb (dataLoaded s) then LoadingState else Content.

(** [<input id="commute-input" type="range" min="5" max="90" step="1">] *)
Definition commuteInput : Input :=
{| type := range; min := 5; max := 90; step := 1 |}.

End Chapter1.

(* ===================================================================== *)
(** ** The SVG scene the chart renderers build *)
(* ===================================================================== *)

Module Svg.

(** What [setAttribute(name, ...)] stores: a literal, or [String(x)] of a
    number [x], kept as the number. *)
Inductive AttrValue : Type :=
| Str (s : string)
| Num (x : num).

(** An element with its attributes and inline style in the order they are
    set, the listeners added to it ([H] describes a handler), its text
    content and its children in the order they are appended. *)
#[local] Unset Elimination Schemes.
Inductive Node (H : Type) : Type :=
| Element (tag : string)
    (attributes : list (string * AttrValue))
    (style : list (string * string))
    (listeners : list (string * H))
    (textContent : option string)
    (children : list (Node H)).

#[local] Set Elimination Schemes.

Arguments Element {H} tag attributes style listeners textContent children.

(** [document.createElementNS(svgNS, tag)] followed by [setAttribute]s. *)
Definition shape {H : Type} (tag : string) (attributes : list (string * AttrValue))
  : Node H :=
Element tag attributes [] [] None [].

(** A [text] element with its [textContent]. *)
Definition label {H : Type} (attributes : list (string * AttrValue))
  (content : string) : Node H :=
Element "text" attributes [] [] (Some content) [].

(** The integers [0, 1, ..., n], the values of a loop variable. *)
Definition upTo (n : nat) : list num :=
map (fun i => ofZ (Z.of_nat i)) (seq 0 (S n)).

(** A container element: its children, or [None] while the component's
    [bind:this] variable is still [undefined]. *)
Definition Container (H : Type) : Type := option (list (Node H)).

(** The parts of an element. *)
Definition tagOf {H : Type} (n : Node H) : string :=
match n with Element tag _ _ _ _ _ => tag end.

Definition attributesOf {H : Type} (n : Node H) : list (string * AttrValue) :=
match n with Element _ attributes _ _ _ _ => attributes end.

Definition listenersOf {H : Type} (n : Node H) : list (string * H) :=
match n with Element _ _ _ listeners _ _ => listeners end.

Definition childrenOf {H : Type} (n : Node H) : list (Node H) :=
match n with Element _ _ _ _ _ children => children end.

Definition hasTag {H : Type} (tag : string) (n : Node H) : bool :=
String.eqb (tagOf n) tag.

(** [element.getAttribute(name)]: the value set last under that name. *)
Fixpoint lastSet (name : string) (attributes : list (string * AttrValue))
  : option AttrValue :=
match attributes with
| [] => None
| (k, v) :: rest =>
    match lastSet name rest with
    | Some later => Some later
    | None => if String.eqb k name then Some v else None
    end
end.

Definition getAttribute {H : Type} (name : string) (n : Node H) : option AttrValue :=
lastSet name (attributesOf n).

(** [element.setAttribute(name, value)] for each pair of [new], in
    order. *)
Definition setAttributes {H : Type} (new : list (string * AttrValue))
  (n : Node H) : Node H :=
match n with
| Element tag attributes style listeners textContent children =>
    Element tag (attributes ++ new) style listeners textContent children
end.

(** The attribute [name] of [n] is the finite number [q] for some [q]
    between [lo] and [hi]. *)
Definition attributeWithin {H : Type} (name : string) (lo hi : Q) (n : Node H)
  : Prop :=
exists q : Q, getAttribute name n = Some (Num (Fin q)) /\ (lo <= q <= hi)%Q.

End Svg.

(* ===================================================================== *)
(** ** Chapter 2: county emissions
       ([src/lib/components/chapters/Chapter2.svelte]) *)
(* ===================================================================== *)

Module Chapter2.

Import Fetch Template Svg.
Local Open Scope string_scope.
Local Open Scope num_scope.
Local Open Scope Q_scope.

Record CountyData : Type := {
  county : string;
  lat : option num;
  lon : option num;
  co2_tons : num;
  population : option num;
  co2_per_capita : option num;
  total_workers : option num;
  mean_commute : option num
}.

Inductive ViewMode : Type := total | per_capita.

(** The listeners [renderMap] adds to a circle. *)
Inductive Handler : Type :=
| MouseEnter (c : CountyData)  (* highlight; [selectedCounty = county] *)
| MouseLeave.                  (* back to the resting opacity and stroke *)

Record State : Type := {
  countyData : list CountyData;
  dataLoaded : bool;
  mapContainer : Container Handler;
  viewMode : ViewMode;
  selectedCounty : option CountyData;
  console : list LogEntry
}.

Definition initial : State :=
{| countyData := [];
   dataLoaded := false;
   mapContainer := None;
   viewMode := total;
   selectedCounty := None;
   console := [] |}.

Definition set_countyData (v : list CountyData) (s : State) : State :=
{| countyData := v; dataLoaded := dataLoaded s; mapContainer := mapContainer s;
   viewMode := viewMode s; selectedCounty := selectedCounty s;
   console := console s |}.

Definition set_dataLoaded (v : bool) (s : State) : State :=
{| countyData := countyData s; dataLoaded := v; mapContainer := mapContainer s;
   viewMode := viewMode s; selectedCounty := selectedCounty s;
   console := console s |}.

Definition set_mapContainer (v : Container Handler) (s : State) : State :=
{| countyData := countyData s; dataLoaded := dataLoaded s; mapContainer := v;
   viewMode := viewMode s; selectedCounty := selectedCounty s;
   console := console s |}.

Definition set_viewMode (v : ViewMode) (s : State) : State :=
{| countyData := countyData s; dataLoaded := dataLoaded s;
   mapContainer := mapContainer s; viewMode := v;
   selectedCounty := selectedCounty s; console := console s |}.

Definition set_selectedCounty (v : option CountyData) (s : State) : State :=
{| countyData := countyData s; dataLoaded := dataLoaded s;
   mapContainer := mapContainer s; viewMode := viewMode s;
   selectedCounty := v; console := console s |}.

(** What a listener of a circle does to the script variables when its
    event arrives: [mouseenter] assigns [selectedCounty = county];
    [mouseleave] assigns nothing, so that the county stays selected. *)
Definition handle (h : Handler) (s : State) : State :=
match h with
| MouseEnter c => set_selectedCounty (Some c) s
| MouseLeave => s
end.

(** The attributes the listener sets on its circle. *)
Definition attributesSetBy (h : Handler) : list (string * AttrValue) :=
match h with
| MouseEnter _ => [ ("fill-opacity", Str "0.9"); ("stroke-width", Str "3") ]
| MouseLeave => [ ("fill-opacity", Str "0.6"); ("stroke-width", Str "2") ]
end.

(** The circle after the listener [h] has run on it. *)
Definition hover (h : Handler) (circle : Node Handler) : Node Handler :=
setAttributes (attributesSetBy h) circle.

(** [countyCoordinates] *)
Definition countyCoordinates : list (string * (num * num)) :=
[ ("Allegheny", (Fin 40.4406, Fin (-79.9959)));
  ("Philadelphia", (Fin 40.0094, Fin (-75.1333)));
  ("Montgomery", (Fin 40.1688, Fin (-75.3560)));
  ("Bucks", (Fin 40.3154, Fin (-75.1085)));
  ("Delaware", (Fin 39.9167, Fin (-75.4167)));
  ("Chester", (Fin 39.9857, Fin (-75.7499)));
  ("Lancaster", (Fin 40.0379, Fin (-76.3055)));
  ("York", (Fin 39.9626, Fin (-76.7277)));
  ("Berks", (Fin 40.4167, Fin (-75.9269)));
  ("Dauphin", (Fin 40.3991, Fin (-76.7897)));
  ("Westmoreland", (Fin 40.3097, Fin (-79.5181)));
  ("Erie", (Fin 42.1292, Fin (-80.0851)));
  ("Lehigh", (Fin 40.6023, Fin (-75.5964)));
  ("Northampton", (Fin 40.7533, Fin (-75.3082)));
  ("Luzerne", (Fin 41.1843, Fin (-75.8813))) ].

(** [metroToCounties] *)
Definition metroToCounties : list (string * list string) :=
[ ("Philadelphia", ["Philadelphia"; "Montgomery"; "Bucks"; "Delaware"; "Chester"]);
  ("Pittsburgh", ["Allegheny"; "Westmoreland"]);
  ("Harrisburg", ["Dauphin"]);
  ("Allentown", ["Lehigh"; "Northampton"]) ]%string.

(** [table[key]] on an object literal used as a map. *)
Fixpoint lookup {A : Type} (key : string) (table : list (string * A)) : option A :=
match table with
| [] => None
| (k, v) :: rest => if String.eqb k key then Some v else lookup key rest
end.

(** [countyCoordinates[name] || { lat: 40.0, lon: -77.0 }] *)
Definition coordinatesOf (name : string) : num * num :=
match lookup name countyCoordinates with
| Some c => c
| None => (Fin 40.0, Fin (-77.0))
end.

(** [$: totalEmissions] *)
Definition totalEmissions (s : State) : num :=
if (0 <? List.length (countyData s))%nat
then fold_left (fun sum c => (sum + co2_tons c)%num) (countyData s) (Fin 0)
else Fin 0.

(** [countyData.slice(0, Math.min(10, countyData.length))] *)
Definition top10Records (s : State) : list CountyData :=
firstn (Nat.min 10 (List.length (countyData s))) (countyData s).

(** [$: top10Emissions] *)
Definition top10Emissions (s : State) : num :=
if (0 <? List.length (countyData s))%nat
then fold_left (fun sum c => (sum + co2_tons c)%num) (top10Records s) (Fin 0)
else Fin 0.

(** [$: top10Percentage] *)
Definition top10Percentage (s : State) : string :=
if gt (totalEmissions s) (Fin 0)
then toFixed 0 (top10Emissions s / totalEmissions s * Fin 100)%num
else "0".

(** The rows of the three files the chapter loads. *)
Record MapItem : Type := {
  map_county : string;
  map_lat : option num;
  map_lon : option num;
  map_co2_tons : option num;
  map_co2_per_capita : option num;
  map_mean_commute : option num
}.

Record EmissionsItem : Type := {
  em_county : string;
  annual_co2_tons : option num;
  co2_per_capita_tons : option num;
  em_total_workers : option num;
  mean_commute_minutes : option num
}.

Record MetroItem : Type := {
  metro : string;
  metro_co2_per_capita : option num;
  workers : option num;
  avg_commute : option num
}.

Definition ofMapItem (item : MapItem) : CountyData :=
{| county := map_county item;
   lat := map_lat item;
   lon := map_lon item;
   co2_tons := orElse (map_co2_tons item) (Fin 0);
   population := None;
   co2_per_capita := Some (orElse (map_co2_per_capita item) (Fin 0));
   total_workers := None;
   mean_commute := map_mean_commute item |}.

Definition ofEmissionsItem (item : EmissionsItem) : CountyData :=
let coords := coordinatesOf (em_county item) in
{| county := em_county item;
   lat := Some (fst coords);
   lon := Some (snd coords);
   co2_tons := orElse (annual_co2_tons item) (Fin 0);
   population := None;
   co2_per_capita := Some (orElse (co2_per_capita_tons item) (Fin 0));
   total_workers := em_total_workers item;
   mean_commute := mean_commute_minutes item |}.

Definition ofMetroItem (m : MetroItem) : CountyData :=
let counties :=
  match lookup (metro m) metroToCounties with
  | Some cs => cs
  | None => [metro m]
  end in
let primaryCounty := hd (metro m) counties in
let coords := coordinatesOf primaryCounty in
let estimatedCO2 := (toNumber (metro_co2_per_capita m) * toNumber (workers m))%num in
{| county := primaryCounty;
   lat := Some (fst coords);
   lon := Some (snd coords);
   co2_tons := estimatedCO2;
   population := None;
   co2_per_capita := metro_co2_per_capita m;
   total_workers := workers m;
   mean_commute := avg_commute m |}.

Definition fixedCounty (name : string) (la lo tons perCapita : Q) : CountyData :=
{| county := name; lat := Some (Fin la); lon := Some (Fin lo);
   co2_tons := Fin tons; population := None;
   co2_per_capita := Some (Fin perCapita);
   total_workers := None; mean_commute := None |}.

(** The default of the [try] block, when none of the three files has rows. *)
Definition defaultCounties : list CountyData :=
[ fixedCounty "Philadelphia" 40.0094 (-75.1333) 2345000 1.48;
  fixedCounty "Allegheny" 40.4406 (-79.9959) 1234000 0.99;
  fixedCounty "Montgomery" 40.1688 (-75.3560) 987000 1.15;
  fixedCounty "Bucks" 40.3154 (-75.1085) 765000 1.22;
  fixedCounty "Delaware" 39.9167 (-75.4167) 654000 1.16 ].

(** The fallback of the [catch] branch. *)
Definition fallbackCounties : list CountyData :=
[ fixedCounty "Philadelphia" 40.0094 (-75.1333) 2345000 1.48;
  fixedCounty "Allegheny" 40.4406 (-79.9959) 1234000 0.99;
  fixedCounty "Montgomery" 40.1688 (-75.3560) 987000 1.15 ].

(** [countyData.sort((a, b) => b.co2_tons - a.co2_tons)]: a stable sort,
    larger emissions first.  [c], which stood before the records of
    [sorted], moves behind a record [d] only when the comparator is above
    zero on the two; on a tie, and on a comparison that is NaN (which the
    sort takes for a tie), it stays in front, as in the file. *)
Fixpoint insertByEmissions (c : CountyData) (sorted : list CountyData)
  : list CountyData :=
match sorted with
| [] => [c]
| d :: rest =>
    if gt (co2_tons d - co2_tons c)%num (Fin 0)
    then d :: insertByEmissions c rest
    else c :: d :: rest
end.

Definition sortByEmissions (l : list CountyData) : list CountyData :=
fold_right (fun c acc => insertByEmissions c acc) [] l.

(** The geometry of [renderMap]. *)
Definition svgWidth : num := Fin 800.
Definition svgHeight : num := Fin 600.
Definition leftMargin : num := Fin 80.
Definition rightMargin : num := Fin 50.
Definition topMargin : num := Fin 50.
Definition bottomMargin : num := Fin 80.
Definition plotWidth : num := (svgWidth - leftMargin - rightMargin)%num.
Definition plotHeight : num := (svgHeight - topMargin - bottomMargin)%num.

(** [county[valueKey]] *)
Definition valueOf (mode : ViewMode) (c : CountyData) : option num :=
match mode with
| total => Some (co2_tons c)
| per_capita => co2_per_capita c
end.

Definition truthyField (v : option num) : bool :=
match v with Some x => truthy x | None => false end.

(** [emissionValue === maxValue] *)
Definition strictEq (v : option num) (x : num) : bool :=
match v with Some y => eqb y x | None => false end.

Section RenderMap.

(** [Math.sqrt], which is not rational, is left open. *)
Variable Math_sqrt : num -> num.

(** [getRadius(county)] *)
Definition getRadius (data : list CountyData) (c : CountyData) : num :=
if truthyField (total_workers c) then
  let maxWorkers := maxOf (map (fun c => orElse (total_workers c) (Fin 0)) data) in
  let minR := Fin 8 in
  let maxR := Fin 35 in
  (Math_sqrt (orElse (total_workers c) (Fin 0) / or maxWorkers (Fin 1))
   * (maxR - minR) + minR)%num
else Fin 12.

(** The tick mark and the label of the X axis at step [i] of 6. *)
Definition xTick (minCommute maxCommute i : num) : list (Node Handler) :=
let xTickCount := Fin 6 in
let value := (minCommute + (maxCommute - minCommute) * (i / xTickCount))%num in
let x := (leftMargin + plotWidth * i / xTickCount)%num in
[ shape "line"
    [ ("x1", Num x); ("y1", Num (topMargin + plotHeight)%num);
      ("x2", Num x); ("y2", Num (topMargin + plotHeight + Fin 5)%num);
      ("stroke", Str "rgba(255,255,255,0.4)"); ("stroke-width", Str "1") ];
  label
    [ ("x", Num x); ("y", Num (topMargin + plotHeight + Fin 22)%num);
      ("text-anchor", Str "middle"); ("fill", Str "rgba(255,255,255,0.8)");
      ("font-size", Str "12") ]
    (toFixed 0 value) ].

(** The tick mark and the label of the Y axis at step [i] of 6. *)
Definition yTick (mode : ViewMode) (minValue maxValue i : num)
  : list (Node Handler) :=
let yTickCount := Fin 6 in
let value := (minValue + (maxValue - minValue) * (Fin 1 - i / yTickCount))%num in
let y := (topMargin + plotHeight * i / yTickCount)%num in
[ shape "line"
    [ ("x1", Num leftMargin); ("y1", Num y);
      ("x2", Num (leftMargin - Fin 5)%num); ("y2", Num y);
      ("stroke", Str "rgba(255,255,255,0.4)"); ("stroke-width", Str "1") ];
  label
    [ ("x", Num (leftMargin - Fin 10)%num); ("y", Num (y + Fin 4)%num);
      ("text-anchor", Str "end"); ("fill", Str "rgba(255,255,255,0.8)");
      ("font-size", Str "12") ]
    match mode with
    | total => toFixed 0 (value / Fin 1000)%num ++ "K"
    | per_capita => toFixed 1 value
    end ].

(** The body of [countyData.forEach]: the circle of a county, its name
    and, for the top emitter, the annotation. *)
Definition countyMarks (data : list CountyData) (mode : ViewMode)
  (minCommute maxCommute minValue maxValue : num) (c : CountyData)
  : list (Node Handler) :=
let commuteTime := orElse (mean_commute c) ((minCommute + maxCommute) / Fin 2)%num in
let emissionValue := valueOf mode c in
let x := (leftMargin
          + (commuteTime - minCommute) / or (maxCommute - minCommute) (Fin 1)
            * plotWidth)%num in
let y := (topMargin + plotHeight
          - (toNumber emissionValue - minValue) / or (maxValue - minValue) (Fin 1)
            * plotHeight)%num in
let radius := getRadius data c in
let circle :=
  Element "circle"
    [ ("cx", Num x); ("cy", Num y); ("r", Num radius);
      ("fill", Str "#ff6b6b"); ("fill-opacity", Str "0.6");
      ("stroke", Str "#ff6b6b"); ("stroke-width", Str "2") ]
    [ ("cursor", "pointer") ]
    [ ("mouseenter", MouseEnter c); ("mouseleave", MouseLeave) ]
    None [] in
let nameLabel :=
  label
    [ ("x", Num x); ("y", Num (y - radius - Fin 8)%num);
      ("text-anchor", Str "middle"); ("font-size", Str "11");
      ("fill", Str "#ffffff"); ("font-weight", Str "600");
      ("stroke", Str "#000000"); ("stroke-width", Str "0.5");
      ("stroke-opacity", Str "0.7") ]
    (county c) in
let isTop := strictEq emissionValue maxValue in
let labelX := (x + radius + Fin 25)%num in
let labelY := (y - Fin 5)%num in
([circle; nameLabel]
 ++ (if isTop then
       [ shape "line"
           [ ("x1", Num (x + radius)%num); ("y1", Num y);
             ("x2", Num (labelX - Fin 4)%num); ("y2", Num labelY);
             ("stroke", Str "#ffd93d"); ("stroke-width", Str "1.5") ];
         label
           [ ("x", Num labelX); ("y", Num labelY);
             ("fill", Str "#ffd93d"); ("font-size", Str "13");
             ("font-weight", Str "bold"); ("stroke", Str "#333");
             ("stroke-width", Str "0.7") ]
           match mode with
           | total => "Top Emitter"
           | per_capita => "Highest per Capita"
           end ]
     else []))%list.

(** The [svg] element [renderMap] builds from the data and the view mode. *)
Definition mapScene (data : list CountyData) (mode : ViewMode) : Node Handler :=
let yAxisLabel :=
  match mode with
  | total => "Total Annual CO₂ Emissions (tons)"
  | per_capita => "Per Capita CO₂ Emissions (tons/person)"
  end in
let commuteTimes :=
  filter (fun v => gt v (Fin 0))
         (map (fun c => orElse (mean_commute c) (Fin 0)) data) in
let minCommute :=
  if (0 <? List.length commuteTimes)%nat then minOf commuteTimes else Fin 0 in
let maxCommute :=
  if (0 <? List.length commuteTimes)%nat then maxOf commuteTimes else Fin 50 in
let values := map (fun c => toNumber (valueOf mode c)) data in
let minValue := minOf values in
let maxValue := maxOf values in
let plotArea :=
  shape "rect"
    [ ("x", Num leftMargin); ("y", Num topMargin);
      ("width", Num plotWidth); ("height", Num plotHeight);
      ("fill", Str "rgba(255,255,255,0.02)");
      ("stroke", Str "rgba(255,255,255,0.2)"); ("stroke-width", Str "1") ] in
let xAxis :=
  shape "line"
    [ ("x1", Num leftMargin); ("y1", Num (topMargin + plotHeight)%num);
      ("x2", Num (leftMargin + plotWidth)%num);
      ("y2", Num (topMargin + plotHeight)%num);
      ("stroke", Str "rgba(255,255,255,0.5)"); ("stroke-width", Str "2") ] in
let yAxis :=
  shape "line"
    [ ("x1", Num leftMargin); ("y1", Num topMargin);
      ("x2", Num leftMargin); ("y2", Num (topMargin + plotHeight)%num);
      ("stroke", Str "rgba(255,255,255,0.5)"); ("stroke-width", Str "2") ] in
let xAxisTitle :=
  label
    [ ("x", Num (leftMargin + plotWidth / Fin 2)%num);
      ("y", Num (svgHeight - Fin 20)%num);
      ("text-anchor", Str "middle"); ("fill", Str "rgba(255,255,255,0.9)");
      ("font-size", Str "14"); ("font-weight", Str "600") ]
    "Average Commute Time (minutes)" in
let yAxisTitle :=
  label
    [ ("x", Num (Fin 20)); ("y", Num (topMargin + plotHeight / Fin 2)%num);
      ("text-anchor", Str "middle"); ("fill", Str "rgba(255,255,255,0.9)");
      ("font-size", Str "14"); ("font-weight", Str "600");
      ("transform", Str "rotate(-90, 20, 285)") ]
    yAxisLabel in
Element "svg"
  [ ("viewBox", Str "0 0 800 600") ]
  [ ("width", "100%"); ("height", "600px");
    ("background", "rgba(255,255,255,0.05)"); ("borderRadius", "12px") ]
  [] None
  ([plotArea; xAxis; yAxis]
   ++ flat_map (xTick minCommute maxCommute) (upTo 6)
   ++ flat_map (yTick mode minValue maxValue) (upTo 6)
   ++ [xAxisTitle; yAxisTitle]
   ++ flat_map (countyMarks data mode minCommute maxCommute minValue maxValue)
               data)%list.

(** [renderMap()]: nothing without a container or without data; otherwise
    [mapContainer.innerHTML = ''] and [mapContainer.appendChild(svg)]. *)
Definition renderMap (s : State) : State :=
match mapContainer s with
| None => s
| Some _ =>
    if (List.length (countyData s) =? 0)%nat then s
    else
      let svg := mapScene (countyData s) (viewMode s) in
      let cleared : list (Node Handler) := [] in
      set_mapContainer (Some (cleared ++ [svg])%list) s
end.

Definition toggleView (s : State) : State :=
renderMap
  (set_viewMode match viewMode s with total => per_capita | per_capita => total end
                s).

(** The rows [onMount] keeps: the first of the three files that has any,
    else the default. *)
Definition chooseCounties (mapData : list MapItem)
  (emissionsData : list EmissionsItem) (metroData : list MetroItem)
  : list CountyData :=
if (0 <? List.length mapData)%nat then map ofMapItem mapData
else if (0 <? List.length emissionsData)%nat then map ofEmissionsItem emissionsData
else if (0 <? List.length metroData)%nat then map ofMetroItem metroData
else defaultCounties.

(** The body of the [try] block of [onMount]. *)
Definition tryBlock (mapResponse : Response (list MapItem))
  (emissionsResponse : Response (list EmissionsItem))
  (metroResponse : Response (list MetroItem)) : Try State unit :=
mapData <- fetchJson "/pa_county_map_data.json" mapResponse ;;
emissionsData <- fetchJson "/pa_county_emissions.json" emissionsResponse ;;
metroData <- fetchJson "/pa_metro_comparison.json" metroResponse ;;
assign (fun s =>
  renderMap
    (set_dataLoaded true
       (set_countyData
          (sortByEmissions (chooseCounties mapData emissionsData metroData)) s))).

Definition catchBlock (error : Error) (s : State) : State :=
renderMap
  (set_dataLoaded true
     (set_countyData fallbackCounties
        {| countyData := countyData s; dataLoaded := dataLoaded s;
           mapContainer := mapContainer s; viewMode := viewMode s;
           selectedCounty := selectedCounty s;
           console := (console s
                       ++ [{| message := "Error loading county data:";
                              logged := error |}])%list |})).

Definition onMount (mapResponse : Response (list MapItem))
  (emissionsResponse : Response (list EmissionsItem))
  (metroResponse : Response (list MetroItem)) (s : State) : State :=
tryCatch (tryBlock mapResponse emissionsResponse metroResponse) catchBlock s.

End RenderMap.

(** [{#if !dataLoaded} ... {:else} ... {/if}] *)
Definition view (s : State) : View :=
if negb (dataLoaded s) then LoadingState else Content.

(** Svelte binds [mapContainer] once the branch that holds
    [<div bind:this={mapContainer}>] is on screen. *)
Definition bindContainer (s : State) : State :=
match view s, mapContainer s with
| Content, None => set_mapContainer (Some []) s
| _, _ => s
end.

(** [c] emits at least as much as [d]. *)
Definition emitsAtLeast (c d : CountyData) : Prop :=
le (co2_tons d) (co2_tons c) = true.

(** The emissions of every row are finite. *)
Definition finiteEmissions (rows : list CountyData) : Prop :=
Forall (fun c => isFinite (co2_tons c) = true) rows.

(** The records a list of more than ten leaves out of the top ten. *)
Definition beyondTop10 (s : State) : list CountyData :=
skipn (Nat.min 10 (List.length (countyData s))) (countyData s).

(** The emissions of every row are finite and not negative. *)
Definition nonNegEmissions (rows : list CountyData) : Prop :=
Forall (fun c => nonNegFinite (co2_tons c)) rows.

(** The emissions of every row are finite, not negative and at most
    [MAX_SAFE_INTEGER]: no sum of them overflows, also on doubles. *)
Definition moderateEmissions (rows : list CountyData) : Prop :=
Forall (fun c => within 0 MAX_SAFE_INTEGER (co2_tons c)) rows.

(** The two ends of the X scale of [renderMap]: the least and the largest
    positive commute time, or 0 and 50 when no county has one. *)
Definition commuteRange (data : list CountyData) : num * num :=
let commuteTimes :=
  filter (fun v => gt v (Fin 0))
         (map (fun c => orElse (mean_commute c) (Fin 0)) data) in
(if (0 <? List.length commuteTimes)%nat then minOf commuteTimes else Fin 0,
 if (0 <? List.length commuteTimes)%nat then maxOf commuteTimes else Fin 50).

(** The two ends of the Y scale of [renderMap]. *)
Definition valueRange (mode : ViewMode) (data : list CountyData) : num * num :=
let values := map (fun c => toNumber (valueOf mode c)) data in
(minOf values, maxOf values).

(** The value of every row in the view mode is a finite number. *)
Definition finiteValues (mode : ViewMode) (data : list CountyData) : Prop :=
forall c, In c data -> exists q : Q, valueOf mode c = Some (Fin q).

(** The commute time of every row is missing, or finite and not
    negative. *)
Definition commuteTimesValid (data : list CountyData) : Prop :=
forall c, In c data ->
  mean_commute c = None
  \/ exists q : Q, mean_commute c = Some (Fin q) /\ (0 <= q)%Q.

(** The plotted value of every row is a finite number of moderate
    magnitude, so that no difference of two of them overflows. *)
Definition valuesModerate (mode : ViewMode) (data : list CountyData) : Prop :=
forall c, In c data ->
  exists q : Q, valueOf mode c = Some (Fin q)
                /\ (- MAX_SAFE_INTEGER <= q <= MAX_SAFE_INTEGER)%Q.

(** The commute time of every row is missing, or not negative and of
    moderate magnitude. *)
Definition commuteTimesModerate (data : list CountyData) : Prop :=
forall c, In c data ->
  mean_commute c = None
  \/ exists q : Q, mean_commute c = Some (Fin q)
                   /\ (0 <= q <= MAX_SAFE_INTEGER)%Q.

End Chapter2.

(* ===================================================================== *)
(** ** Chapter 3: the metro comparison
       ([src/lib/components/chapters/Chapter3.svelte]) *)
(* ===================================================================== *)

Module Chapter3.

Import Fetch Template Svg.
Local Open Scope string_scope.
Local Open Scope num_scope.
Local Open Scope Q_scope.

Record MetroData : Type := {
  metro : string;
  avg_commute : option num;
  workers : option num;
  co2_per_capita : option num;
  transit_pct : option num;
  median_income : option num;
  commute_burden_score : option num
}.

(** The listener [renderChart] adds to the bars and the name of a metro. *)
Inductive Handler : Type :=
| Click (m : MetroData).   (* [selectMetro(m)] *)

Record State : Type := {
  metroData : list MetroData;
  dataLoaded : bool;
  selectedMetro : option MetroData;
  chartContainer : Container Handler;
  currentSvg : option (Node Handler);
  console : list LogEntry
}.

Definition initial : State :=
{| metroData := [];
   dataLoaded := false;
   selectedMetro := None;
   chartContainer := None;
   currentSvg := None;
   console := [] |}.

(** [safe(n, digits)] *)
Definition safe (n : option num) (digits : nat) : string :=
match n with
| Some (Fin q) => toFixed digits (Fin q)
| _ => "—"
end.

(** The geometry of [renderChart]. *)
Definition svgWidth : num := Fin 920.
Definition svgHeight : num := Fin 520.
Definition margin_top : num := Fin 90.
Definition margin_right : num := Fin 40.
Definition margin_bottom : num := Fin 110.
Definition margin_left : num := Fin 80.
Definition chartWidth : num := (svgWidth - margin_left - margin_right)%num.
Definition chartHeight : num := (svgHeight - margin_top - margin_bottom)%num.

(** [selectedMetro?.metro === m.metro] *)
Definition isSelected (selected : option MetroData) (m : MetroData) : bool :=
match selected with
| Some sel => String.eqb (metro sel) (metro m)
| None => false
end.

(** The tick, its label and its grid line at step [i] of 5. *)
Definition tickMarks (maxCommute i : num) : list (Node Handler) :=
let tickCount := Fin 5 in
let v := (maxCommute / tickCount * i)%num in
let y := (chartHeight - v / maxCommute * chartHeight)%num in
[ shape "line"
    [ ("x1", Str "-6"); ("y1", Num y); ("x2", Str "0"); ("y2", Num y);
      ("stroke", Str "rgba(255,255,255,0.25)") ];
  label
    [ ("x", Str "-12"); ("y", Num (y + Fin 4)%num); ("text-anchor", Str "end");
      ("fill", Str "rgba(255,255,255,0.75)"); ("font-size", Str "12") ]
    (toFixed 0 v);
  shape "line"
    [ ("x1", Str "0"); ("y1", Num y); ("x2", Num chartWidth); ("y2", Num y);
      ("stroke", Str "rgba(255,255,255,0.05)") ] ].

Definition legendItems : list (string * string) :=
[ ("#4ecdc4", "Commute (minutes)"); ("#ff6b6b", "CO₂ per person (tons)") ].

(** The swatch and the text of the legend entry number [idx]. *)
Definition legendEntry (idx : num) (item : string * string) : list (Node Handler) :=
let legendX := (chartWidth - Fin 36)%num in
let legendY := Fin (-62) in
let x := legendX in
let y := (legendY + idx * Fin 18)%num in
[ shape "rect"
    [ ("x", Num x); ("y", Num (y - Fin 10)%num); ("width", Str "12");
      ("height", Str "12"); ("fill", Str (fst item)); ("rx", Str "2") ];
  label
    [ ("x", Num (x + Fin 18)%num); ("y", Num y);
      ("fill", Str "rgba(255,255,255,0.75)"); ("font-size", Str "12");
      ("font-weight", Str "500") ]
    (snd item) ].

(** The body of [metroData.forEach((m, i) => ...)]: the two bars of a metro,
    its name and the two values. *)
Definition metroBars (selected : option MetroData)
  (groupWidth barWidth gap maxCommute maxCO2 : num) (i : num) (m : MetroData)
  : list (Node Handler) :=
let sel := isSelected selected m in
let xCenter := (i * groupWidth + groupWidth / Fin 2)%num in
let x1 := (xCenter - barWidth - gap / Fin 2)%num in
let x2 := (xCenter + gap / Fin 2)%num in
let commuteH := (toNumber (avg_commute m) / maxCommute * chartHeight)%num in
let co2H := (toNumber (co2_per_capita m) / maxCO2 * chartHeight)%num in
let bar (x h : num) (color : string) : Node Handler :=
  Element "rect"
    [ ("x", Num x); ("y", Num (chartHeight - h)%num);
      ("width", Num barWidth); ("height", Num h);
      ("fill", Str color);
      ("fill-opacity", Str (if sel then "0.95" else "0.65"));
      ("stroke", Str color);
      ("stroke-width", Str (if sel then "3" else "1")) ]
    [ ("cursor", "pointer") ]
    [ ("click", Click m) ]
    None [] in
[ bar x1 commuteH "#4ecdc4";
  bar x2 co2H "#ff6b6b";
  Element "text"
    [ ("x", Num xCenter); ("y", Num (chartHeight + Fin 30)%num);
      ("text-anchor", Str "middle");
      ("fill", Str (if sel then "#ffd93d" else "rgba(255,255,255,0.9)"));
      ("font-size", Str "14");
      ("font-weight", Str (if sel then "700" else "600")) ]
    [ ("cursor", "pointer") ]
    [ ("click", Click m) ]
    (Some (metro m)) [];
  label
    [ ("x", Num (x1 + barWidth / Fin 2)%num);
      ("y", Num (chartHeight - commuteH - Fin 8)%num);
      ("text-anchor", Str "middle"); ("fill", Str "rgba(255,255,255,0.9)");
      ("font-size", Str "11") ]
    (safe (avg_commute m) 1);
  label
    [ ("x", Num (x2 + barWidth / Fin 2)%num);
      ("y", Num (chartHeight - co2H - Fin 8)%num);
      ("text-anchor", Str "middle"); ("fill", Str "rgba(255,255,255,0.9)");
      ("font-size", Str "11") ]
    (safe (co2_per_capita m) 2) ].

(** [xs.forEach((x, i) => f(i, x))] from index [i] on. *)
Fixpoint forEachIndexed {A B : Type} (f : num -> A -> list B) (i : Z) (xs : list A)
  : list B :=
match xs with
| [] => []
| x :: rest => (f (ofZ i) x ++ forEachIndexed f (i + 1)%Z rest)%list
end.

(** The [svg] element [renderChart] builds from the rows and the
    selection. *)
Definition chartScene (data : list MetroData) (selected : option MetroData)
  : Node Handler :=
let groupWidth := (chartWidth / ofZ (Z.of_nat (List.length data)))%num in
let barWidth := (groupWidth * Fin 0.28)%num in
let gap := (groupWidth * Fin 0.10)%num in
let maxCommute :=
  maxOf (map (fun m => orElse (avg_commute m) (Fin 0)) data ++ [Fin 1])%list in
let maxCO2 :=
  maxOf (map (fun m => orElse (co2_per_capita m) (Fin 0)) data ++ [Fin 1])%list in
let xAxis :=
  shape "line"
    [ ("x1", Str "0"); ("y1", Num chartHeight);
      ("x2", Num chartWidth); ("y2", Num chartHeight);
      ("stroke", Str "rgba(255,255,255,0.35)"); ("stroke-width", Str "2") ] in
let yAxis :=
  shape "line"
    [ ("x1", Str "0"); ("y1", Str "0"); ("x2", Str "0"); ("y2", Num chartHeight);
      ("stroke", Str "rgba(255,255,255,0.35)"); ("stroke-width", Str "2") ] in
let title :=
  label
    [ ("x", Num (chartWidth / Fin 2)%num); ("y", Str "-55");
      ("text-anchor", Str "middle"); ("fill", Str "rgba(255,255,255,0.92)");
      ("font-size", Str "16"); ("font-weight", Str "650") ]
    "Commute time vs CO₂ per person (click a metro to highlight)" in
let yX := Fin (-55) in
let yY := (chartHeight / Fin 2)%num in
let yTitle :=
  label
    [ ("x", Num yX); ("y", Num yY); ("text-anchor", Str "middle");
      ("fill", Str "rgba(255,255,255,0.85)"); ("font-size", Str "13");
      ("font-weight", Str "600"); ("transform", Str "rotate(-90, -55, 160)") ]
    "Commute (minutes) and CO₂ (tons)" in
let g :=
  Element "g" [ ("transform", Str "translate(80,90)") ] [] [] None
    ([xAxis; yAxis]
     ++ flat_map (tickMarks maxCommute) (upTo 5)
     ++ [title]
     ++ forEachIndexed legendEntry 0 legendItems
     ++ forEachIndexed (metroBars selected groupWidth barWidth gap maxCommute maxCO2)
                       0 data
     ++ [yTitle])%list in
Element "svg"
  [ ("viewBox", Str "0 0 920 520") ]
  [ ("width", "100%"); ("height", "520px");
    ("background", "rgba(255,255,255,0.05)"); ("borderRadius", "14px") ]
  [] None [g].

(** [renderChart()]: nothing without a container or without rows;
    otherwise [chartContainer.innerHTML = ''], the scene is built and
    appended, and [currentSvg] remembers it. *)
Definition renderChart (s : State) : State :=
match chartContainer s with
| None => s
| Some _ =>
    if (List.length (metroData s) =? 0)%nat then s
    else
      let cleared : list (Node Handler) := [] in
      let svg := chartScene (metroData s) (selectedMetro s) in
      {| metroData := metroData s;
         dataLoaded := dataLoaded s;
         selectedMetro := selectedMetro s;
         chartContainer := Some (cleared ++ [svg])%list;
         currentSvg := Some svg;
         console := console s |}
end.

(** [selectMetro(metro)] *)
Definition selectMetro (m : MetroData) (s : State) : State :=
renderChart
  {| metroData := metroData s;
     dataLoaded := dataLoaded s;
     selectedMetro := if isSelected (selectedMetro s) m then None else Some m;
     chartContainer := chartContainer s;
     currentSvg := currentSvg s;
     console := console s |}.

(** [{#if !dataLoaded} ... {:else if metroData.length === 0} ... {:else}] *)
Definition view (s : State) : View :=
if negb (dataLoaded s) then LoadingState
else if (List.length (metroData s) =? 0)%nat then LoadFailure
else Content.

(** [await tick()]: pending changes reach the DOM, so that [chartContainer]
    is bound if the branch with [<div bind:this={chartContainer}>] is on
    screen. *)
Definition tick (s : State) : State :=
match view s, chartContainer s with
| Content, None =>
    {| metroData := metroData s; dataLoaded := dataLoaded s;
       selectedMetro := selectedMetro s; chartContainer := Some [];
       currentSvg := currentSvg s; console := console s |}
| _, _ => s
end.

(** [$: if (dataLoaded && chartContainer && metroData.length) renderChart()] *)
Definition reactiveRender (s : State) : State :=
if dataLoaded s
   && match chartContainer s with Some _ => true | None => false end
   && negb (List.length (metroData s) =? 0)%nat
then renderChart s else s.

(** The body of the [try] block of [onMount]; the body of the file is the
    array of rows, or [null]. *)
Definition tryBlock (metroResponse : Response (option (list MetroData)))
  : Try State unit :=
json <- fetchJson "/FinalViz/pa_metro_comparison.json" metroResponse ;;
assign (fun s =>
  let rows := match json with Some rows => rows | None => [] end in
  {| metroData := rows;
     dataLoaded := true;
     selectedMetro := match rows with
                      | first :: _ => Some first
                      | [] => selectedMetro s
                      end;
     chartContainer := chartContainer s;
     currentSvg := currentSvg s;
     console := console s |}) ;;;
assign tick ;;;
assign renderChart.

Definition catchBlock (error : Error) (s : State) : State :=
{| metroData := metroData s;
   dataLoaded := true;
   selectedMetro := selectedMetro s;
   chartContainer := chartContainer s;
   currentSvg := currentSvg s;
   console := (console s
               ++ [{| message := "Error loading metro data:"; logged := error |}])%list |}.

Definition onMount (metroResponse : Response (option (list MetroData)))
  (s : State) : State :=
tryCatch (tryBlock metroResponse) catchBlock s.

(** [$: lowestCO2 = metroData.length
       ? metroData.reduce((a, b) => (a.co2_per_capita < b.co2_per_capita ? a : b))
       : null] *)
Definition lowestCO2 (s : State) : option MetroData :=
match metroData s with
| [] => None
| first :: rest =>
    Some (fold_left
            (fun a b => if lt (toNumber (co2_per_capita a))
                              (toNumber (co2_per_capita b))
                        then a else b)
            rest first)
end.

(** [$: highestCommute = metroData.length
       ? metroData.reduce((a, b) => (a.avg_commute > b.avg_commute ? a : b))
       : null] *)
Definition highestCommute (s : State) : option MetroData :=
match metroData s with
| [] => None
| first :: rest =>
    Some (fold_left
            (fun a b => if gt (toNumber (avg_commute a))
                              (toNumber (avg_commute b))
                        then a else b)
            rest first)
end.

(** The group of marks inside the [svg] element of the chart. *)
Definition chartMarks (data : list MetroData) (selected : option MetroData)
  : list (Node Handler) :=
flat_map childrenOf (childrenOf (chartScene data selected)).

(** A bar of the chart: a [rect] that listens to clicks (the swatches of
    the legend are [rect]s without listeners). *)
Definition isBar (n : Node Handler) : bool :=
hasTag "rect" n && negb (match listenersOf n with [] => true | _ => false end).

(** Both figures of every row are finite and not negative. *)
Definition figuresValid (data : list MetroData) : Prop :=
forall m, In m data ->
  (exists q : Q, avg_commute m = Some (Fin q) /\ (0 <= q)%Q)
  /\ (exists q : Q, co2_per_capita m = Some (Fin q) /\ (0 <= q)%Q).

(** The per-capita figure of [m], when it is a finite number. *)
Definition co2Of (m : MetroData) : option Q :=
match co2_per_capita m with Some (Fin q) => Some q | _ => None end.

(** The commute time of [m], when it is a finite number. *)
Definition commuteOf (m : MetroData) : option Q :=
match avg_commute m with Some (Fin q) => Some q | _ => None end.

(** The handlers of all listeners on a list of marks, in order. *)
Definition handlersOf (marks : list (Node Handler)) : list Handler :=
flat_map (fun n => map snd (listenersOf n)) marks.

End Chapter3.

(* ===================================================================== *)
(** ** Chapter 4: the scenario builder (the component [+page.svelte]
       imports as [Chapter4]) *)
(* ===================================================================== *)

Module Chapter4.

Import Fetch Template.
Local Open Scope string_scope.
Local Open Scope num_scope.
Local Open Scope Q_scope.

Record Baseline : Type := {
  total_commuters : option num;
  current_emissions_tons : option num;
  drive_alone_pct : option num;
  transit_pct : option num;
  wfh_pct : option num
}.

(** Kilograms of CO2 per commuter and year. *)
Definition EMISSIONS_drive : num := Fin 2580.
Definition EMISSIONS_transit : num := Fin 580.
Definition EMISSIONS_wfh : num := Fin 0.
Definition EMISSIONS_bike_walk : num := Fin 0.

(** A dataset of the stacked bar chart: its label and its two bars. *)
Definition Dataset : Type := (string * list num)%type.

(** The script variables.  A canvas is [true] once bound, [chart] holds
    the datasets handed to [new Chart], [wfhChart] is [true] once that
    chart exists. *)
Record State : Type := {
  PA_BASELINE : Baseline;
  transitShiftPct : num;
  wfhIncreasePct : num;
  dataLoaded : bool;
  predefinedScenarios : option Scenarios;
  chartCanvas : bool;
  chart : option (list Dataset);
  wfhCanvas : bool;
  wfhChart : bool;
  console : list LogEntry
}.

Definition initial : State :=
{| PA_BASELINE := {| total_commuters := Some (Fin 0);
                     current_emissions_tons := Some (Fin 0);
                     drive_alone_pct := Some (Fin 0);
                     transit_pct := Some (Fin 0);
                     wfh_pct := Some (Fin 0) |};
   transitShiftPct := Fin 0;
   wfhIncreasePct := Fin 0;
   dataLoaded := false;
   predefinedScenarios := None;
   chartCanvas := false;
   chart := None;
   wfhCanvas := false;
   wfhChart := false;
   console := [] |}.

(** The constants of the [catch] branch. *)
Definition fallbackBaseline : Baseline :=
{| total_commuters := Some (Fin 6179069);
   current_emissions_tons := Some (Fin 2166258);
   drive_alone_pct := Some (Fin 47.1);
   transit_pct := Some (Fin 3.0);
   wfh_pct := Some (Fin 7.6) |}.

Definition newDrivePct (s : State) : num :=
(toNumber (drive_alone_pct (PA_BASELINE s)) - transitShiftPct s
 - wfhIncreasePct s * Fin 0.75)%num.

Definition newTransitPct (s : State) : num :=
(toNumber (transit_pct (PA_BASELINE s)) + transitShiftPct s)%num.

Definition newWfhPct (s : State) : num :=
(toNumber (wfh_pct (PA_BASELINE s)) + wfhIncreasePct s)%num.

Definition driveCommuters (s : State) : num :=
(toNumber (total_commuters (PA_BASELINE s)) * (newDrivePct s / Fin 100))%num.

Definition transitCommuters (s : State) : num :=
(toNumber (total_commuters (PA_BASELINE s)) * (newTransitPct s / Fin 100))%num.

Definition wfhCommuters (s : State) : num :=
(toNumber (total_commuters (PA_BASELINE s)) * (newWfhPct s / Fin 100))%num.

Definition newEmissions (s : State) : num :=
((driveCommuters s * EMISSIONS_drive
  + transitCommuters s * EMISSIONS_transit
  + wfhCommuters s * EMISSIONS_wfh) / Fin 1000)%num.

Definition emissionsReduced (s : State) : num :=
(toNumber (current_emissions_tons (PA_BASELINE s)) - newEmissions s)%num.

Definition pctReduction (s : State) : num :=
(emissionsReduced s / toNumber (current_emissions_tons (PA_BASELINE s))
 * Fin 100)%num.

Definition carsEquivalent (s : State) : num :=
round (emissionsReduced s / Fin 4.6)%num.

Definition set_chart (c : option (list Dataset)) (s : State) : State :=
{| PA_BASELINE := PA_BASELINE s; transitShiftPct := transitShiftPct s;
   wfhIncreasePct := wfhIncreasePct s; dataLoaded := dataLoaded s;
   predefinedScenarios := predefinedScenarios s; chartCanvas := chartCanvas s;
   chart := c; wfhCanvas := wfhCanvas s; wfhChart := wfhChart s;
   console := console s |}.

Definition set_wfhChart (b : bool) (s : State) : State :=
{| PA_BASELINE := PA_BASELINE s; transitShiftPct := transitShiftPct s;
   wfhIncreasePct := wfhIncreasePct s; dataLoaded := dataLoaded s;
   predefinedScenarios := predefinedScenarios s; chartCanvas := chartCanvas s;
   chart := chart s; wfhCanvas := wfhCanvas s; wfhChart := b;
   console := console s |}.

Definition set_loaded (b : Baseline) (s : State) : State :=
{| PA_BASELINE := b; transitShiftPct := transitShiftPct s;
   wfhIncreasePct := wfhIncreasePct s; dataLoaded := true;
   predefinedScenarios := predefinedScenarios s; chartCanvas := chartCanvas s;
   chart := chart s; wfhCanvas := wfhCanvas s; wfhChart := wfhChart s;
   console := console s |}.

Definition log (msg : string) (e : Error) (s : State) : State :=
{| PA_BASELINE := PA_BASELINE s; transitShiftPct := transitShiftPct s;
   wfhIncreasePct := wfhIncreasePct s; dataLoaded := dataLoaded s;
   predefinedScenarios := predefinedScenarios s; chartCanvas := chartCanvas s;
   chart := chart s; wfhCanvas := wfhCanvas s; wfhChart := wfhChart s;
   console := (console s ++ [{| message := msg; logged := e |}])%list |}.

(** [{#if !dataLoaded} ... {:else} ... {/if}] *)
Definition view (s : State) : View :=
if negb (dataLoaded s) then LoadingState else Content.

(** [await tick()]: the two canvases are bound once the content is on
    screen. *)
Definition tick (s : State) : State :=
match view s with
| Content =>
    {| PA_BASELINE := PA_BASELINE s; transitShiftPct := transitShiftPct s;
       wfhIncreasePct := wfhIncreasePct s; dataLoaded := dataLoaded s;
       predefinedScenarios := predefinedScenarios s; chartCanvas := true;
       chart := chart s; wfhCanvas := true; wfhChart := wfhChart s;
       console := console s |}
| _ => s
end.

(** [createChart(Chart)]: the datasets of the stacked bar chart. *)
Definition createChart (s : State) : State :=
if negb (chartCanvas s) || negb (dataLoaded s) then s
else
  let b := PA_BASELINE s in
  let currentDriveEmissions :=
    (toNumber (total_commuters b) * (toNumber (drive_alone_pct b) / Fin 100)
     * EMISSIONS_drive / Fin 1000)%num in
  let currentTransitEmissions :=
    (toNumber (total_commuters b) * (toNumber (transit_pct b) / Fin 100)
     * EMISSIONS_transit / Fin 1000)%num in
  let scenarioDriveEmissions := (driveCommuters s * EMISSIONS_drive / Fin 1000)%num in
  let scenarioTransitEmissions :=
    (transitCommuters s * EMISSIONS_transit / Fin 1000)%num in
  set_chart
    (Some [ ("Drive Alone", [currentDriveEmissions; scenarioDriveEmissions]);
            ("Public Transit", [currentTransitEmissions; scenarioTransitEmissions]);
            ("Work From Home", [Fin 0; Fin 0]) ])
    s.

(** [await import('chart.js/auto')], which the environment lets succeed or
    fail. *)
Definition importChartJs (available : bool) : Try State unit :=
if available then ret tt else throw (NetworkError "chart.js/auto").

(** [initializeChart()], with its own [try]/[catch]. *)
Definition initializeChart (available : bool) (s : State) : State :=
if negb (chartCanvas s) || negb (dataLoaded s)
   || match chart s with Some _ => true | None => false end
then s
else
  tryCatch
    (importChartJs available ;;;
     assign tick ;;;
     assign (fun s => match chart s with
                      | None => if chartCanvas s then createChart s else s
                      | Some _ => s
                      end))
    (log "Error initializing chart:")
    s.

(** [$: if (chartCanvas && dataLoaded && !chart) { initializeChart(); }]:
    the statement runs in an update in which one of the three variables it
    reads differs from what it was at the update before.  The call is not
    awaited; it and the call that [onMount] awaits next end in the same
    state as one taking place after the other, since the second to reach
    [createChart] finds the chart of the first. *)
Definition hasChart (s : State) : bool :=
match chart s with Some _ => true | None => false end.

Definition changedSince (before s : State) : bool :=
negb (Bool.eqb (chartCanvas before) (chartCanvas s))
|| negb (Bool.eqb (dataLoaded before) (dataLoaded s))
|| negb (Bool.eqb (hasChart before) (hasChart s)).

Definition reactiveInitializeChart (available : bool) (before s : State) : State :=
if changedSince before s
then if chartCanvas s && dataLoaded s && negb (hasChart s)
     then initializeChart available s
     else s
else s.

(** [await tick()] in [onMount]: the pending update runs, which binds the
    canvases and runs the reactive statement. *)
Definition flush (available : bool) (before s : State) : State :=
reactiveInitializeChart available before (tick s).

(** [initWfhChart()]: a failing import propagates to the caller. *)
Definition initWfhChart (available : bool) : Try State unit :=
fun s =>
  if negb (wfhCanvas s) || wfhChart s then (inr tt, s)
  else (importChartJs available ;;; assign (set_wfhChart true)) s.

(** The body of the [try] block of [onMount]. *)
Definition tryBlock (available : bool) (summary : Response SummaryStats)
  (scenarios : Response Scenarios) : Try State unit :=
summaryData <- fetchJson "/FinalViz/pa_summary_stats.json" summary ;;
scenariosData <- fetchJson "/FinalViz/pa_scenarios.json" scenarios ;;
assign (fun s =>
  {| PA_BASELINE := PA_BASELINE s; transitShiftPct := transitShiftPct s;
     wfhIncreasePct := wfhIncreasePct s; dataLoaded := dataLoaded s;
     predefinedScenarios := Some scenariosData; chartCanvas := chartCanvas s;
     chart := chart s; wfhCanvas := wfhCanvas s; wfhChart := wfhChart s;
     console := console s |}) ;;;
currentScenario <- property "current" (current scenariosData) ;;
split <- property "mode_split" (mode_split currentScenario) ;;
before <- get ;;
assign (set_loaded
  {| total_commuters := Fetch.total_commuters summaryData;
     current_emissions_tons := emissions_tons currentScenario;
     drive_alone_pct := Fetch.drive_alone_pct split;
     transit_pct := Fetch.transit_pct split;
     wfh_pct := Fetch.wfh_pct split |}) ;;;
assign (flush available before) ;;;
assign (initializeChart available) ;;;
initWfhChart available.

(** The [catch] branch; what [initWfhChart] throws there is not caught by
    anything and leaves the state as it is. *)
Definition catchBlock (available : bool) (error : Error) (s : State) : State :=
snd ((assign (log "Error loading PA data:" error) ;;;
      assign (set_loaded fallbackBaseline) ;;;
      assign (flush available s) ;;;
      assign (initializeChart available) ;;;
      initWfhChart available) s).

Definition onMount (available : bool) (summary : Response SummaryStats)
  (scenarios : Response Scenarios) (s : State) : State :=
tryCatch (tryBlock available summary scenarios) (catchBlock available) s.

(** The argument of [applyScenario]. *)
Inductive ScenarioType : Type := modest | ambitious | transformative.

Definition set_sliders (transit wfh : num) (s : State) : State :=
{| PA_BASELINE := PA_BASELINE s; transitShiftPct := transit;
   wfhIncreasePct := wfh; dataLoaded := dataLoaded s;
   predefinedScenarios := predefinedScenarios s; chartCanvas := chartCanvas s;
   chart := chart s; wfhCanvas := wfhCanvas s; wfhChart := wfhChart s;
   console := console s |}.

Section ApplyScenario.

(** [predefinedScenarios[name]] is truthy: the scenarios file has an
    entry of that name.  The file is read by the browser, so that the
    lookup is left to the environment. *)
Variable named : string -> Scenarios -> bool.

(** [applyScenario(type)] *)
Definition applyScenario (type : ScenarioType) (s : State) : State :=
match predefinedScenarios s with
| Some scenarios =>
    match type with
    | modest =>
        if named "10pct_transit" scenarios
        then set_sliders (Fin 10) (Fin 0) s
        else set_sliders (Fin 5) (Fin 5) s
    | ambitious =>
        if named "20pct_wfh" scenarios
        then set_sliders (Fin 0) (Fin 15) s
        else set_sliders (Fin 10) (Fin 10) s
    | transformative => set_sliders (Fin 15) (Fin 15) s
    end
| None =>
    match type with
    | modest => set_sliders (Fin 5) (Fin 5) s
    | ambitious => set_sliders (Fin 10) (Fin 10) s
    | transformative => set_sliders (Fin 15) (Fin 15) s
    end
end.

End ApplyScenario.

(** [resetScenario()] *)
Definition resetScenario (s : State) : State := set_sliders (Fin 0) (Fin 0) s.

(** [$: if (chart && dataLoaded) { ... chart.update() }]: the statement
    that runs again when a slider moves.  It assigns the data of the first
    two datasets, which the chart of [createChart] always has. *)
Definition updateChart (s : State) : State :=
match chart s with
| Some (driveAlone :: publicTransit :: others) =>
    if dataLoaded s then
      let b := PA_BASELINE s in
      let currentDriveEmissions :=
        (toNumber (total_commuters b) * (toNumber (drive_alone_pct b) / Fin 100)
         * EMISSIONS_drive / Fin 1000)%num in
      let currentTransitEmissions :=
        (toNumber (total_commuters b) * (toNumber (transit_pct b) / Fin 100)
         * EMISSIONS_transit / Fin 1000)%num in
      set_chart
        (Some ((fst driveAlone,
                [currentDriveEmissions;
                 (driveCommuters s * EMISSIONS_drive / Fin 1000)%num])
               :: (fst publicTransit,
                   [currentTransitEmissions;
                    (transitCommuters s * EMISSIONS_transit / Fin 1000)%num])
               :: others))
        s
    else s
| _ => s
end.

(** [<input id="transit-slider" type="range" min="0" max="20" step="1">] *)
Definition transitSlider : Input :=
{| type := range; min := 0; max := 20; step := 1 |}.

(** [<input id="wfh-slider" type="range" min="0" max="25" step="1">] *)
Definition wfhSlider : Input :=
{| type := range; min := 0; max := 25; step := 1 |}.

(** The baseline holds finite figures and a number of commuters that is
    not negative. *)
Definition finiteBaseline (b : Baseline) : Prop :=
exists commuters emissions drive transit wfh : Q,
  total_commuters b = Some (Fin commuters)
  /\ current_emissions_tons b = Some (Fin emissions)
  /\ drive_alone_pct b = Some (Fin drive)
  /\ transit_pct b = Some (Fin transit)
  /\ wfh_pct b = Some (Fin wfh)
  /\ 0 <= commuters.

(** A baseline as a state has it: at least one commuter and at most
    [MAX_SAFE_INTEGER], emissions of moderate magnitude, and mode shares
    between 0 and 100 percent. *)
Definition realisticBaseline (b : Baseline) : Prop :=
exists commuters emissions drive transit wfh : Q,
  total_commuters b = Some (Fin commuters)
  /\ current_emissions_tons b = Some (Fin emissions)
  /\ drive_alone_pct b = Some (Fin drive)
  /\ transit_pct b = Some (Fin transit)
  /\ wfh_pct b = Some (Fin wfh)
  /\ 1 <= commuters <= MAX_SAFE_INTEGER
  /\ - MAX_SAFE_INTEGER <= emissions <= MAX_SAFE_INTEGER
  /\ 0 <= drive <= 100
  /\ 0 <= transit <= 100
  /\ 0 <= wfh <= 100.

(** The slider positions, when they are finite. *)
Definition slidersAt (s : State) (transit wfh : Q) : Prop :=
transitShiftPct s = Fin transit /\ wfhIncreasePct s = Fin wfh.

End Chapter4.

(* ===================================================================== *)
(** ** Chapter 5: the county case studies
       ([src/lib/components/chapters/Chapter5.svelte]) *)
(* ===================================================================== *)

Module Chapter5.

Import Fetch Template.
Local Open Scope string_scope.
Local Open Scope num_scope.
Local Open Scope Q_scope.

Record Comparison : Type := {
  commuteVsPA : num;
  transitVsPA : num;
  co2VsPA : num
}.

Record CountyCaseStudy : Type := {
  name : string;
  location : string;
  avgCommute : num;
  transitBikeWalkPct : num;
  co2PerCapita : num;
  whyItWorks : string;
  keyFeatures : list string;
  comparison : Comparison
}.

Record PAStats : Type := {
  pa_avgCommuteMinutes : num;
  pa_transitBikeWalkPct : num;
  pa_co2PerCapita : num
}.

Record State : Type := {
  paStats : PAStats;
  caseStudies : list CountyCaseStudy;
  expandedCounty : option string;
  dataLoaded : bool;
  console : list LogEntry
}.

(** The values [paStats] is declared with. *)
Definition defaultStats : PAStats :=
{| pa_avgCommuteMinutes := Fin 27.3;
   pa_transitBikeWalkPct := Fin 11;
   pa_co2PerCapita := Fin 2.7 |}.

(** The case studies [caseStudies] is declared with. *)
Definition declaredCaseStudies : list CountyCaseStudy :=
[ {| name := "Centre County";
     location := "State College";
     avgCommute := Fin 18.2;
     transitBikeWalkPct := Fin 22;
     co2PerCapita := Fin 1.8;
     whyItWorks := "Compact university town with strong bike infrastructure";
     keyFeatures := [ "University campus promotes walkability";
                      "Extensive bike lane network";
                      "Compact urban design";
                      "Strong transit connections" ];
     comparison := {| commuteVsPA := Fin (-33.3); transitVsPA := Fin 100;
                      co2VsPA := Fin (-33.3) |} |};
  {| name := "Montgomery County";
     location := "Philadelphia Suburbs";
     avgCommute := Fin 24.5;
     transitBikeWalkPct := Fin 18;
     co2PerCapita := Fin 2.1;
     whyItWorks := "Strong SEPTA connections reduce car dependency";
     keyFeatures := [ "Park-and-ride facilities at suburban stations";
                      "Regional rail network access";
                      "Bus rapid transit options";
                      "Mixed-use development near stations" ];
     comparison := {| commuteVsPA := Fin (-10.3); transitVsPA := Fin 63.6;
                      co2VsPA := Fin (-22.2) |} |};
  {| name := "Centre City Philadelphia";
     location := "Philadelphia";
     avgCommute := Fin 28.0;
     transitBikeWalkPct := Fin 65;
     co2PerCapita := Fin 1.5;
     whyItWorks := "Density + transit = lower emissions per person";
     keyFeatures := [ "Walk/bike/transit: 65%";
                      "High population density";
                      "Comprehensive transit network";
                      "Mixed-use zoning" ];
     comparison := {| commuteVsPA := Fin 2.6; transitVsPA := Fin 490.9;
                      co2VsPA := Fin (-44.4) |} |} ].

Definition initial : State :=
{| paStats := defaultStats;
   caseStudies := declaredCaseStudies;
   expandedCounty := None;
   dataLoaded := false;
   console := [] |}.

(** The comparison of one county against the loaded state figures. *)
Definition recompare (pa : PAStats) (c : CountyCaseStudy) : CountyCaseStudy :=
let commuteDiff :=
  ((avgCommute c - pa_avgCommuteMinutes pa) / pa_avgCommuteMinutes pa * Fin 100)%num in
let transitDiff :=
  ((transitBikeWalkPct c - pa_transitBikeWalkPct pa) / pa_transitBikeWalkPct pa
   * Fin 100)%num in
let co2Diff :=
  ((co2PerCapita c - pa_co2PerCapita pa) / pa_co2PerCapita pa * Fin 100)%num in
{| name := name c; location := location c; avgCommute := avgCommute c;
   transitBikeWalkPct := transitBikeWalkPct c; co2PerCapita := co2PerCapita c;
   whyItWorks := whyItWorks c; keyFeatures := keyFeatures c;
   comparison := {| commuteVsPA := commuteDiff; transitVsPA := transitDiff;
                    co2VsPA := co2Diff |} |}.

(** The body of the [try] block of [onMount]. *)
Definition tryBlock (summary : Response SummaryStats)
  (scenarios : Response Scenarios) : Try State unit :=
summaryData <- fetchJson "/pa_summary_stats.json" summary ;;
let nonDriveAlonePct :=
  (orElse (summary_transit_pct summaryData) (Fin 0)
   + orElse (summary_wfh_pct summaryData) (Fin 0)
   + orElse (bike_walk_pct summaryData) (Fin 0))%num in
scenariosData <- fetchJson "/pa_scenarios.json" scenarios ;;
let totalCommuters := orElse (total_commuters summaryData) (Fin 6179069) in
let annualCO2Tons :=
  orElse (match current scenariosData with
          | Some c => emissions_tons c
          | None => None
          end) (Fin 0) in
let estimatedCO2PerCapita := (annualCO2Tons / totalCommuters)%num in
assign (fun s =>
  let pa := {| pa_avgCommuteMinutes := orElse (avg_commute_minutes summaryData) (Fin 27.3);
               pa_transitBikeWalkPct := or nonDriveAlonePct (Fin 11);
               pa_co2PerCapita := or estimatedCO2PerCapita (Fin 2.7) |} in
  {| paStats := pa;
     caseStudies := map (recompare pa) (caseStudies s);
     expandedCounty := expandedCounty s;
     dataLoaded := true;
     console := console s |}).

Definition catchBlock (error : Error) (s : State) : State :=
{| paStats := paStats s;
   caseStudies := caseStudies s;
   expandedCounty := expandedCounty s;
   dataLoaded := true;
   console := (console s
               ++ [{| message := "Error loading PA data:"; logged := error |}])%list |}.

Definition onMount (summary : Response SummaryStats)
  (scenarios : Response Scenarios) (s : State) : State :=
tryCatch (tryBlock summary scenarios) catchBlock s.

(** [toggleExpand(countyName)] *)
Definition toggleExpand (countyName : string) (s : State) : State :=
{| paStats := paStats s;
   caseStudies := caseStudies s;
   expandedCounty :=
     match expandedCounty s with
     | Some open => if String.eqb open countyName then None else Some countyName
     | None => Some countyName
     end;
   dataLoaded := dataLoaded s;
   console := console s |}.

(** [{#if !dataLoaded} ... {:else} ... {/if}] *)
Definition view (s : State) : View :=
if negb (dataLoaded s) then LoadingState else Content.

(** The numeric fields of a parsed summary are JSON numbers. *)
Definition jsonSummary (r : Response SummaryStats) : bool :=
match r with
| Json d =>
    jsonNumber (total_commuters d) && jsonNumber (avg_commute_minutes d)
    && jsonNumber (summary_transit_pct d) && jsonNumber (summary_wfh_pct d)
    && jsonNumber (bike_walk_pct d)
| _ => true
end.

Definition jsonScenarios (r : Response Scenarios) : bool :=
match r with
| Json d =>
    match current d with
    | Some c => jsonNumber (emissions_tons c)
    | None => true
    end
| _ => true
end.

(** The numeric fields of a parsed summary are plausible figures. *)
Definition plausibleSummary (r : Response SummaryStats) : bool :=
match r with
| Json d =>
    plausibleNumber (total_commuters d) && plausibleNumber (avg_commute_minutes d)
    && plausibleNumber (summary_transit_pct d) && plausibleNumber (summary_wfh_pct d)
    && plausibleNumber (bike_walk_pct d)
| _ => true
end.

Definition plausibleScenarios (r : Response Scenarios) : bool :=
match r with
| Json d =>
    match current d with
    | Some c => plausibleNumber (emissions_tons c)
    | None => true
    end
| _ => true
end.

(** A finite number other than zero. *)
Definition nonZeroFinite (x : num) : bool := isFinite x && truthy x.

Definition finiteComparison (c : CountyCaseStudy) : bool :=
isFinite (commuteVsPA (comparison c))
&& isFinite (transitVsPA (comparison c))
&& isFinite (co2VsPA (comparison c)).

(** The state figures that [onMount] installs from two parsed bodies. *)
Definition loadedStats (summaryData : SummaryStats) (scenariosData : Scenarios)
  : PAStats :=
let nonDriveAlonePct :=
  (orElse (summary_transit_pct summaryData) (Fin 0)
   + orElse (summary_wfh_pct summaryData) (Fin 0)
   + orElse (bike_walk_pct summaryData) (Fin 0))%num in
let totalCommuters := orElse (total_commuters summaryData) (Fin 6179069) in
let annualCO2Tons :=
  orElse (match current scenariosData with
          | Some c => emissions_tons c
          | None => None
          end) (Fin 0) in
{| pa_avgCommuteMinutes := orElse (avg_commute_minutes summaryData) (Fin 27.3);
   pa_transitBikeWalkPct := or nonDriveAlonePct (Fin 11);
   pa_co2PerCapita := or (annualCO2Tons / totalCommuters)%num (Fin 2.7) |}.

End Chapter5.

(* ===================================================================== *)
(** ** Chapter 6: the scenario calculator
       ([src/lib/components/chapters/Chapter6.svelte]) *)
(* ===================================================================== *)

Module Chapter6.

Import Fetch Template.
Local Open Scope num_scope.
Local Open Scope Q_scope.

Inductive CommuteMode : Type :=
| drive_alone | transit | bike_walk | carpool | wfh.

Definition CommuteMode_eqb (a b : CommuteMode) : bool :=
match a, b with
| drive_alone, drive_alone | transit, transit | bike_walk, bike_walk
| carpool, carpool | wfh, wfh => true
| _, _ => false
end.

(** Kilograms of CO2 per commuter and year, for the average commute. *)
Definition EMISSIONS_PER_MODE (mode : CommuteMode) : num :=
match mode with
| drive_alone => Fin 2580
| transit => Fin 580
| bike_walk => Fin 0
| carpool => Fin 1290
| wfh => Fin 0
end.

Definition COST_PER_MILE : num := Fin 0.67.
Definition AVG_SPEED_MPH : num := Fin 30.

Record State : Type := {
  dataLoaded : bool;
  paAvgCO2PerPerson : num;
  commuteMinutes : num;
  currentMode : CommuteMode;
  daysPerWeek : num;
  console : list LogEntry
}.

Definition initial : State :=
{| dataLoaded := false;
   paAvgCO2PerPerson := Fin 2.6;
   commuteMinutes := Fin 30;
   currentMode := drive_alone;
   daysPerWeek := Fin 5;
   console := [] |}.

(** [$: commuteDistance = (commuteMinutes / 60) * AVG_SPEED_MPH] *)
Definition commuteDistance (s : State) : num :=
(commuteMinutes s / Fin 60 * AVG_SPEED_MPH)%num.

(** [$: dailyMiles = commuteDistance * 2] *)
Definition dailyMiles (s : State) : num := (commuteDistance s * Fin 2)%num.

(** [$: annualMiles = dailyMiles * daysPerWeek * 50] *)
Definition annualMiles (s : State) : num :=
(dailyMiles s * daysPerWeek s * Fin 50)%num.

(** [$: annualCost = annualMiles * COST_PER_MILE] *)
Definition annualCost (s : State) : num := (annualMiles s * COST_PER_MILE)%num.

(** [$: currentAnnualCO2]: the base emission of the mode, scaled by the
    annual miles over the 10000 miles the base assumes, in tons. *)
Definition currentAnnualCO2 (s : State) : num :=
let baseEmission := EMISSIONS_PER_MODE (currentMode s) in
let avgMiles := Fin 10000 in
(baseEmission * (annualMiles s / avgMiles) / Fin 1000)%num.

(** [$: vsPA = ((currentAnnualCO2 / paAvgCO2PerPerson - 1) * 100)] *)
Definition vsPA (s : State) : num :=
((currentAnnualCO2 s / paAvgCO2PerPerson s - Fin 1) * Fin 100)%num.

(** [$: isAboveAverage = currentAnnualCO2 > paAvgCO2PerPerson] *)
Definition isAboveAverage (s : State) : bool :=
gt (currentAnnualCO2 s) (paAvgCO2PerPerson s).

(** [option1]: switch to transit. *)
Definition option1_co2Saved (s : State) : num :=
if CommuteMode_eqb (currentMode s) drive_alone
then ((EMISSIONS_PER_MODE drive_alone - EMISSIONS_PER_MODE transit)
      * (annualMiles s / Fin 10000) / Fin 1000)%num
else Fin 0.

Definition option1_costSaved (s : State) : num :=
if CommuteMode_eqb (currentMode s) drive_alone
then (annualMiles s * COST_PER_MILE * Fin 0.7)%num
else Fin 0.

Definition option1_healthBenefit (s : State) : num :=
(commuteMinutes s * Fin 2 * Fin 5)%num.

(** [option2]: two remote days a week. *)
Definition option2_co2Saved (s : State) : num :=
if CommuteMode_eqb (currentMode s) wfh then Fin 0
else (EMISSIONS_PER_MODE (currentMode s) * (annualMiles s / Fin 10000)
      / Fin 1000 * Fin 0.4)%num.

Definition option2_costSaved (s : State) : num := (annualCost s * Fin 0.4)%num.

Definition option2_hoursGained (s : State) : num :=
(commuteMinutes s * Fin 2 * Fin 2 * Fin 50 / Fin 60)%num.

(** [option3]: move closer. *)
Definition option3_co2Saved (s : State) : num :=
if CommuteMode_eqb (currentMode s) wfh then Fin 0
else ((annualMiles s - Fin 5 * Fin 2 * daysPerWeek s * Fin 50)
      * (EMISSIONS_PER_MODE (currentMode s) / Fin 10000) / Fin 1000)%num.

Definition option3_costSaved (s : State) : num :=
((annualMiles s - Fin 5 * Fin 2 * daysPerWeek s * Fin 50) * COST_PER_MILE)%num.

(** [option4]: carpool or bike one day a week. *)
Definition option4_co2Saved (s : State) : num :=
if CommuteMode_eqb (currentMode s) drive_alone
then ((EMISSIONS_PER_MODE drive_alone - EMISSIONS_PER_MODE carpool)
      * (annualMiles s / Fin 10000) / Fin 1000 * Fin 0.2)%num
else Fin 0.

Definition option4_costSaved (s : State) : num :=
(annualCost s * Fin 0.2 * Fin 0.5)%num.

(** The collective figures. *)
Definition totalPACommuters : num := Fin 6179069.

Definition collective20pctReduction (s : State) : num :=
(paAvgCO2PerPerson s * totalPACommuters * Fin 0.2 / Fin 1000)%num.

Definition carsEquivalent (s : State) : num :=
round (collective20pctReduction s * Fin 1000000 / Fin 4.6)%num.

(** The body of the [try] block of [onMount]. *)
Definition tryBlock (summary : Response SummaryStats)
  (scenarios : Response Scenarios) : Try State unit :=
summaryData <- fetchJson "/pa_summary_stats.json" summary ;;
scenariosData <- fetchJson "/pa_scenarios.json" scenarios ;;
let totalCommuters := orElse (total_commuters summaryData) (Fin 6179069) in
let annualCO2Tons :=
  orElse (match current scenariosData with
          | Some c => emissions_tons c
          | None => None
          end) (Fin 0) in
assign (fun s =>
  {| dataLoaded := true;
     paAvgCO2PerPerson := (annualCO2Tons / totalCommuters)%num;
     commuteMinutes := orElse (avg_commute_minutes summaryData) (Fin 30);
     currentMode := currentMode s;
     daysPerWeek := daysPerWeek s;
     console := console s |}).

Definition catchBlock (error : Error) (s : State) : State :=
{| dataLoaded := true;
   paAvgCO2PerPerson := paAvgCO2PerPerson s;
   commuteMinutes := commuteMinutes s;
   currentMode := currentMode s;
   daysPerWeek := daysPerWeek s;
   console := (console s
               ++ [{| message := "Error loading PA data:"; logged := error |}])%list |}.

Definition onMount (summary : Response SummaryStats)
  (scenarios : Response Scenarios) (s : State) : State :=
tryCatch (tryBlock summary scenarios) catchBlock s.

Definition view (s : State) : View :=
if negb (dataLoaded s) then LoadingState else Content.

(** [<input id="commute-minutes" type="number" min="1" max="120" step="1">] *)
Definition commuteInput : Input :=
{| type := number; min := 1; max := 120; step := 1 |}.

(** [<input id="days-per-week" type="number" min="1" max="7" step="1">] *)
Definition daysInput : Input :=
{| type := number; min := 1; max := 7; step := 1 |}.

End Chapter6.

(** ** Fixtures: the concrete pages and inputs used as examples *)

Module Fixtures.

Import Page.

(** The page of the specification's scenario: of the six section
    variables three are bound, with the boxes [[0,1000)], [[1000,2000)],
    [[2000,3000)]. *)
Definition threeSections : State :=
  {| currentChapter := 1;
     chapterElements :=
       [Some (section 0 1000); Some (section 1000 2000);
        Some (section 2000 3000); None; None; None];
     scrolling := false;
     showMenu := false;
     scrollIntoViewCalls := [];
     pendingTimeouts := [] |}.

(** A viewport whose midpoint is at [y = 1500]. *)
Definition midpoint1500 : Window :=
  {| scrollY := 1100; innerHeight := 800 |}.

(** The six-section page with every section bound. *)
Definition sixSections : State :=
  mounted (section 0 1000) (section 1000 2000) (section 2000 3000)
          (section 3000 4000) (section 4000 5000) (section 5000 6000).

(** A commute of 45 minutes on 3 days a week, by transit. *)
Definition calculator1_45 : Chapter1.State :=
{| Chapter1.PA_STATS := Chapter1.fallbackStats;
   Chapter1.userCommuteMinutes := Fin 45;
   Chapter1.animationStep := 4;
   Chapter1.dataLoaded := true;
   Chapter1.console := [];
   Chapter1.timeouts := [] |}.

Definition calculator6_45 : Chapter6.State :=
{| Chapter6.dataLoaded := true;
   Chapter6.paAvgCO2PerPerson := Fin 0.35;
   Chapter6.commuteMinutes := Fin 45;
   Chapter6.currentMode := Chapter6.transit;
   Chapter6.daysPerWeek := Fin 3;
   Chapter6.console := [] |}.

(** The commute-minutes controls of the two calculators. *)
Definition commuteInputs : list Template.Input :=
[Chapter1.commuteInput; Chapter6.commuteInput].

(** A state of Chapter 2 with the given rows and container. *)
Definition chapter2With (rows : list Chapter2.CountyData)
  (container : Svg.Container Chapter2.Handler) : Chapter2.State :=
{| Chapter2.countyData := rows;
   Chapter2.dataLoaded := true;
   Chapter2.mapContainer := container;
   Chapter2.viewMode := Chapter2.total;
   Chapter2.selectedCounty := None;
   Chapter2.console := [] |}.

(** A county whose emissions overflowed to infinity. *)
Definition overflowCounty : Chapter2.CountyData :=
{| Chapter2.county := "Philadelphia";
   Chapter2.lat := Some (Fin 40.0094);
   Chapter2.lon := Some (Fin (-75.1333));
   Chapter2.co2_tons := PosInf;
   Chapter2.population := None;
   Chapter2.co2_per_capita := Some (Fin 1.48);
   Chapter2.total_workers := None;
   Chapter2.mean_commute := None |}.

(** A mark left in a container by something else. *)
Definition staleMark {H : Type} : Svg.Node H :=
Svg.shape "circle" [("r"%string, Svg.Str "5")].

(** Two metros as [pa_metro_comparison.json] lists them. *)
Definition twoMetros : list Chapter3.MetroData :=
[ {| Chapter3.metro := "Philadelphia";
     Chapter3.avg_commute := Some (Fin 32.5);
     Chapter3.workers := Some (Fin 2100000);
     Chapter3.co2_per_capita := Some (Fin 2.89);
     Chapter3.transit_pct := Some (Fin 9.5);
     Chapter3.median_income := Some (Fin 74000);
     Chapter3.commute_burden_score := Some (Fin 0.44) |};
  {| Chapter3.metro := "Pittsburgh";
     Chapter3.avg_commute := Some (Fin 26.8);
     Chapter3.workers := Some (Fin 980000);
     Chapter3.co2_per_capita := Some (Fin 2.38);
     Chapter3.transit_pct := Some (Fin 5.1);
     Chapter3.median_income := Some (Fin 65000);
     Chapter3.commute_burden_score := Some (Fin 0.41) |} ].

(** A state of Chapter 3 with the given rows and container. *)
Definition chapter3With (rows : list Chapter3.MetroData)
  (container : Svg.Container Chapter3.Handler) : Chapter3.State :=
{| Chapter3.metroData := rows;
   Chapter3.dataLoaded := true;
   Chapter3.selectedMetro := None;
   Chapter3.chartContainer := container;
   Chapter3.currentSvg := None;
   Chapter3.console := [] |}.

(** A dozen counties of equal emissions. *)
Definition twelveCounties : list Chapter2.CountyData :=
repeat (Chapter2.fixedCounty "Erie" 42.1292 (-80.0851) 100000 1.2) 12.

(** The rows of an emissions file: twelve counties, in no order. *)
Definition twelveEmissionsRows : list Chapter2.EmissionsItem :=
map (fun row : string * Q =>
       {| Chapter2.em_county := fst row;
          Chapter2.annual_co2_tons := Some (Fin (snd row));
          Chapter2.co2_per_capita_tons := Some (Fin 1.2);
          Chapter2.em_total_workers := None;
          Chapter2.mean_commute_minutes := Some (Fin 25) |})
    [ ("Erie"%string, 300000%Q); ("Allegheny"%string, 1200000%Q);
      ("Berks"%string, 500000%Q); ("Centre"%string, 100000%Q);
      ("Bucks"%string, 900000%Q); ("Chester"%string, 700000%Q);
      ("Montgomery"%string, 1100000%Q); ("Dauphin"%string, 200000%Q);
      ("Delaware"%string, 1000000%Q); ("Lehigh"%string, 400000%Q);
      ("Lancaster"%string, 800000%Q); ("York"%string, 600000%Q) ].

(** A summary file and a scenarios file of the documented shape. *)
Definition sampleSummary : Fetch.SummaryStats :=
{| Fetch.total_commuters := Some (Fin 6179069);
   Fetch.avg_commute_minutes := Some (Fin 26.9);
   Fetch.annual_hours_lost := Some (Fin 1385141301);
   Fetch.summary_transit_pct := Some (Fin 3.0);
   Fetch.summary_wfh_pct := Some (Fin 7.6);
   Fetch.bike_walk_pct := Some (Fin 3.4) |}.

Definition sampleScenarios : Fetch.Scenarios :=
{| Fetch.current :=
     Some {| Fetch.emissions_tons := Some (Fin 2166258);
             Fetch.mode_split :=
               Some {| Fetch.drive_alone_pct := Some (Fin 47.1);
                       Fetch.transit_pct := Some (Fin 3.0);
                       Fetch.wfh_pct := Some (Fin 7.6) |} |} |}.

(** Five minutes each way on five days a week. *)
Definition calculator6_short : Chapter6.State :=
{| Chapter6.dataLoaded := true;
   Chapter6.paAvgCO2PerPerson := Fin 0.35;
   Chapter6.commuteMinutes := Fin 5;
   Chapter6.currentMode := Chapter6.drive_alone;
   Chapter6.daysPerWeek := Fin 5;
   Chapter6.console := [] |}.

(** A metro whose row carries a name only. *)
Definition metroWithoutFigures : Chapter3.MetroData :=
{| Chapter3.metro := "Erie";
   Chapter3.avg_commute := None;
   Chapter3.workers := None;
   Chapter3.co2_per_capita := None;
   Chapter3.transit_pct := None;
   Chapter3.median_income := None;
   Chapter3.commute_burden_score := None |}.

(** Chapter 4 with the published figures loaded and nothing drawn yet. *)
Definition scenarioLoaded : Chapter4.State :=
{| Chapter4.PA_BASELINE := Chapter4.fallbackBaseline;
   Chapter4.transitShiftPct := Fin 0;
   Chapter4.wfhIncreasePct := Fin 0;
   Chapter4.dataLoaded := true;
   Chapter4.predefinedScenarios := Some sampleScenarios;
   Chapter4.chartCanvas := true;
   Chapter4.chart := None;
   Chapter4.wfhCanvas := true;
   Chapter4.wfhChart := false;
   Chapter4.console := [] |}.

End Fixtures.

(** * Properties *)

(** ** Scroll detection and programmatic navigation *)

Module PageFacts.

Import NavigationStore Page Fixtures.

Lemma containsMidpoint_inSection (w : Window) (e : Element) :
  containsMidpoint w e = true <-> inSection (scrollPosition w) e.
Proof.
  unfold containsMidpoint, inSection, getBoundingClientRect; simpl.
  rewrite andb_true_iff, negb_true_iff, Qle_bool_iff.
  split.
  - intros [Htop Hbot]. split; [lra|].
    apply Qnot_le_lt. intro Hle.
    assert (Hb : Qle_bool (pageTop e - scrollY w + scrollY w + boxHeight e)
                   (scrollPosition w) = true)
      by (apply Qle_bool_iff; lra).
    congruence.
  - intros [Htop Hbot]. split; [lra|].
    destruct (Qle_bool _ _) eqn:Hb; [|reflexivity].
    apply Qle_bool_iff in Hb. lra.
Qed.

(** The loop stops at the first bound section that contains the midpoint. *)
Lemma firstContaining_first (w : Window) :
  forall (els : list (option Element)) (i : Z) (n : nat) (e : Element),
    nth_error els n = Some (Some e) ->
    containsMidpoint w e = true ->
    (forall m e', (m < n)%nat -> nth_error els m = Some (Some e') ->
                  containsMidpoint w e' = false) ->
    firstContaining w els i = Some (i + Z.of_nat n).
Proof.
  induction els as [|o rest IH]; intros i n e Hn He Hfirst.
  - destruct n; discriminate.
  - destruct n as [|n].
    + simpl in Hn. injection Hn as ->. simpl. rewrite He.
      f_equal. lia.
    + simpl in Hn.
      assert (Hrest : firstContaining w rest (i + 1)
                      = Some (i + 1 + Z.of_nat n)).
      { apply (IH (i + 1) n e Hn He).
        intros m e' Hm Hm'. apply (Hfirst (S m) e'); [lia | exact Hm']. }
      replace (i + Z.of_nat (S n)) with (i + 1 + Z.of_nat n) by lia.
      destruct o as [e0|]; simpl; [|exact Hrest].
      rewrite (Hfirst 0%nat e0); [exact Hrest | lia | reflexivity].
Qed.

Lemma firstContaining_none (w : Window) :
  forall (els : list (option Element)) (i : Z),
    (forall m e', nth_error els m = Some (Some e') ->
                  containsMidpoint w e' = false) ->
    firstContaining w els i = None.
Proof.
  induction els as [|o rest IH]; intros i Hnone; [reflexivity|].
  assert (Hrest : firstContaining w rest (i + 1) = None).
  { apply IH. intros m e' Hm. apply (Hnone (S m) e' Hm). }
  destruct o as [e0|]; simpl; [|exact Hrest].
  rewrite (Hnone 0%nat e0); [exact Hrest | reflexivity].
Qed.

Lemma handleScroll_first (s : State) (w : Window) (n : nat) (e : Element) :
  scrolling s = false ->
  nth_error (chapterElements s) n = Some (Some e) ->
  containsMidpoint w e = true ->
  (forall m e', (m < n)%nat -> nth_error (chapterElements s) m = Some (Some e') ->
                containsMidpoint w e' = false) ->
  handleScroll w s = set_currentChapter (Z.of_nat n + 1) s.
Proof.
  intros Hidle Hn He Hfirst. unfold handleScroll. rewrite Hidle.
  rewrite (firstContaining_first w _ 0 n e Hn He Hfirst).
  reflexivity.
Qed.

(** While the page is scrolling programmatically a scroll event changes
    nothing at all. *)
Lemma handleScroll_suppressed (s : State) (w : Window) :
  scrolling s = true -> handleScroll w s = s.
Proof. intros H. unfold handleScroll. rewrite H. reflexivity. Qed.

Lemma scrollToChapter_scrolling (index : Z) (s : State) :
  scrolling s = true -> scrolling (scrollToChapter index s) = true.
Proof.
  intros H. unfold scrollToChapter.
  destruct (elementAt _ _); [reflexivity | exact H].
Qed.

Lemma goToChapter_scrolling (chapterId : Z) (s : State) :
  scrolling s = true -> scrolling (goToChapter chapterId s) = true.
Proof.
  intros H. unfold goToChapter, handleNavigate.
  apply scrollToChapter_scrolling. exact H.
Qed.

(** No event but the timeout callback clears the flag. *)
Lemma step_keeps_scrolling (ev : Event) (s : State) :
  isTimeout ev = false ->
  scrolling s = true -> scrolling (step ev s) = true.
Proof.
  intros Hev H. destruct ev; simpl; try discriminate.
  - rewrite handleScroll_suppressed; assumption.
  - apply scrollToChapter_scrolling; assumption.
  - apply goToChapter_scrolling; assumption.
  - unfold nextChapter. destruct (_ <? _); [apply goToChapter_scrolling|]; assumption.
  - unfold prevChapter. destruct (_ <? _); [apply goToChapter_scrolling|]; assumption.
  - exact H.
Qed.

Lemma run_keeps_scrolling (evs : list Event) :
  forall s : State,
    forallb (fun ev => negb (isTimeout ev)) evs = true ->
    scrolling s = true -> scrolling (run evs s) = true.
Proof.
  induction evs as [|ev evs IH]; intros s Hevs H; [exact H|].
  simpl in Hevs. apply andb_true_iff in Hevs as [Hev Hevs].
  apply negb_true_iff in Hev.
  unfold run; simpl. apply IH; [exact Hevs|].
  apply step_keeps_scrolling; assumption.
Qed.

Lemma scrollToChapter_bound (index : Z) (s : State) (e : Element) :
  elementAt (chapterElements s) index = Some e ->
  scrolling (scrollToChapter index s) = true.
Proof. intros H. unfold scrollToChapter. rewrite H. reflexivity. Qed.

Lemma elementAt_out_of_range (els : list (option Element)) (index : Z) :
  Z.of_nat (List.length els) <= index -> elementAt els index = None.
Proof.
  intros H. unfold elementAt.
  destruct (index <? 0); [reflexivity|].
  assert (Hnone : nth_error els (Z.to_nat index) = None)
    by (apply nth_error_None; lia).
  rewrite Hnone. reflexivity.
Qed.

Lemma scrollToChapter_unbound (index : Z) (s : State) :
  elementAt (chapterElements s) index = None -> scrollToChapter index s = s.
Proof. intros H. unfold scrollToChapter. rewrite H. reflexivity. Qed.

(** ** C2.  With the flag [scrolling] clear, a scroll event sets the
    shared chapter index to the 1-based position of the unique bound
    section whose half-open box [[elementTop, elementBottom)] contains the
    viewport midpoint [scrollY + innerHeight / 2], and changes nothing
    else. *)
Theorem handleScroll_sets_containing_section
  (s : State) (w : Window) (n : nat) (e : Element) :
  scrolling s = false ->
  nth_error (chapterElements s) n = Some (Some e) ->
  inSection (scrollPosition w) e ->
  (forall m e', nth_error (chapterElements s) m = Some (Some e') ->
                inSection (scrollPosition w) e' -> m = n) ->
  handleScroll w s = set_currentChapter (Z.of_nat n + 1) s
  /\ currentChapter (handleScroll w s) = Z.of_nat n + 1.
Proof.
  intros Hidle Hn He Huniq.
  assert (H : handleScroll w s = set_currentChapter (Z.of_nat n + 1) s).
  { apply (handleScroll_first s w n e Hidle Hn).
    - apply containsMidpoint_inSection. exact He.
    - intros m e' Hm Hm'.
      destruct (containsMidpoint w e') eqn:Hc; [|reflexivity].
      apply containsMidpoint_inSection in Hc.
      specialize (Huniq m e' Hm' Hc). lia. }
  split; [exact H|]. rewrite H. reflexivity.
Qed.

(** The scenario of the specification: sections [[0,1000)], [[1000,2000)],
    [[2000,3000)] and the midpoint at 1500 give chapter 2. *)
Lemma handleScroll_midpoint_1500 :
  handleScroll midpoint1500 threeSections = set_currentChapter 2 threeSections
  /\ currentChapter (handleScroll midpoint1500 threeSections) = 2.
Proof.
  apply (handleScroll_sets_containing_section
           threeSections midpoint1500 1 (section 1000 2000)).
  - reflexivity.
  - reflexivity.
  - split; [discriminate | reflexivity].
  - intros m e' Hm [Hlo Hhi].
    destruct m as [|[|[|[|[|[|m]]]]]]; simpl in Hm; try discriminate.
    + injection Hm as <-. exfalso. apply (Qlt_not_le _ _ Hhi). discriminate.
    + reflexivity.
    + injection Hm as <-. exfalso. apply Hlo. reflexivity.
    + destruct m; discriminate.
Defined.

(** An event other than a timeout callback leaves the pending timeouts
    in place and schedules its own, if any, behind them. *)
Lemma step_appends_timeouts (ev : Event) (s : State) :
  isTimeout ev = false ->
  exists later, pendingTimeouts (step ev s) = (pendingTimeouts s ++ later)%list.
Proof.
  assert (Hscroll : forall index s0, exists later,
             pendingTimeouts (scrollToChapter index s0)
             = (pendingTimeouts s0 ++ later)%list).
  { intros index s0. unfold scrollToChapter.
    destruct (elementAt _ _); [exists [1000]; reflexivity|].
    exists []. symmetry. apply app_nil_r. }
  assert (Hgo : forall chapterId s0, exists later,
             pendingTimeouts (goToChapter chapterId s0)
             = (pendingTimeouts s0 ++ later)%list).
  { intros chapterId s0. unfold goToChapter, handleNavigate.
    apply (Hscroll _ (set_showMenu false (set_currentChapter chapterId s0))). }
  assert (Hnone : exists later, pendingTimeouts s = (pendingTimeouts s ++ later)%list).
  { exists []. symmetry. apply app_nil_r. }
  intros Hev. destruct ev; simpl; try discriminate.
  - unfold handleScroll. destruct (scrolling s); [exact Hnone|].
    destruct (firstContaining _ _ _); exact Hnone.
  - apply Hscroll.
  - apply Hgo.
  - unfold nextChapter. destruct (_ <? _); [apply Hgo | exact Hnone].
  - unfold prevChapter. destruct (_ <? _); [apply Hgo | exact Hnone].
  - exact Hnone.
Qed.

Lemma run_appends_timeouts (evs : list Event) :
  forall s : State,
    forallb (fun ev => negb (isTimeout ev)) evs = true ->
    exists later, pendingTimeouts (run evs s) = (pendingTimeouts s ++ later)%list.
Proof.
  induction evs as [|ev evs IH]; intros s Hevs.
  - exists []. symmetry. apply app_nil_r.
  - simpl in Hevs. apply andb_true_iff in Hevs as [Hev Hevs].
    apply negb_true_iff in Hev.
    destruct (step_appends_timeouts ev s Hev) as [l1 H1].
    destruct (IH (step ev s) Hevs) as [l2 H2].
    exists (l1 ++ l2)%list. unfold run in *. simpl.
    rewrite H2, H1. symmetry. apply app_assoc.
Qed.

(** ** C3, as the code has it.  [scrollToChapter] on a bound section sets
    the flag [scrolling] and schedules the callback that clears it after
    1000 ms, behind the callbacks that are still pending.  From then on,
    whatever scroll events and navigation requests arrive, as long as no
    timeout callback has run the flag is set and a scroll event leaves the
    shared chapter index (and the whole state) unchanged.  The next timeout
    callback to run restores the idle state: it clears the flag, and a
    scroll event then sets the index from the viewport midpoint again.
    When no timeout was pending at the start of the navigation, that
    callback is the navigation's own, so that the suppression lasts until
    its timeout. *)
Theorem scroll_suppressed_until_next_timeout
  (s : State) (index : Z) (e : Element) (evs : list Event) (w : Window) :
  elementAt (chapterElements s) index = Some e ->
  forallb (fun ev => negb (isTimeout ev)) evs = true ->
  pendingTimeouts (scrollToChapter index s) = (pendingTimeouts s ++ [1000])%list
  /\ (exists later,
         pendingTimeouts (run evs (scrollToChapter index s))
         = (pendingTimeouts s ++ 1000 :: later)%list)
  /\ scrolling (run evs (scrollToChapter index s)) = true
  /\ step (Scroll w) (run evs (scrollToChapter index s))
     = run evs (scrollToChapter index s)
  /\ currentChapter (run (evs ++ [Scroll w]) (scrollToChapter index s))
     = currentChapter (run evs (scrollToChapter index s))
  /\ scrolling (run (evs ++ [TimeoutFires]) (scrollToChapter index s)) = false
  /\ pendingTimeouts (run (evs ++ [TimeoutFires]) (scrollToChapter index s))
     = tl (pendingTimeouts (run evs (scrollToChapter index s)))
  /\ run (evs ++ [TimeoutFires; Scroll w]) (scrollToChapter index s)
     = match firstContaining w
               (chapterElements (run evs (scrollToChapter index s))) 0 with
       | Some i =>
           set_currentChapter (i + 1)
             (run (evs ++ [TimeoutFires]) (scrollToChapter index s))
       | None => run (evs ++ [TimeoutFires]) (scrollToChapter index s)
       end
  /\ (pendingTimeouts s = [] ->
      exists later,
        pendingTimeouts (run evs (scrollToChapter index s)) = 1000 :: later
        /\ pendingTimeouts (run (evs ++ [TimeoutFires]) (scrollToChapter index s))
           = later).
Proof.
  intros Hbound Hevs.
  set (started := scrollToChapter index s).
  assert (Hown : pendingTimeouts started = (pendingTimeouts s ++ [1000])%list).
  { unfold started, scrollToChapter. rewrite Hbound. reflexivity. }
  assert (Hflag : scrolling (run evs started) = true).
  { apply run_keeps_scrolling; [exact Hevs|].
    apply (scrollToChapter_bound index s e Hbound). }
  assert (Hstep : step (Scroll w) (run evs started) = run evs started).
  { simpl. apply handleScroll_suppressed. exact Hflag. }
  destruct (run_appends_timeouts evs started Hevs) as [later Hlater].
  rewrite Hown, <- app_assoc in Hlater. simpl in Hlater.
  assert (Hfire : run (evs ++ [TimeoutFires]) started
                  = timeoutCallback (run evs started)).
  { unfold run. rewrite fold_left_app. simpl.
    fold (run evs started).
    destruct (pendingTimeouts (run evs started)) eqn:Hp; [|reflexivity].
    destruct (pendingTimeouts s); discriminate Hlater. }
  split; [exact Hown|].
  split; [exists later; exact Hlater|].
  split; [exact Hflag|].
  split; [exact Hstep|].
  split.
  { unfold run in *. rewrite fold_left_app. simpl.
    simpl in Hstep. rewrite Hstep. reflexivity. }
  split; [rewrite Hfire; reflexivity|].
  split; [rewrite Hfire; reflexivity|].
  split.
  { replace (evs ++ [TimeoutFires; Scroll w])%list
      with ((evs ++ [TimeoutFires]) ++ [Scroll w])%list
      by (rewrite <- app_assoc; reflexivity).
    unfold run at 1. rewrite fold_left_app.
    fold (run (evs ++ [TimeoutFires]) started).
    rewrite Hfire. simpl. unfold handleScroll. simpl.
    destruct (firstContaining w (chapterElements (run evs started)) 0);
      reflexivity. }
  intros Hnone. rewrite Hnone in Hlater. simpl in Hlater.
  exists later. split; [exact Hlater|].
  rewrite Hfire. simpl. rewrite Hlater. reflexivity.
Qed.

(** Navigation to the third section of a page at rest, then scroll events
    through the second section and a click on the hero button: the index
    stays where it was until the timeout of the navigation runs, and the
    scroll event after it sets the index to 2. *)
Lemma scroll_suppressed_example :
  scrolling (run [Scroll midpoint1500; HeroButton]
                 (scrollToChapter 2 threeSections)) = true
  /\ currentChapter (run ([Scroll midpoint1500; HeroButton] ++ [Scroll midpoint1500])
                         (scrollToChapter 2 threeSections))
     = 1
  /\ scrolling (run ([Scroll midpoint1500; HeroButton] ++ [TimeoutFires])
                    (scrollToChapter 2 threeSections)) = false
  /\ currentChapter
       (run ([Scroll midpoint1500; HeroButton] ++ [TimeoutFires; Scroll midpoint1500])
            (scrollToChapter 2 threeSections))
     = 2.
Proof.
  destruct (scroll_suppressed_until_next_timeout
              threeSections 2 (section 2000 3000)
              [Scroll midpoint1500; HeroButton] midpoint1500)
    as [_ [_ [Hflag [_ [Hindex [Hidle [_ [Hlive _]]]]]]]];
    try reflexivity.
  split; [exact Hflag|].
  split; [rewrite Hindex; reflexivity|].
  split; [exact Hidle|].
  rewrite Hlive. reflexivity.
Defined.

(** C3 as stated fails when navigations overlap.  Menu entry 3 is picked
    and, within its second, menu entry 1: the second navigation has begun
    and both timeouts are pending.  The timeout of the first navigation
    runs and clears the shared flag; the timeout of the second is still
    pending, so the idle state has not been restored by it, and yet a scroll
    event with the midpoint in the second section moves the index from 1
    to 2.  Hence the claim is false as a statement about every navigation:
    callbacks of equal delay run in the order they were scheduled, so that
    the timeout of a navigation has not run as long as no more callbacks
    have run than were pending at its start, and within that period a
    scroll event can move the index. *)
Lemma overlapping_navigation_moves_index :
  scrolling (run [MenuItem 3; MenuItem 1] threeSections) = true
  /\ pendingTimeouts (run [MenuItem 3; MenuItem 1] threeSections) = [1000; 1000]
  /\ pendingTimeouts (run [MenuItem 3; MenuItem 1; TimeoutFires] threeSections)
     = [1000]
  /\ currentChapter (run [MenuItem 3; MenuItem 1; TimeoutFires] threeSections) = 1
  /\ currentChapter
       (run [MenuItem 3; MenuItem 1; TimeoutFires; Scroll midpoint1500]
            threeSections) = 2
  /\ ~ (forall (s : State) (index : Z) (evs : list Event) (w : Window),
           elementAt (chapterElements s) index <> None ->
           (List.length (filter isTimeout evs)
            <= List.length (pendingTimeouts s))%nat ->
           currentChapter (run (evs ++ [Scroll w]) (scrollToChapter index s))
           = currentChapter (run evs (scrollToChapter index s))).
Proof.
  repeat split.
  intros Hall.
  specialize (Hall (set_showMenu false
                      (set_currentChapter 1 (run [MenuItem 3] threeSections)))).
  specialize (Hall 0 [TimeoutFires] midpoint1500).
  simpl in Hall.
  assert (H : (2 : Z) = 1); [|discriminate H].
  apply Hall; [discriminate | apply le_n].
Qed.

(** ** C9.  [scrollToChapter(index)] on an index whose section element
    is not bound returns the state as it was: no [scrollIntoView] call, no
    timeout, the flag [scrolling] untouched.  The menu lists the chapter
    ids 1 to 10; on a page of six sections the entries 7 to 10 lead to the
    indices 6 to 9, which are not bound, so that [handleNavigate] does
    nothing for them. *)
Theorem scrollToChapter_unbound_noop :
  (forall (s : State) (index : Z),
      elementAt (chapterElements s) index = None ->
      scrollToChapter index s = s
      /\ scrollIntoViewCalls (scrollToChapter index s) = scrollIntoViewCalls s
      /\ pendingTimeouts (scrollToChapter index s) = pendingTimeouts s
      /\ (scrolling s = false -> scrolling (scrollToChapter index s) = false))
  /\ map id chapters = [1; 2; 3; 4; 5; 6; 7; 8; 9; 10]
  /\ (forall (s : State) (index : Z),
         List.length (chapterElements s) = 6%nat ->
         6 <= index <= 9 ->
         elementAt (chapterElements s) index = None)
  /\ (forall (s : State) (c : ChapterInfo),
         List.length (chapterElements s) = 6%nat ->
         In c chapters -> 6 < id c ->
         6 <= id c - 1 <= 9 /\ handleNavigate (id c) s = s).
Proof.
  assert (Hrange : forall (s : State) (index : Z),
             List.length (chapterElements s) = 6%nat ->
             6 <= index ->
             elementAt (chapterElements s) index = None).
  { intros s index Hlen Hidx. apply elementAt_out_of_range. lia. }
  split; [|split; [reflexivity|split]].
  - intros s index H. rewrite (scrollToChapter_unbound index s H).
    repeat split; trivial.
  - intros s index Hlen [Hlo _]. apply Hrange; assumption.
  - intros s c Hlen Hc Hid.
    assert (Hids : In (id c) (map id chapters)) by (apply in_map; exact Hc).
    assert (Hle : id c <= 10).
    { simpl in Hids. intuition lia. }
    split; [lia|].
    unfold handleNavigate. apply scrollToChapter_unbound.
    apply Hrange; [exact Hlen | lia].
Qed.

(** On the six-section page the menu entry of chapter 8 does nothing. *)
Lemma scrollToChapter_unbound_example :
  scrollToChapter 7 sixSections = sixSections
  /\ scrolling (scrollToChapter 7 sixSections) = false.
Proof.
  destruct scrollToChapter_unbound_noop as [Hnoop [_ [Hrange _]]].
  destruct (Hnoop sixSections 7) as [Hsame [_ [_ Hflag]]].
  - apply Hrange; [reflexivity | lia].
  - split; [exact Hsame | apply Hflag; reflexivity].
Defined.

(** *** The handlers on concrete pages *)

Example handleScroll_first_section :
  currentChapter
    (handleScroll {| scrollY := 0; innerHeight := 400 |}
                  (set_currentChapter 3 threeSections)) = 1.
Proof. reflexivity. Qed.

(** The upper end of a box belongs to the next section. *)
Example handleScroll_boundary :
  currentChapter
    (handleScroll {| scrollY := 600; innerHeight := 800 |} threeSections) = 2.
Proof. reflexivity. Qed.

(** Below the last section no box contains the midpoint and the index
    stays. *)
Example handleScroll_past_the_end :
  handleScroll {| scrollY := 2900; innerHeight := 800 |} threeSections
  = threeSections.
Proof. reflexivity. Qed.

Example goToChapter_bound :
  goToChapter 3 threeSections
  = {| currentChapter := 3;
       chapterElements := chapterElements threeSections;
       scrolling := true;
       showMenu := false;
       scrollIntoViewCalls := [2];
       pendingTimeouts := [1000] |}.
Proof. reflexivity. Qed.

End PageFacts.

(** ** The calculators *)

Module CalculatorFacts.

Import Fetch Template Fixtures.
Local Open Scope Q_scope.

Lemma mul_Fin (a b : Q) : mul (Fin a) (Fin b) = Fin (a * b).
Proof. reflexivity. Qed.

Lemma sub_Fin (a b : Q) : sub (Fin a) (Fin b) = Fin (a + - b).
Proof. reflexivity. Qed.

Lemma div_Fin (a b : Q) : Qeq_bool b 0 = false -> div (Fin a) (Fin b) = Fin (a / b).
Proof. intros H. unfold div. rewrite H. reflexivity. Qed.

Lemma Qdiv_nonneg (a b : Q) : 0 <= a -> 0 < b -> 0 <= a / b.
Proof. intros Ha Hb. apply Qle_shift_div_l; [exact Hb | lra]. Qed.

Lemma EMISSIONS_PER_MODE_nonneg (mode : Chapter6.CommuteMode) :
  exists q : Q, Chapter6.EMISSIONS_PER_MODE mode = Fin q /\ 0 <= q.
Proof.
  destruct mode; simpl; eexists; (split; [reflexivity | lra]).
Qed.

(** The annual miles of Chapter 6 on finite inputs. *)
Lemma annualMiles_Fin (s : Chapter6.State) (m d : Q) :
  Chapter6.commuteMinutes s = Fin m ->
  Chapter6.daysPerWeek s = Fin d ->
  Chapter6.annualMiles s = Fin (m / 60 * 30 * 2 * d * 50).
Proof.
  intros Hm Hd.
  unfold Chapter6.annualMiles, Chapter6.dailyMiles, Chapter6.commuteDistance,
    Chapter6.AVG_SPEED_MPH.
  rewrite Hm, Hd. reflexivity.
Qed.

(** ** C1.  For commute minutes in [[5,120]] and days per week in
    [[1,7]], whatever the mode and the loaded averages, the annual hours
    and the annual CO2 of Chapter 1 and the hours gained, the walking
    minutes and the annual CO2 of Chapter 6 are finite and not negative. *)
Theorem annual_figures_nonneg_finite
  (s1 : Chapter1.State) (s6 : Chapter6.State) (m d : Q) :
  5 <= m <= 120 ->
  1 <= d <= 7 ->
  Chapter1.userCommuteMinutes s1 = Fin m ->
  Chapter6.commuteMinutes s6 = Fin m ->
  Chapter6.daysPerWeek s6 = Fin d ->
  nonNegFinite (Chapter1.userAnnualHours s1)
  /\ nonNegFinite (Chapter1.userAnnualCO2 s1)
  /\ nonNegFinite (Chapter6.option2_hoursGained s6)
  /\ nonNegFinite (Chapter6.option1_healthBenefit s6)
  /\ nonNegFinite (Chapter6.currentAnnualCO2 s6).
Proof.
  intros Hm Hd H1 H6 H6d.
  assert (Hmiles : 0 <= m / 60 * 30 * 2 * d * 50).
  { assert (H60 : 0 <= m / 60) by (apply Qdiv_nonneg; lra).
    assert (Hday : 0 <= m / 60 * 30 * 2) by lra.
    assert (Hwk : 0 <= m / 60 * 30 * 2 * d)
      by (apply Qmult_le_0_compat; lra).
    lra. }
  repeat split.
  - unfold Chapter1.userAnnualHours. rewrite H1. simpl.
    apply Qdiv_nonneg; lra.
  - unfold Chapter1.userAnnualCO2. rewrite H1. simpl.
    apply Qdiv_nonneg; [apply Qdiv_nonneg|]; lra.
  - unfold Chapter6.option2_hoursGained. rewrite H6. simpl.
    apply Qdiv_nonneg; lra.
  - unfold Chapter6.option1_healthBenefit. rewrite H6. simpl. lra.
  - unfold Chapter6.currentAnnualCO2.
    rewrite (annualMiles_Fin s6 m d H6 H6d).
    destruct (EMISSIONS_PER_MODE_nonneg (Chapter6.currentMode s6))
      as [q [-> Hq]].
    simpl. apply Qdiv_nonneg; [|lra].
    apply Qmult_le_0_compat; [exact Hq|].
    apply Qdiv_nonneg; [exact Hmiles | lra].
Qed.

Lemma annual_figures_example :
  nonNegFinite (Chapter1.userAnnualHours calculator1_45)
  /\ nonNegFinite (Chapter1.userAnnualCO2 calculator1_45)
  /\ nonNegFinite (Chapter6.option2_hoursGained calculator6_45)
  /\ nonNegFinite (Chapter6.option1_healthBenefit calculator6_45)
  /\ nonNegFinite (Chapter6.currentAnnualCO2 calculator6_45).
Proof.
  apply (annual_figures_nonneg_finite calculator1_45 calculator6_45 45 3);
    try reflexivity; split; discriminate.
Defined.

(** ** C7, as the code has it.  The commute control of Chapter 1 is a
    range input that admits 5 to 90 and that of Chapter 6 is a number input
    whose attributes admit 1 to 120, both in steps of 1; the bounds are
    attained, and neither admits a value above 120. *)
Theorem commute_inputs_bounds :
  (type Chapter1.commuteInput = range
   /\ min Chapter1.commuteInput == 5 /\ max Chapter1.commuteInput == 90
   /\ step Chapter1.commuteInput == 1)
  /\ (type Chapter6.commuteInput = number
      /\ min Chapter6.commuteInput == 1 /\ max Chapter6.commuteInput == 120
      /\ step Chapter6.commuteInput == 1)
  /\ (forall v : Q, accepts Chapter1.commuteInput v = true -> 5 <= v <= 90)
  /\ (forall v : Q, accepts Chapter6.commuteInput v = true -> 1 <= v <= 120)
  /\ accepts Chapter1.commuteInput 5 = true
  /\ accepts Chapter1.commuteInput 90 = true
  /\ accepts Chapter6.commuteInput 1 = true
  /\ accepts Chapter6.commuteInput 120 = true
  /\ (forall (i : Input) (v : Q),
         In i commuteInputs -> accepts i v = true -> v <= 120).
Proof.
  assert (H1 : forall v : Q, accepts Chapter1.commuteInput v = true -> 5 <= v <= 90).
  { intros v H. unfold accepts in H.
    apply andb_true_iff in H as [H _]. apply andb_true_iff in H as [Hlo Hhi].
    apply Qle_bool_iff in Hlo, Hhi. simpl in Hlo, Hhi. split; assumption. }
  assert (H6 : forall v : Q, accepts Chapter6.commuteInput v = true -> 1 <= v <= 120).
  { intros v H. unfold accepts in H.
    apply andb_true_iff in H as [H _]. apply andb_true_iff in H as [Hlo Hhi].
    apply Qle_bool_iff in Hlo, Hhi. simpl in Hlo, Hhi. split; assumption. }
  repeat split; try reflexivity; try (apply H1; assumption);
    try (apply H6; assumption).
  intros i v [<-|[<-|[]]] Hv.
  - apply H1 in Hv. lra.
  - apply H6 in Hv. lra.
Qed.

Lemma commute_inputs_bounds_example :
  5 <= 60 <= 90 /\ 1 <= 60 <= 120.
Proof.
  destruct commute_inputs_bounds as [_ [_ [H1 [H6 _]]]].
  split; [apply H1 | apply H6]; reflexivity.
Defined.

(** C7 as stated fails: the control of Chapter 6 admits 3 minutes, which
    is below 5, and the control of Chapter 1 refuses 100 minutes, which is
    within 5 to 120. *)
Lemma commute_inputs_not_5_to_120 :
  ~ (forall (i : Input) (v : Q),
        In i commuteInputs -> (accepts i v = true -> 5 <= v <= 120))
  /\ accepts Chapter6.commuteInput 3 = true
  /\ accepts Chapter1.commuteInput 100 = false.
Proof.
  repeat split.
  intros H.
  destruct (H Chapter6.commuteInput 3) as [Hlo _].
  - right; left; reflexivity.
  - reflexivity.
  - apply Hlo. reflexivity.
Qed.

(** *** The calculators on concrete inputs *)

(** The default commute of 27 minutes: 225 hours a year. *)
Example userAnnualHours_27 :
  isFin (Chapter1.userAnnualHours Chapter1.initial) 225.
Proof. reflexivity. Qed.

Example userAnnualCO2_27 :
  isFin (Chapter1.userAnnualCO2 Chapter1.initial) 2.399490.
Proof. reflexivity. Qed.

(** Against the fallback average of 0.35 tons: ["+585.6"] percent. *)
Example comparisonToPAAvg_27 :
  Chapter1.comparisonToPAAvg
    (Chapter1.onMount Unreachable Unreachable Chapter1.initial)
  = "585.6"%string.
Proof. reflexivity. Qed.

(** Before the averages are loaded the comparison divides by zero. *)
Example comparisonToPAAvg_unloaded :
  Chapter1.comparisonToPAAvg Chapter1.initial = "Infinity"%string.
Proof. reflexivity. Qed.

(** Thirty minutes, five days, driving alone: 7500 miles, 5025 dollars,
    1.935 tons. *)
Example annualMiles_default : isFin (Chapter6.annualMiles Chapter6.initial) 7500.
Proof. reflexivity. Qed.

Example annualCost_default : isFin (Chapter6.annualCost Chapter6.initial) 5025.
Proof. reflexivity. Qed.

Example currentAnnualCO2_default :
  isFin (Chapter6.currentAnnualCO2 Chapter6.initial) 1.935.
Proof. reflexivity. Qed.

(** A commute shorter than five miles each way makes moving closer a
    loss: the figure is negative and shown as it is. *)
Example option3_costSaved_negative :
  isFin (Chapter6.option3_costSaved calculator6_short) (-837.5).
Proof. reflexivity. Qed.

End CalculatorFacts.

(** ** The chart renderers and the summaries of Chapter 2 *)

Module ChartFacts.

Import Fetch Template Svg Fixtures.

Lemma allDigits_string_of_uint (u : Decimal.uint) :
  allDigits (NilEmpty.string_of_uint u) = true.
Proof. induction u; simpl; auto. Qed.

Lemma isDigits_string_of_uint (u : Decimal.uint) :
  isDigits (NilZero.string_of_uint u) = true.
Proof.
  destruct u; simpl; try reflexivity; apply allDigits_string_of_uint.
Qed.

Lemma digits_isDigits (n : N) : isDigits (digits n) = true.
Proof. apply isDigits_string_of_uint. Qed.

(** [toFixed(0)] of a finite number is the numeral of a whole number. *)
Lemma toFixed0_isNumeral (q : Q) : isNumeral (toFixed 0 (Fin q)) = true.
Proof.
  unfold toFixed, fixedDigits.
  destruct (Qle_bool 0 q).
  - set (n := Z.to_N _). generalize (digits_isDigits n).
    unfold isNumeral. destruct (digits n) as [|c rest]; [discriminate|].
    intros H. destruct c as [[] [] [] [] [] [] [] []]; exact H || (simpl in H; discriminate H).
  - set (n := Z.to_N _). simpl. apply digits_isDigits.
Qed.

(** A sum of finite numbers from a finite start is finite. *)
Lemma sum_finite (rows : list Chapter2.CountyData) :
  Forall (fun c => isFinite (Chapter2.co2_tons c) = true) rows ->
  forall a : Q, exists b : Q,
    fold_left (fun sum c => add sum (Chapter2.co2_tons c)) rows (Fin a) = Fin b.
Proof.
  induction 1 as [|c rows Hc _ IH]; intros a; simpl.
  - exists a. reflexivity.
  - destruct (Chapter2.co2_tons c) as [q| | |]; try discriminate.
    apply IH.
Qed.

Lemma totalEmissions_finite (s : Chapter2.State) :
  Forall (fun c => isFinite (Chapter2.co2_tons c) = true) (Chapter2.countyData s) ->
  exists b : Q, Chapter2.totalEmissions s = Fin b.
Proof.
  intros H. unfold Chapter2.totalEmissions.
  destruct (_ <? _)%nat; [apply sum_finite; exact H | eexists; reflexivity].
Qed.

Lemma top10Emissions_finite (s : Chapter2.State) :
  Forall (fun c => isFinite (Chapter2.co2_tons c) = true) (Chapter2.countyData s) ->
  exists a : Q, Chapter2.top10Emissions s = Fin a.
Proof.
  intros H. unfold Chapter2.top10Emissions, Chapter2.top10Records.
  destruct (_ <? _)%nat; [|eexists; reflexivity].
  apply sum_finite. apply Forall_forall. intros c Hc.
  apply (proj1 (Forall_forall _ _) H).
  rewrite <- (firstn_skipn (Nat.min 10 (List.length (Chapter2.countyData s)))).
  apply in_or_app. left. exact Hc.
Qed.

(** On empty data, on a total of zero and on a total that is not a
    number, the guard of [top10Percentage] gives ["0"]. *)
Lemma top10Percentage_guard (s : Chapter2.State) :
  Chapter2.countyData s = []
  \/ eqb (Chapter2.totalEmissions s) (Fin 0) = true
  \/ isNaN (Chapter2.totalEmissions s) = true ->
  Chapter2.top10Percentage s = "0"%string.
Proof.
  unfold Chapter2.top10Percentage.
  intros [Hempty | [Hzero | Hnan]].
  - unfold Chapter2.totalEmissions. rewrite Hempty. reflexivity.
  - destruct (Chapter2.totalEmissions s) as [q| | |]; try discriminate.
    simpl in Hzero. apply Qeq_bool_iff in Hzero.
    unfold gt, lt.
    assert (Hle : Qle_bool q 0 = true) by (apply Qle_bool_iff; lra).
    rewrite Hle. reflexivity.
  - destruct (Chapter2.totalEmissions s); try discriminate. reflexivity.
Qed.

(** C10 as stated fails: a county whose emissions are infinite makes the
    total infinite, which passes the guard [totalEmissions > 0], and the
    ratio of the two infinities prints as ["NaN"]. *)
Lemma top10Percentage_not_always_numeral :
  Chapter2.top10Percentage (chapter2With [overflowCounty] None) = "NaN"%string
  /\ isNumeral (Chapter2.top10Percentage (chapter2With [overflowCounty] None))
     = false
  /\ ~ (forall s : Chapter2.State,
           isNumeral (Chapter2.top10Percentage s) = true).
Proof.
  assert (H : Chapter2.top10Percentage (chapter2With [overflowCounty] None)
              = "NaN"%string) by reflexivity.
  split; [exact H|]. split; [rewrite H; reflexivity|].
  intros Hall. specialize (Hall (chapter2With [overflowCounty] None)).
  rewrite H in Hall. discriminate Hall.
Qed.

(** ** C5.  A render call that finds its container not attached, or its
    record list empty, returns with every script variable and the
    container's content as they were. *)
Theorem render_skipped_silently
  (Math_sqrt : num -> num) (s2 : Chapter2.State) (s3 : Chapter3.State) :
  Chapter2.mapContainer s2 = None \/ Chapter2.countyData s2 = [] ->
  Chapter3.chartContainer s3 = None \/ Chapter3.metroData s3 = [] ->
  Chapter2.renderMap Math_sqrt s2 = s2
  /\ Chapter2.mapContainer (Chapter2.renderMap Math_sqrt s2) = Chapter2.mapContainer s2
  /\ Chapter3.renderChart s3 = s3
  /\ Chapter3.chartContainer (Chapter3.renderChart s3) = Chapter3.chartContainer s3.
Proof.
  intros H2 H3.
  assert (E2 : Chapter2.renderMap Math_sqrt s2 = s2).
  { unfold Chapter2.renderMap. destruct H2 as [-> | H2]; [reflexivity|].
    rewrite H2. destruct (Chapter2.mapContainer s2); reflexivity. }
  assert (E3 : Chapter3.renderChart s3 = s3).
  { unfold Chapter3.renderChart. destruct H3 as [-> | H3]; [reflexivity|].
    rewrite H3. destruct (Chapter3.chartContainer s3); reflexivity. }
  rewrite E2, E3. repeat split.
Qed.

(** Chapter 2 with rows but no container yet; Chapter 3 with a container
    that holds a mark but no rows. *)
Lemma render_skipped_example :
  Chapter2.renderMap (fun x => x) (chapter2With Chapter2.fallbackCounties None)
  = chapter2With Chapter2.fallbackCounties None
  /\ Chapter3.chartContainer
       (Chapter3.renderChart (chapter3With [] (Some [staleMark])))
     = Some [staleMark].
Proof.
  destruct (render_skipped_silently (fun x => x)
              (chapter2With Chapter2.fallbackCounties None)
              (chapter3With [] (Some [staleMark])))
    as [E2 [_ [_ E3]]].
  - left. reflexivity.
  - right. reflexivity.
  - split; [exact E2 | exact E3].
Defined.

(** A render call that is not skipped leaves exactly the scene it built
    in the container, whatever was there. *)
Lemma renderMap_replaces (Math_sqrt : num -> num) (s : Chapter2.State)
  (old : list (Node Chapter2.Handler)) :
  Chapter2.mapContainer s = Some old ->
  Chapter2.countyData s <> [] ->
  Chapter2.renderMap Math_sqrt s
  = Chapter2.set_mapContainer
      (Some [Chapter2.mapScene Math_sqrt (Chapter2.countyData s) (Chapter2.viewMode s)])
      s.
Proof.
  intros Hc Hrows. unfold Chapter2.renderMap. rewrite Hc.
  destruct (Chapter2.countyData s); [contradiction | reflexivity].
Qed.

Lemma renderChart_replaces (s : Chapter3.State)
  (old : list (Node Chapter3.Handler)) :
  Chapter3.chartContainer s = Some old ->
  Chapter3.metroData s <> [] ->
  Chapter3.chartContainer (Chapter3.renderChart s)
  = Some [Chapter3.chartScene (Chapter3.metroData s) (Chapter3.selectedMetro s)]
  /\ Chapter3.metroData (Chapter3.renderChart s) = Chapter3.metroData s
  /\ Chapter3.selectedMetro (Chapter3.renderChart s) = Chapter3.selectedMetro s.
Proof.
  intros Hc Hrows. unfold Chapter3.renderChart. rewrite Hc.
  destruct (Chapter3.metroData s); [contradiction | repeat split].
Qed.

Lemma renderMap_idempotent (Math_sqrt : num -> num) (s : Chapter2.State) :
  Chapter2.renderMap Math_sqrt (Chapter2.renderMap Math_sqrt s)
  = Chapter2.renderMap Math_sqrt s.
Proof.
  unfold Chapter2.renderMap at 2 3.
  destruct (Chapter2.mapContainer s) as [old|] eqn:Hc.
  - destruct (Chapter2.countyData s) as [|c rows] eqn:Hrows; simpl.
    + unfold Chapter2.renderMap. rewrite Hc, Hrows. reflexivity.
    + unfold Chapter2.renderMap. simpl. rewrite Hrows. reflexivity.
  - unfold Chapter2.renderMap. rewrite Hc. reflexivity.
Qed.

Lemma renderChart_idempotent (s : Chapter3.State) :
  Chapter3.renderChart (Chapter3.renderChart s) = Chapter3.renderChart s.
Proof.
  unfold Chapter3.renderChart at 2 3.
  destruct (Chapter3.chartContainer s) as [old|] eqn:Hc.
  - destruct (Chapter3.metroData s) as [|m rows] eqn:Hrows; simpl.
    + unfold Chapter3.renderChart. rewrite Hc, Hrows. reflexivity.
    + unfold Chapter3.renderChart. simpl. reflexivity.
  - unfold Chapter3.renderChart. rewrite Hc. reflexivity.
Qed.

(** ** C6.  Rendering twice in succession leaves what rendering once
    leaves, for every record list and every prior content of the
    container; and a call that renders leaves one scene in the container,
    built from the current rows, and nothing of what was there before. *)
Theorem render_twice_is_render_once
  (Math_sqrt : num -> num) (s2 : Chapter2.State) (s3 : Chapter3.State) :
  Chapter2.renderMap Math_sqrt (Chapter2.renderMap Math_sqrt s2)
  = Chapter2.renderMap Math_sqrt s2
  /\ Chapter3.renderChart (Chapter3.renderChart s3) = Chapter3.renderChart s3
  /\ (forall old,
         Chapter2.mapContainer s2 = Some old -> Chapter2.countyData s2 <> [] ->
         Chapter2.mapContainer (Chapter2.renderMap Math_sqrt s2)
         = Some [Chapter2.mapScene Math_sqrt (Chapter2.countyData s2)
                                   (Chapter2.viewMode s2)])
  /\ (forall old,
         Chapter3.chartContainer s3 = Some old -> Chapter3.metroData s3 <> [] ->
         Chapter3.chartContainer (Chapter3.renderChart s3)
         = Some [Chapter3.chartScene (Chapter3.metroData s3)
                                     (Chapter3.selectedMetro s3)]).
Proof.
  split; [apply renderMap_idempotent|].
  split; [apply renderChart_idempotent|].
  split.
  - intros old Hc Hrows.
    rewrite (renderMap_replaces Math_sqrt s2 old Hc Hrows). reflexivity.
  - intros old Hc Hrows.
    apply (renderChart_replaces s3 old Hc Hrows).
Qed.

(** Containers that already hold a mark: after two renders each holds one
    scene and the mark is gone. *)
Lemma render_twice_example :
  Chapter2.mapContainer
    (Chapter2.renderMap (fun x => x)
       (Chapter2.renderMap (fun x => x)
          (chapter2With Chapter2.fallbackCounties (Some [staleMark]))))
  = Some [Chapter2.mapScene (fun x => x) Chapter2.fallbackCounties Chapter2.total]
  /\ Chapter3.chartContainer
       (Chapter3.renderChart
          (Chapter3.renderChart (chapter3With twoMetros (Some [staleMark]))))
     = Some [Chapter3.chartScene twoMetros None].
Proof.
  destruct (render_twice_is_render_once (fun x => x)
              (chapter2With Chapter2.fallbackCounties (Some [staleMark]))
              (chapter3With twoMetros (Some [staleMark])))
    as [E2 [E3 [R2 R3]]].
  rewrite E2, E3. split.
  - apply (R2 [staleMark]); [reflexivity | discriminate].
  - apply (R3 [staleMark]); [reflexivity | discriminate].
Defined.

(** *** The summaries and the sort on concrete data *)

Example top10Percentage_default :
  Chapter2.top10Percentage (chapter2With Chapter2.defaultCounties None)
  = "100"%string.
Proof. reflexivity. Qed.

(** Ten of twelve equal counties: 83 percent. *)
Example top10Percentage_twelve :
  Chapter2.top10Percentage (chapter2With twelveCounties None) = "83"%string
  /\ List.length (Chapter2.top10Records (chapter2With twelveCounties None))
     = 10%nat.
Proof. split; reflexivity. Qed.

Example sortByEmissions_descending :
  map Chapter2.county
      (Chapter2.sortByEmissions
         [ Chapter2.fixedCounty "Bucks" 40.3154 (-75.1085) 765000 1.22;
           Chapter2.fixedCounty "Philadelphia" 40.0094 (-75.1333) 2345000 1.48;
           Chapter2.fixedCounty "Allegheny" 40.4406 (-79.9959) 1234000 0.99 ])
  = ["Philadelphia"; "Allegheny"; "Bucks"]%string.
Proof. reflexivity. Qed.

(** Rows of equal emissions keep the order of the file. *)
Example sortByEmissions_stable :
  map Chapter2.county
      (Chapter2.sortByEmissions
         [ Chapter2.fixedCounty "Bucks" 40.3154 (-75.1085) 765000 1.22;
           Chapter2.fixedCounty "Erie" 42.1292 (-80.0851) 765000 1.2;
           Chapter2.fixedCounty "Allegheny" 40.4406 (-79.9959) 1234000 0.99;
           Chapter2.fixedCounty "York" 39.9626 (-76.7277) 765000 1.1 ])
  = ["Allegheny"; "Bucks"; "Erie"; "York"]%string.
Proof. reflexivity. Qed.

Example toFixed_samples :
  toFixed 0 (Fin 87.5) = "88"%string
  /\ toFixed 1 (Fin (-12.34)) = "-12.3"%string
  /\ toFixed 2 (Fin 0.005) = "0.01"%string
  /\ toFixed 0 NaN = "NaN"%string
  /\ Chapter3.safe None 1 = "—"%string
  /\ Chapter3.safe (Some PosInf) 2 = "—"%string
  /\ Chapter3.safe (Some (Fin 32.5)) 1 = "32.5"%string.
Proof. repeat split. Qed.

(** The toggle of Chapter 2 re-renders in the other view mode. *)
Example toggleView_rerenders :
  Chapter2.mapContainer
    (Chapter2.toggleView (fun x => x)
       (chapter2With Chapter2.fallbackCounties (Some [staleMark])))
  = Some [Chapter2.mapScene (fun x => x) Chapter2.fallbackCounties
                            Chapter2.per_capita].
Proof. reflexivity. Qed.

(** A click on a metro selects it and the chart is drawn again with it
    highlighted; a second click clears the selection. *)
Example selectMetro_toggles :
  forall m rest,
    Chapter3.selectedMetro
      (Chapter3.selectMetro m (chapter3With (m :: rest) (Some []))) = Some m
    /\ Chapter3.selectedMetro
         (Chapter3.selectMetro m
            (Chapter3.selectMetro m (chapter3With (m :: rest) (Some []))))
       = None.
Proof.
  intros m rest. split; [reflexivity|].
  unfold Chapter3.selectMetro, Chapter3.renderChart; simpl.
  unfold Chapter3.isSelected. rewrite String.eqb_refl. reflexivity.
Qed.

End ChartFacts.

(** ** Loading: what a failed fetch leaves behind *)

Module LoadFacts.

Import Fetch Template Fixtures.
Local Open Scope Q_scope.

(** The [try] block of Chapter 1 throws exactly when one of the two loads
    fails or the scenarios carry no [current] entry. *)
Lemma Chapter1_tryBlock_threw
  (summary : Response SummaryStats) (scenarios : Response Scenarios)
  (s : Chapter1.State) :
  threw (Chapter1.tryBlock summary scenarios) s = true
  <-> failed summary = true
      \/ failed scenarios = true
      \/ exists body, scenarios = Json body /\ current body = None.
Proof.
  unfold threw, Chapter1.tryBlock.
  destruct summary as [| |sm]; simpl; try tauto.
  destruct scenarios as [| |sc]; simpl; try tauto.
  destruct sc as [[c|]]; simpl.
  - split; [discriminate|].
    intros [H|[H|[body [Hb Hc]]]]; try discriminate.
    injection Hb as <-. discriminate.
  - split; [|reflexivity]. intros _. right; right. eexists; split; reflexivity.
Qed.

(** Whatever the [try] block of Chapter 1 throws, the [catch] branch
    installs the fallback constants, logs the error and shows the content. *)
Lemma Chapter1_onMount_fallback
  (summary : Response SummaryStats) (scenarios : Response Scenarios)
  (s : Chapter1.State) :
  threw (Chapter1.tryBlock summary scenarios) s = true ->
  Chapter1.PA_STATS (Chapter1.onMount summary scenarios s) = Chapter1.fallbackStats
  /\ Chapter1.dataLoaded (Chapter1.onMount summary scenarios s) = true
  /\ exists e, Chapter1.console (Chapter1.onMount summary scenarios s)
               = (Chapter1.console s
                  ++ [{| message := "Error loading PA data:"; logged := e |}])%list.
Proof.
  unfold threw, Chapter1.onMount, tryCatch.
  destruct (Chapter1.tryBlock summary scenarios s) as [[e|[]] s'] eqn:Hrun;
    simpl; [intros _ | discriminate].
  assert (Hs' : s' = s).
  { unfold Chapter1.tryBlock in Hrun.
    destruct summary as [| |sm]; simpl in Hrun; try (injection Hrun; congruence).
    destruct scenarios as [| |sc]; simpl in Hrun; try (injection Hrun; congruence).
    destruct sc as [[c|]]; simpl in Hrun; [discriminate | injection Hrun; congruence]. }
  subst s'. repeat split. exists e. reflexivity.
Qed.

(** ** C8.  When the load of Chapter 1 fails, the state holds the
    fallback constants: 6,179,069 commuters, 9.9 minutes, and exactly
    509,773,192 annual hours lost. *)
Theorem fallback_annualHoursLost
  (summary : Response SummaryStats) (scenarios : Response Scenarios)
  (s : Chapter1.State) :
  failed summary = true \/ failed scenarios = true ->
  let stats := Chapter1.PA_STATS (Chapter1.onMount summary scenarios s) in
  Chapter1.totalCommuters stats = Some (Fin 6179069)
  /\ Chapter1.avgCommuteMinutes stats = Some (Fin 9.9)
  /\ Chapter1.annualHoursLost stats = Some (Fin 509773192).
Proof.
  intros Hfail stats. subst stats.
  destruct (Chapter1_onMount_fallback summary scenarios s) as [-> _].
  - apply Chapter1_tryBlock_threw. tauto.
  - repeat split.
Qed.

(** The server is unreachable when Chapter 1 mounts. *)
Lemma fallback_annualHoursLost_example :
  Chapter1.annualHoursLost
    (Chapter1.PA_STATS (Chapter1.onMount Unreachable Unreachable Chapter1.initial))
  = Some (Fin 509773192).
Proof.
  apply (fallback_annualHoursLost Unreachable Unreachable Chapter1.initial).
  left. reflexivity.
Defined.

(** A [try] block whose fetch failed stops there, with the script
    variables as they were, and the [catch] branch runs on the error. *)
Ltac at_failed_fetch H :=
  unfold tryCatch;
  repeat match goal with
         | r : Response _ |- _ => destruct r; simpl; try (eexists; reflexivity)
         end;
  simpl in H; intuition discriminate.

(** *** Chapter 2 *)

Lemma Chapter2_fetch_failure (Math_sqrt : num -> num)
  (mapR : Response (list Chapter2.MapItem))
  (emR : Response (list Chapter2.EmissionsItem))
  (metroR : Response (list Chapter2.MetroItem)) (s : Chapter2.State) :
  failed mapR = true \/ failed emR = true \/ failed metroR = true ->
  exists e, Chapter2.onMount Math_sqrt mapR emR metroR s
            = Chapter2.catchBlock Math_sqrt e s.
Proof.
  intros H. unfold Chapter2.onMount, Chapter2.tryBlock.
  at_failed_fetch H.
Qed.

Lemma Chapter2_renderMap_keeps (Math_sqrt : num -> num) (s : Chapter2.State) :
  Chapter2.countyData (Chapter2.renderMap Math_sqrt s) = Chapter2.countyData s
  /\ Chapter2.dataLoaded (Chapter2.renderMap Math_sqrt s) = Chapter2.dataLoaded s
  /\ Chapter2.console (Chapter2.renderMap Math_sqrt s) = Chapter2.console s.
Proof.
  unfold Chapter2.renderMap.
  destruct (Chapter2.mapContainer s); [|repeat split].
  destruct (_ =? _)%nat; repeat split.
Qed.

Lemma Chapter2_catchBlock (Math_sqrt : num -> num) (e : Error) (s : Chapter2.State) :
  Chapter2.countyData (Chapter2.catchBlock Math_sqrt e s) = Chapter2.fallbackCounties
  /\ Chapter2.view (Chapter2.catchBlock Math_sqrt e s) = Content
  /\ Chapter2.console (Chapter2.catchBlock Math_sqrt e s)
     = (Chapter2.console s
        ++ [{| message := "Error loading county data:"; logged := e |}])%list.
Proof.
  unfold Chapter2.catchBlock, Chapter2.view.
  destruct (Chapter2_renderMap_keeps Math_sqrt
              (Chapter2.set_dataLoaded true
                 (Chapter2.set_countyData Chapter2.fallbackCounties
                    {| Chapter2.countyData := Chapter2.countyData s;
                       Chapter2.dataLoaded := Chapter2.dataLoaded s;
                       Chapter2.mapContainer := Chapter2.mapContainer s;
                       Chapter2.viewMode := Chapter2.viewMode s;
                       Chapter2.selectedCounty := Chapter2.selectedCounty s;
                       Chapter2.console :=
                         (Chapter2.console s
                          ++ [{| message := "Error loading county data:";
                                 logged := e |}])%list |})))
    as [-> [-> ->]].
  repeat split.
Qed.

(** *** Chapter 3 *)

Lemma Chapter3_fetch_failure
  (metroR : Response (option (list Chapter3.MetroData))) (s : Chapter3.State) :
  failed metroR = true ->
  exists e, Chapter3.onMount metroR s = Chapter3.catchBlock e s.
Proof.
  intros H. unfold Chapter3.onMount, Chapter3.tryBlock.
  at_failed_fetch H.
Qed.

(** *** Chapter 4 *)

Lemma Chapter4_fetch_failure (available : bool)
  (summary : Response SummaryStats) (scenarios : Response Scenarios)
  (s : Chapter4.State) :
  failed summary = true \/ failed scenarios = true ->
  exists e, Chapter4.onMount available summary scenarios s
            = Chapter4.catchBlock available e s.
Proof.
  intros H. unfold Chapter4.onMount, Chapter4.tryBlock.
  at_failed_fetch H.
Qed.

Lemma Chapter4_catchBlock (available : bool) (e : Error) (s : Chapter4.State) :
  Chapter4.PA_BASELINE (Chapter4.catchBlock available e s) = Chapter4.fallbackBaseline
  /\ Chapter4.view (Chapter4.catchBlock available e s) = Content
  /\ In {| message := "Error loading PA data:"; logged := e |}
        (Chapter4.console (Chapter4.catchBlock available e s)).
Proof.
  destruct s as [b ts wi dl ps cc [ch|] wc wch co];
    destruct available, wch, cc, dl;
    (split; [reflexivity | split; [reflexivity|]]);
    cbn; repeat (rewrite in_app_iff; simpl); tauto.
Qed.

(** *** Chapter 5 *)

Lemma Chapter5_fetch_failure
  (summary : Response SummaryStats) (scenarios : Response Scenarios)
  (s : Chapter5.State) :
  failed summary = true \/ failed scenarios = true ->
  exists e, Chapter5.onMount summary scenarios s = Chapter5.catchBlock e s.
Proof.
  intros H. unfold Chapter5.onMount, Chapter5.tryBlock.
  at_failed_fetch H.
Qed.

(** *** Chapter 6 *)

Lemma Chapter6_fetch_failure
  (summary : Response SummaryStats) (scenarios : Response Scenarios)
  (s : Chapter6.State) :
  failed summary = true \/ failed scenarios = true ->
  exists e, Chapter6.onMount summary scenarios s = Chapter6.catchBlock e s.
Proof.
  intros H. unfold Chapter6.onMount, Chapter6.tryBlock.
  at_failed_fetch H.
Qed.

Lemma logs_last (msg : string) (e : Error) (console : list LogEntry) :
  logs msg (console ++ [{| message := msg; logged := e |}]).
Proof. exists e. apply in_or_app. right. left. reflexivity. Qed.

(** ** C4, as the code has it.  A load that fails at a fetch (the server
    not reached, or a body that is not JSON) is caught in the chapter's
    [onMount] and logged, in every chapter.  Chapters 1, 2 and 4 then hold
    the constants of their [catch] branch and Chapters 5 and 6 the constants
    their variables were declared with, and all five show their content.
    Chapter 3 has no fallback rows: its rows stay as they were, and with no
    rows it shows the message that the metro data could not be loaded. *)
Theorem load_failure_policy :
  (forall summary scenarios s,
      failed summary = true \/ failed scenarios = true ->
      Chapter1.PA_STATS (Chapter1.onMount summary scenarios s) = Chapter1.fallbackStats
      /\ Chapter1.view (Chapter1.onMount summary scenarios s) = Content
      /\ logs "Error loading PA data:"
              (Chapter1.console (Chapter1.onMount summary scenarios s)))
  /\ (forall Math_sqrt mapR emR metroR s,
         failed mapR = true \/ failed emR = true \/ failed metroR = true ->
         Chapter2.countyData (Chapter2.onMount Math_sqrt mapR emR metroR s)
         = Chapter2.fallbackCounties
         /\ Chapter2.view (Chapter2.onMount Math_sqrt mapR emR metroR s) = Content
         /\ logs "Error loading county data:"
                 (Chapter2.console (Chapter2.onMount Math_sqrt mapR emR metroR s)))
  /\ (forall available summary scenarios s,
         failed summary = true \/ failed scenarios = true ->
         Chapter4.PA_BASELINE (Chapter4.onMount available summary scenarios s)
         = Chapter4.fallbackBaseline
         /\ Chapter4.view (Chapter4.onMount available summary scenarios s) = Content
         /\ logs "Error loading PA data:"
                 (Chapter4.console (Chapter4.onMount available summary scenarios s)))
  /\ (forall summary scenarios,
         failed summary = true \/ failed scenarios = true ->
         Chapter5.paStats (Chapter5.onMount summary scenarios Chapter5.initial)
         = Chapter5.defaultStats
         /\ Chapter5.caseStudies (Chapter5.onMount summary scenarios Chapter5.initial)
            = Chapter5.declaredCaseStudies
         /\ Chapter5.view (Chapter5.onMount summary scenarios Chapter5.initial) = Content
         /\ logs "Error loading PA data:"
                 (Chapter5.console (Chapter5.onMount summary scenarios Chapter5.initial)))
  /\ (forall summary scenarios,
         failed summary = true \/ failed scenarios = true ->
         Chapter6.paAvgCO2PerPerson (Chapter6.onMount summary scenarios Chapter6.initial)
         = Fin 2.6
         /\ Chapter6.commuteMinutes (Chapter6.onMount summary scenarios Chapter6.initial)
            = Fin 30
         /\ Chapter6.view (Chapter6.onMount summary scenarios Chapter6.initial) = Content
         /\ logs "Error loading PA data:"
                 (Chapter6.console (Chapter6.onMount summary scenarios Chapter6.initial)))
  /\ (forall metroR s,
         failed metroR = true ->
         Chapter3.metroData (Chapter3.onMount metroR s) = Chapter3.metroData s
         /\ logs "Error loading metro data:"
                 (Chapter3.console (Chapter3.onMount metroR s))
         /\ Chapter3.view (Chapter3.onMount metroR s)
            = match Chapter3.metroData s with
              | [] => LoadFailure
              | _ :: _ => Content
              end)
  /\ (forall metroR,
         failed metroR = true ->
         Chapter3.view (Chapter3.onMount metroR Chapter3.initial) = LoadFailure).
Proof.
  assert (H3 : forall metroR s,
             failed metroR = true ->
             Chapter3.metroData (Chapter3.onMount metroR s) = Chapter3.metroData s
             /\ logs "Error loading metro data:"
                     (Chapter3.console (Chapter3.onMount metroR s))
             /\ Chapter3.view (Chapter3.onMount metroR s)
                = match Chapter3.metroData s with
                  | [] => LoadFailure
                  | _ :: _ => Content
                  end).
  { intros metroR s H.
    destruct (Chapter3_fetch_failure metroR s H) as [e ->].
    split; [reflexivity|]. split; [apply logs_last|].
    unfold Chapter3.view. simpl. destruct (Chapter3.metroData s); reflexivity. }
  repeat apply conj.
  - intros summary scenarios s H.
    destruct (Chapter1_onMount_fallback summary scenarios s) as [Hs [Hd [e He]]].
    { apply Chapter1_tryBlock_threw. tauto. }
    split; [exact Hs|]. split.
    + unfold Chapter1.view. rewrite Hd. reflexivity.
    + rewrite He. apply logs_last.
  - intros Math_sqrt mapR emR metroR s H.
    destruct (Chapter2_fetch_failure Math_sqrt mapR emR metroR s H) as [e ->].
    destruct (Chapter2_catchBlock Math_sqrt e s) as [Hc [Hv Hl]].
    split; [exact Hc|]. split; [exact Hv|]. rewrite Hl. apply logs_last.
  - intros available summary scenarios s H.
    destruct (Chapter4_fetch_failure available summary scenarios s H) as [e ->].
    destruct (Chapter4_catchBlock available e s) as [Hb [Hv Hl]].
    split; [exact Hb|]. split; [exact Hv|]. exists e. exact Hl.
  - intros summary scenarios H.
    destruct (Chapter5_fetch_failure summary scenarios Chapter5.initial H) as [e ->].
    repeat split. apply (logs_last _ e []).
  - intros summary scenarios H.
    destruct (Chapter6_fetch_failure summary scenarios Chapter6.initial H) as [e ->].
    repeat split. apply (logs_last _ e []).
  - exact H3.
  - intros metroR H. destruct (H3 metroR Chapter3.initial H) as [_ [_ Hv]].
    exact Hv.
Qed.

(** The server is unreachable: Chapter 1 shows its content on the fallback
    constants, Chapter 3 shows the failure message. *)
Lemma load_failure_example :
  Chapter1.view (Chapter1.onMount Unreachable Unreachable Chapter1.initial) = Content
  /\ Chapter3.view (Chapter3.onMount Unreachable Chapter3.initial) = LoadFailure.
Proof.
  destruct load_failure_policy as [H1 [_ [_ [_ [_ [_ H3]]]]]].
  split.
  - apply (H1 Unreachable Unreachable Chapter1.initial). left. reflexivity.
  - apply (H3 Unreachable). reflexivity.
Defined.

(** C4 as stated fails on Chapter 3: when its fetch fails, or the body is
    not JSON, no fallback rows are installed and the chapter shows the
    failure message instead of its content. *)
Lemma Chapter3_load_failure_shows_message :
  Chapter3.view (Chapter3.onMount Unreachable Chapter3.initial) = LoadFailure
  /\ Chapter3.view (Chapter3.onMount NotJson Chapter3.initial) = LoadFailure
  /\ Chapter3.metroData (Chapter3.onMount Unreachable Chapter3.initial) = []
  /\ ~ (forall metroR : Response (option (list Chapter3.MetroData)),
           failed metroR = true ->
           Chapter3.view (Chapter3.onMount metroR Chapter3.initial) = Content).
Proof.
  repeat split.
  intros H. specialize (H Unreachable eq_refl). discriminate H.
Qed.

(** *** The loads on concrete responses *)

(** Chapter 1 on the sample files: the average commute of 26.9 minutes
    seeds the slider with 27, and the tons per commuter are the ratio of
    the two loaded totals. *)
Example Chapter1_onMount_loaded :
  let s := Chapter1.onMount (Json sampleSummary) (Json sampleScenarios)
                            Chapter1.initial in
  Chapter1.totalCommuters (Chapter1.PA_STATS s) = Some (Fin 6179069)
  /\ isFin (Chapter1.userCommuteMinutes s) 27
  /\ isFin (Chapter1.avgCO2PerPerson (Chapter1.PA_STATS s)) (2166258 / 6179069)
  /\ isFin (Chapter1.carsEquivalent (Chapter1.PA_STATS s)) 470926
  /\ Chapter1.view s = Content
  /\ Chapter1.console s = [].
Proof. repeat split. Qed.

(** Scenarios without a [current] entry: the read through it throws and
    Chapter 1 falls back as on a failed fetch. *)
Example Chapter1_onMount_no_current :
  Chapter1.PA_STATS
    (Chapter1.onMount (Json sampleSummary) (Json {| current := None |})
                      Chapter1.initial)
  = Chapter1.fallbackStats.
Proof. reflexivity. Qed.

(** Chapter 3 on a file of two metros: the first is selected, and once
    the container is bound the chart is drawn. *)
Example Chapter3_onMount_loaded :
  let s := Chapter3.onMount (Json (Some twoMetros)) Chapter3.initial in
  Chapter3.view s = Content
  /\ Chapter3.selectedMetro s = hd_error twoMetros
  /\ Chapter3.chartContainer s
     = Some [Chapter3.chartScene twoMetros (hd_error twoMetros)].
Proof. repeat split. Qed.

(** Chapter 3 on a body that is [null] or an empty array: no error is
    thrown, and the failure message is shown all the same. *)
Example Chapter3_onMount_empty :
  Chapter3.view (Chapter3.onMount (Json None) Chapter3.initial) = LoadFailure
  /\ Chapter3.view (Chapter3.onMount (Json (Some [])) Chapter3.initial) = LoadFailure
  /\ Chapter3.console (Chapter3.onMount (Json None) Chapter3.initial) = [].
Proof. repeat split. Qed.

(** Chapter 6 on the sample files. *)
Example Chapter6_onMount_loaded :
  let s := Chapter6.onMount (Json sampleSummary) (Json sampleScenarios)
                            Chapter6.initial in
  isFin (Chapter6.commuteMinutes s) 26.9
  /\ isFin (Chapter6.paAvgCO2PerPerson s) (2166258 / 6179069)
  /\ Chapter6.view s = Content.
Proof. repeat split. Qed.

End LoadFacts.

(** ** Further properties of the page and the navigation bar *)

Module NavigationFacts.

Import NavigationStore Page Fixtures PageFacts.

Lemma step_chapterElements (ev : Event) (s : State) :
  chapterElements (step ev s) = chapterElements s.
Proof.
  destruct ev; simpl; try reflexivity.
  - unfold handleScroll. destruct (scrolling s); [reflexivity|].
    destruct (firstContaining _ _ _); reflexivity.
  - unfold scrollToChapter. destruct (elementAt _ _); reflexivity.
  - unfold goToChapter, handleNavigate, scrollToChapter; simpl.
    destruct (elementAt _ _); reflexivity.
  - unfold nextChapter, goToChapter, handleNavigate, scrollToChapter; simpl.
    destruct (_ <? _); [|reflexivity]. simpl. destruct (elementAt _ _); reflexivity.
  - unfold prevChapter, goToChapter, handleNavigate, scrollToChapter; simpl.
    destruct (_ <? _); [|reflexivity]. simpl. destruct (elementAt _ _); reflexivity.
  - destruct (pendingTimeouts s); reflexivity.
Qed.

(** The loop of [handleScroll] stops, if it stops, at an index of the
    list. *)
Lemma firstContaining_range (w : Window) :
  forall (els : list (option Element)) (i k : Z),
    firstContaining w els i = Some k ->
    i <= k < i + Z.of_nat (List.length els).
Proof.
  induction els as [|o rest IH]; intros i k H; simpl in H; [discriminate|].
  cbn [List.length].
  destruct o as [e|].
  - destruct (containsMidpoint w e).
    + injection H as <-. lia.
    + apply IH in H. lia.
  - apply IH in H. lia.
Qed.

Lemma scrollToChapter_currentChapter (index : Z) (s : State) :
  currentChapter (scrollToChapter index s) = currentChapter s.
Proof. unfold scrollToChapter. destruct (elementAt _ _); reflexivity. Qed.

Lemma goToChapter_currentChapter (chapterId : Z) (s : State) :
  currentChapter (goToChapter chapterId s) = chapterId.
Proof.
  unfold goToChapter, handleNavigate. rewrite scrollToChapter_currentChapter.
  reflexivity.
Qed.

Lemma step_within_sections (ev : Event) (s : State) :
  (List.length (chapterElements s) <= 6)%nat ->
  withinSections ev = true ->
  1 <= currentChapter s <= 6 ->
  1 <= currentChapter (step ev s) <= 6.
Proof.
  intros Hlen Hev Hc. destruct ev; simpl.
  - unfold handleScroll. destruct (scrolling s); [exact Hc|].
    destruct (firstContaining w (chapterElements s) 0) as [k|] eqn:Hk;
      [|exact Hc].
    apply firstContaining_range in Hk. simpl. lia.
  - rewrite scrollToChapter_currentChapter. exact Hc.
  - rewrite goToChapter_currentChapter. simpl in Hev.
    apply andb_true_iff in Hev as [Hlo Hhi]. lia.
  - unfold nextChapter. destruct (currentChapter s <? 6) eqn:Hlt; [|exact Hc].
    rewrite goToChapter_currentChapter. apply Z.ltb_lt in Hlt. lia.
  - unfold prevChapter. destruct (1 <? currentChapter s) eqn:Hlt; [|exact Hc].
    rewrite goToChapter_currentChapter. apply Z.ltb_lt in Hlt. lia.
  - exact Hc.
  - destruct (pendingTimeouts s); exact Hc.
Qed.

(** If the viewport midpoint lies in no bound section (above the first
    chapter, in the hero, or below the last), a scroll event changes
    nothing: the chapter index keeps its last value. *)
Theorem handleScroll_outside_sections (s : State) (w : Window) :
  (forall m e, nth_error (chapterElements s) m = Some (Some e) ->
               ~ inSection (scrollPosition w) e) ->
  handleScroll w s = s.
Proof.
  intros Hout. unfold handleScroll. destruct (scrolling s); [reflexivity|].
  rewrite firstContaining_none; [reflexivity|].
  intros m e Hm. destruct (containsMidpoint w e) eqn:Hc; [|reflexivity].
  apply containsMidpoint_inSection in Hc. destruct (Hout m e Hm Hc).
Qed.

Lemma handleScroll_outside_example :
  handleScroll {| scrollY := 2900; innerHeight := 800 |}
               (set_currentChapter 3 threeSections)
  = set_currentChapter 3 threeSections.
Proof.
  apply handleScroll_outside_sections.
  intros m e Hm [Hlo Hhi].
  destruct m as [|[|[|[|[|[|m]]]]]]; simpl in Hm; try discriminate;
    try (injection Hm as <-; apply (Qlt_not_le _ _ Hhi); discriminate).
  destruct m; discriminate.
Defined.

(** On a page of at most six sections, whatever scroll events, button
    clicks and timeouts arrive, and whichever of the menu entries 1 to 6
    are picked, the chapter index stays between 1 and 6. *)
Theorem currentChapter_stays_within_sections (evs : list Event) :
  forall s : State,
    (List.length (chapterElements s) <= 6)%nat ->
    forallb withinSections evs = true ->
    1 <= currentChapter s <= 6 ->
    1 <= currentChapter (run evs s) <= 6.
Proof.
  induction evs as [|ev evs IH]; intros s Hlen Hevs Hc; [exact Hc|].
  simpl in Hevs. apply andb_true_iff in Hevs as [Hev Hevs].
  unfold run; simpl. apply IH.
  - rewrite step_chapterElements. exact Hlen.
  - exact Hevs.
  - apply step_within_sections; assumption.
Qed.

Lemma currentChapter_within_example :
  1 <= currentChapter
         (run [NextButton; MenuItem 6; NextButton;
               Scroll midpoint1500; PrevButton; TimeoutFires] sixSections) <= 6.
Proof.
  apply currentChapter_stays_within_sections; try reflexivity.
  split; discriminate.
Defined.

Lemma step_timeoutPending (ev : Event) (s : State) :
  timeoutPending s -> timeoutPending (step ev s).
Proof.
  unfold timeoutPending. intros Inv.
  assert (Hnav : forall index s0,
             (scrolling s0 = true -> pendingTimeouts s0 <> []) ->
             scrolling (scrollToChapter index s0) = true ->
             pendingTimeouts (scrollToChapter index s0) <> []).
  { intros index s0 Inv0. unfold scrollToChapter.
    destruct (elementAt _ _); simpl; [|exact Inv0].
    intros _ Hnil. apply app_eq_nil in Hnil as [_ Hnil]. discriminate. }
  destruct ev; simpl.
  - unfold handleScroll. destruct (scrolling s) eqn:Hs; [rewrite Hs; exact Inv|].
    destruct (firstContaining _ _ _); simpl; rewrite Hs; discriminate.
  - apply Hnav. exact Inv.
  - unfold goToChapter, handleNavigate. apply Hnav. exact Inv.
  - unfold nextChapter. destruct (_ <? _); [|exact Inv].
    unfold goToChapter, handleNavigate. apply Hnav. exact Inv.
  - unfold prevChapter. destruct (_ <? _); [|exact Inv].
    unfold goToChapter, handleNavigate. apply Hnav. exact Inv.
  - exact Inv.
  - destruct (pendingTimeouts s) eqn:Hp; [|discriminate].
    intros H. exfalso. apply (Inv H). reflexivity.
Qed.

Lemma timeouts_drain (n : nat) :
  forall s : State,
    timeoutPending s ->
    List.length (pendingTimeouts s) = n ->
    scrolling (run (repeat TimeoutFires n) s) = false
    /\ pendingTimeouts (run (repeat TimeoutFires n) s) = [].
Proof.
  induction n as [|n IH]; intros s Inv Hlen.
  - destruct (pendingTimeouts s) eqn:Hp; [|discriminate]. simpl.
    split; [|exact Hp].
    destruct (scrolling s) eqn:Hs; [|reflexivity].
    destruct (Inv Hs Hp).
  - destruct (pendingTimeouts s) as [|t rest] eqn:Hp; [discriminate|].
    unfold run; simpl. rewrite Hp.
    apply (IH (timeoutCallback s)).
    + intros H. discriminate H.
    + simpl. rewrite Hp. simpl in Hlen. simpl. lia.
Qed.

(** The programmatic-scroll state always ends: from a state in which a
    set flag has its timeout pending (the mounted page is one), after any
    events, once the timeouts that are then pending have all run, the flag
    [scrolling] is clear and scroll detection is live again. *)
Theorem programmatic_scroll_always_ends (evs : list Event) (s : State) :
  timeoutPending s ->
  timeoutPending (run evs s)
  /\ scrolling
       (run (repeat TimeoutFires (List.length (pendingTimeouts (run evs s))))
            (run evs s)) = false.
Proof.
  intros Inv.
  assert (Hrun : timeoutPending (run evs s)).
  { revert s Inv. induction evs as [|ev evs IH]; intros s Inv; [exact Inv|].
    unfold run; simpl. apply IH. apply step_timeoutPending. exact Inv. }
  split; [exact Hrun|].
  apply (timeouts_drain _ (run evs s) Hrun eq_refl).
Qed.

Lemma programmatic_scroll_ends_example :
  scrolling
    (run [TimeoutFires; TimeoutFires]
         (run [MenuItem 3; Scroll midpoint1500; HeroButton] sixSections))
  = false.
Proof.
  apply (programmatic_scroll_always_ends
           [MenuItem 3; Scroll midpoint1500; HeroButton] sixSections).
  intros H. discriminate H.
Defined.

(** A menu entry beyond the sixth chapter moves the shared index, and
    with it the highlight, to a chapter that has no section: nothing is
    scrolled, the flag stays as it was, and the progress bar is wider than
    100 percent. *)
Theorem menu_entry_without_section (s : State) (c : ChapterInfo) :
  List.length (chapterElements s) = 6%nat ->
  In c chapters ->
  6 < id c ->
  goToChapter (id c) s = set_showMenu false (set_currentChapter (id c) s)
  /\ currentChapter (goToChapter (id c) s) = id c
  /\ gt (progressWidth (goToChapter (id c) s)) (Fin 100) = true.
Proof.
  intros Hlen Hc Hid.
  assert (Hgo : goToChapter (id c) s
                = set_showMenu false (set_currentChapter (id c) s)).
  { unfold goToChapter, handleNavigate. apply scrollToChapter_unbound.
    apply elementAt_out_of_range. simpl. lia. }
  rewrite Hgo. split; [reflexivity|]. split; [reflexivity|].
  assert (Hids : In (id c) (map id chapters)) by (apply in_map; exact Hc).
  simpl in Hids.
  unfold progressWidth; simpl.
  destruct Hids as [H|[H|[H|[H|[H|[H|[H|[H|[H|[H|[]]]]]]]]]]];
    rewrite <- H in *; try lia; reflexivity.
Qed.

Lemma menu_entry_without_section_example :
  currentChapter (goToChapter 8 sixSections) = 8
  /\ scrollIntoViewCalls (goToChapter 8 sixSections) = [].
Proof.
  destruct (menu_entry_without_section sixSections
              {| id := 8; title := "Remote Work Revolution";
                 subtitle := "A New Way Forward" |})
    as [Hgo [Hc _]].
  - reflexivity.
  - simpl. tauto.
  - reflexivity.
  - cbn [id] in Hgo, Hc. split; [exact Hc | rewrite Hgo; reflexivity].
Defined.

(** Within the chapters 1 to 6 the Previous and Next buttons are disabled
    exactly where their handlers do nothing, and each undoes the step of the
    other on the chapter index. *)
Theorem prev_next_buttons (s : State) :
  1 <= currentChapter s <= 6 ->
  (nextDisabled s = true <-> currentChapter (nextChapter s) = currentChapter s)
  /\ (prevDisabled s = true <-> currentChapter (prevChapter s) = currentChapter s)
  /\ (nextDisabled s = false ->
      currentChapter (prevChapter (nextChapter s)) = currentChapter s)
  /\ (prevDisabled s = false ->
      currentChapter (nextChapter (prevChapter s)) = currentChapter s).
Proof.
  intros Hc. unfold nextDisabled, prevDisabled.
  assert (Hn : forall s0, currentChapter (nextChapter s0)
               = if currentChapter s0 <? 6 then currentChapter s0 + 1
                 else currentChapter s0).
  { intros s0. unfold nextChapter. cbv zeta. destruct (currentChapter s0 <? 6);
      [apply goToChapter_currentChapter | reflexivity]. }
  assert (Hp : forall s0, currentChapter (prevChapter s0)
               = if 1 <? currentChapter s0 then currentChapter s0 - 1
                 else currentChapter s0).
  { intros s0. unfold prevChapter. cbv zeta. destruct (1 <? currentChapter s0);
      [apply goToChapter_currentChapter | reflexivity]. }
  repeat (rewrite Hp || rewrite Hn).
  rewrite Z.eqb_eq, Z.eqb_eq, <- !not_true_iff_false, !Z.eqb_eq.
  destruct (Z.ltb_spec (currentChapter s) 6);
    destruct (Z.ltb_spec 1 (currentChapter s));
    repeat match goal with
           | |- context [?a <? ?b] => destruct (Z.ltb_spec a b)
           end;
    repeat split; intros; lia.
Qed.

Lemma prev_next_buttons_example :
  currentChapter (prevChapter (nextChapter sixSections))
  = currentChapter sixSections.
Proof.
  destruct (prev_next_buttons sixSections) as [_ [_ [H _]]].
  - split; discriminate.
  - apply H. reflexivity.
Defined.

End NavigationFacts.

(** ** Minima, maxima and sums of finite numbers *)

Module NumFacts.

Local Open Scope Q_scope.

Lemma lt_Fin (a b : Q) : lt (Fin a) (Fin b) = true <-> a < b.
Proof.
  unfold lt. rewrite negb_true_iff. split.
  - intros H. apply Qnot_le_lt. intros Hle.
    apply Qle_bool_iff in Hle. congruence.
  - intros H. destruct (Qle_bool b a) eqn:Hle; [|reflexivity].
    apply Qle_bool_iff in Hle. lra.
Qed.

Lemma lt_Fin_false (a b : Q) : lt (Fin a) (Fin b) = false <-> b <= a.
Proof.
  unfold lt. rewrite negb_false_iff. apply Qle_bool_iff.
Qed.

(** The running maximum over finite numbers is finite, bounds its start
    and every number seen, and is one of them. *)
Lemma fold_max2_finite (xs : list num) :
  Forall (fun x => isFinite x = true) xs ->
  forall a : Q, exists m : Q,
    fold_left max2 xs (Fin a) = Fin m
    /\ a <= m
    /\ (forall q, In (Fin q) xs -> q <= m)
    /\ (Fin m = Fin a \/ In (Fin m) xs).
Proof.
  induction 1 as [|x xs Hx _ IH]; intros a.
  - exists a. repeat split; [lra | intros q [] | left; reflexivity].
  - destruct x as [b| | |]; try discriminate. cbn [fold_left].
    replace (max2 (Fin a) (Fin b))
      with (if lt (Fin a) (Fin b) then Fin b else Fin a) by reflexivity.
    destruct (lt (Fin a) (Fin b)) eqn:Hlt.
    + apply lt_Fin in Hlt.
      destruct (IH b) as [m [Hm [Hb [Hall Hin]]]].
      exists m. split; [exact Hm|]. split; [lra|]. split.
      * intros q [Hq|Hq]; [injection Hq as <-; exact Hb | apply Hall; exact Hq].
      * right. destruct Hin as [Hin|Hin]; [left; symmetry; exact Hin | right; exact Hin].
    + apply lt_Fin_false in Hlt.
      destruct (IH a) as [m [Hm [Ha [Hall Hin]]]].
      exists m. split; [exact Hm|]. split; [exact Ha|]. split.
      * intros q [Hq|Hq]; [injection Hq as <-; lra | apply Hall; exact Hq].
      * destruct Hin as [Hin|Hin]; [left; exact Hin | right; right; exact Hin].
Qed.

Lemma fold_min2_finite (xs : list num) :
  Forall (fun x => isFinite x = true) xs ->
  forall a : Q, exists m : Q,
    fold_left min2 xs (Fin a) = Fin m
    /\ m <= a
    /\ (forall q, In (Fin q) xs -> m <= q)
    /\ (Fin m = Fin a \/ In (Fin m) xs).
Proof.
  induction 1 as [|x xs Hx _ IH]; intros a.
  - exists a. repeat split; [lra | intros q [] | left; reflexivity].
  - destruct x as [b| | |]; try discriminate. cbn [fold_left].
    replace (min2 (Fin a) (Fin b))
      with (if lt (Fin b) (Fin a) then Fin b else Fin a) by reflexivity.
    destruct (lt (Fin b) (Fin a)) eqn:Hlt.
    + apply lt_Fin in Hlt.
      destruct (IH b) as [m [Hm [Hb [Hall Hin]]]].
      exists m. split; [exact Hm|]. split; [lra|]. split.
      * intros q [Hq|Hq]; [injection Hq as <-; exact Hb | apply Hall; exact Hq].
      * right. destruct Hin as [Hin|Hin]; [left; symmetry; exact Hin | right; exact Hin].
    + apply lt_Fin_false in Hlt.
      destruct (IH a) as [m [Hm [Ha [Hall Hin]]]].
      exists m. split; [exact Hm|]. split; [exact Ha|]. split.
      * intros q [Hq|Hq]; [injection Hq as <-; lra | apply Hall; exact Hq].
      * destruct Hin as [Hin|Hin]; [left; exact Hin | right; right; exact Hin].
Qed.

(** [Math.max] of finite numbers, at least one, is the largest of them. *)
Lemma maxOf_finite (xs : list num) :
  xs <> [] ->
  Forall (fun x => isFinite x = true) xs ->
  exists m : Q,
    maxOf xs = Fin m /\ In (Fin m) xs /\ forall q, In (Fin q) xs -> q <= m.
Proof.
  intros Hne Hfin. destruct xs as [|x xs]; [contradiction|].
  inversion Hfin as [|x' xs' Hx Hxs]; subst.
  destruct x as [a| | |]; try discriminate.
  unfold maxOf. simpl.
  destruct (fold_max2_finite xs Hxs a) as [m [Hm [Ha [Hall Hin]]]].
  exists m. split; [exact Hm|]. split.
  - destruct Hin as [Hin|Hin]; [left; symmetry; exact Hin | right; exact Hin].
  - intros q [Hq|Hq]; [injection Hq as <-; exact Ha | apply Hall; exact Hq].
Qed.

(** [Math.min] of finite numbers, at least one, is the smallest of them. *)
Lemma minOf_finite (xs : list num) :
  xs <> [] ->
  Forall (fun x => isFinite x = true) xs ->
  exists m : Q,
    minOf xs = Fin m /\ In (Fin m) xs /\ forall q, In (Fin q) xs -> m <= q.
Proof.
  intros Hne Hfin. destruct xs as [|x xs]; [contradiction|].
  inversion Hfin as [|x' xs' Hx Hxs]; subst.
  destruct x as [a| | |]; try discriminate.
  unfold minOf. simpl.
  destruct (fold_min2_finite xs Hxs a) as [m [Hm [Ha [Hall Hin]]]].
  exists m. split; [exact Hm|]. split.
  - destruct Hin as [Hin|Hin]; [left; symmetry; exact Hin | right; exact Hin].
  - intros q [Hq|Hq]; [injection Hq as <-; exact Ha | apply Hall; exact Hq].
Qed.

(** The floor of this development is the one of the library. *)
Lemma Qfloor_Qround (q : Q) : JsNum.Qfloor q = Qround.Qfloor q.
Proof. destruct q. reflexivity. Qed.

(** [toFixed] gives equal strings on equal rationals. *)
Lemma toFixed_Qeq (d : nat) (p q : Q) :
  p == q -> toFixed d (Fin p) = toFixed d (Fin q).
Proof.
  intros H. unfold toFixed.
  rewrite (Qleb_comp 0 0 (Qeq_refl 0) p q H).
  assert (Hf : forall a b, a == b -> fixedDigits d a = fixedDigits d b).
  { intros a b Hab. unfold fixedDigits.
    rewrite !Qfloor_Qround.
    rewrite (Qfloor_comp (a * inject_Z (10 ^ Z.of_nat d) + (1 # 2))
                         (b * inject_Z (10 ^ Z.of_nat d) + (1 # 2)));
      [reflexivity | rewrite Hab; reflexivity]. }
  destruct (Qle_bool 0 q); [apply Hf; exact H|].
  rewrite (Hf (- p) (- q)); [reflexivity | rewrite H; reflexivity].
Qed.

End NumFacts.

(** ** Further properties of Chapter 2: the sort, the load, the summary *)

Module CountyFacts.

Import Fetch Template Svg Fixtures NumFacts.
Import Chapter2.
Local Open Scope Q_scope.

Lemma le_Fin (a b : Q) : le (Fin a) (Fin b) = true <-> a <= b.
Proof.
  unfold le, eqb. rewrite orb_true_iff, lt_Fin, Qeq_bool_iff. split.
  - intros [H|H]; lra.
  - intros H. destruct (Qlt_le_dec a b) as [Hlt|Hge]; [left; exact Hlt|].
    right. lra.
Qed.

Lemma insertByEmissions_perm (c : CountyData) (l : list CountyData) :
  Permutation (c :: l) (insertByEmissions c l).
Proof.
  induction l as [|d rest IH]; cbn [insertByEmissions];
    [apply Permutation_refl|].
  destruct (gt _ _); [|apply Permutation_refl].
  apply perm_trans with (d :: c :: rest); [apply perm_swap|].
  apply perm_skip. exact IH.
Qed.

Lemma sortByEmissions_perm (l : list CountyData) :
  Permutation l (sortByEmissions l).
Proof.
  induction l as [|c rest IH]; simpl; [apply perm_nil|].
  apply perm_trans with (c :: sortByEmissions rest);
    [apply perm_skip; exact IH | apply insertByEmissions_perm].
Qed.

Lemma insertByEmissions_sorted (c : CountyData) (l : list CountyData) :
  isFinite (co2_tons c) = true ->
  finiteEmissions l ->
  StronglySorted emitsAtLeast l ->
  StronglySorted emitsAtLeast (insertByEmissions c l).
Proof.
  intros Hc Hfin Hsorted.
  destruct (co2_tons c) as [qc| | |] eqn:Ec; try discriminate.
  induction l as [|d rest IH]; simpl.
  - constructor; constructor.
  - inversion Hfin as [|d' rest' Hd Hrest]; subst.
    inversion Hsorted as [|d' rest' Hsrest Hdrest]; subst.
    destruct (co2_tons d) as [qd| | |] eqn:Ed; try discriminate.
    rewrite Ec. simpl.
    destruct (Qle_bool (qd + - qc) 0) eqn:Hcmp; simpl.
    + (* [c] is not smaller: it stays in front of [d] and of what [d]
         dominates *)
      apply Qle_bool_iff in Hcmp.
      constructor; [exact Hsorted|].
      constructor.
      * unfold emitsAtLeast. rewrite Ec, Ed. apply le_Fin. lra.
      * apply Forall_forall. intros x Hx.
        pose proof (proj1 (Forall_forall _ _) Hdrest x Hx) as Hdx.
        pose proof (proj1 (Forall_forall _ _) Hrest x Hx) as Hfx.
        unfold emitsAtLeast in *. rewrite Ec. rewrite Ed in Hdx.
        destruct (co2_tons x) as [qx| | |]; try discriminate.
        apply le_Fin in Hdx. apply le_Fin. lra.
    + (* [d] is larger: it moves in front *)
      assert (Hlt : qc < qd).
      { apply Qnot_le_lt. intros Hle.
        assert (Hb : Qle_bool (qd + - qc) 0 = true) by (apply Qle_bool_iff; lra).
        congruence. }
      constructor; [apply IH; assumption|].
      apply (Permutation_Forall (insertByEmissions_perm c rest)).
      constructor; [|exact Hdrest].
      unfold emitsAtLeast. rewrite Ec, Ed. apply le_Fin. lra.
Qed.

Lemma sortByEmissions_sorted (l : list CountyData) :
  finiteEmissions l -> StronglySorted emitsAtLeast (sortByEmissions l).
Proof.
  induction 1 as [|c rest Hc Hrest IH]; simpl; [constructor|].
  apply insertByEmissions_sorted; [exact Hc | | exact IH].
  apply (Permutation_Forall (sortByEmissions_perm rest)). exact Hrest.
Qed.

(** In a sorted list every record of a prefix dominates every record
    after it. *)
Lemma sorted_prefix_dominates (k : nat) :
  forall l : list CountyData,
    StronglySorted emitsAtLeast l ->
    forall c d, In c (firstn k l) -> In d (skipn k l) -> emitsAtLeast c d.
Proof.
  induction k as [|k IH]; intros l Hsorted c d Hc Hd; [destruct Hc|].
  destruct l as [|x rest]; [destruct Hc|].
  inversion Hsorted as [|x' rest' Hsrest Hxrest]; subst.
  simpl in Hc, Hd. destruct Hc as [<-|Hc].
  - apply (proj1 (Forall_forall _ _) Hxrest).
    rewrite <- (firstn_skipn k rest). apply in_or_app. right. exact Hd.
  - apply (IH rest Hsrest c d Hc Hd).
Qed.

(** [countyData.sort((a, b) => b.co2_tons - a.co2_tons)] keeps exactly
    the records it is given and, when their emissions are finite, leaves
    them in descending order of emissions. *)
Theorem sortByEmissions_sorts (l : list CountyData) :
  Permutation l (sortByEmissions l)
  /\ List.length (sortByEmissions l) = List.length l
  /\ (finiteEmissions l -> StronglySorted emitsAtLeast (sortByEmissions l)).
Proof.
  split; [apply sortByEmissions_perm|]. split.
  - symmetry. apply Permutation_length. apply sortByEmissions_perm.
  - apply sortByEmissions_sorted.
Qed.

Lemma sortByEmissions_example :
  StronglySorted emitsAtLeast (sortByEmissions (rev defaultCounties)).
Proof.
  apply (sortByEmissions_sorts (rev defaultCounties)).
  repeat constructor.
Defined.

Lemma chooseCounties_not_empty (mapData : list MapItem)
  (emissionsData : list EmissionsItem) (metroData : list MetroItem) :
  chooseCounties mapData emissionsData metroData <> [].
Proof.
  unfold chooseCounties.
  destruct mapData; simpl; [|discriminate].
  destruct emissionsData; simpl; [|discriminate].
  destruct metroData; simpl; discriminate.
Qed.

Lemma sortByEmissions_not_empty (l : list CountyData) :
  l <> [] -> sortByEmissions l <> [].
Proof.
  intros Hne Hnil.
  pose proof (Permutation_length (sortByEmissions_perm l)) as Hlen.
  rewrite Hnil in Hlen. destruct l; [contradiction | discriminate].
Qed.

(** What [onMount] comes to: some rows, at least one, are installed in a
    state that differs from the given one in its console at most, and
    [renderMap] is called. *)
Lemma onMount_installs_rows (Math_sqrt : num -> num)
  (mapR : Response (list MapItem)) (emR : Response (list EmissionsItem))
  (metroR : Response (list MetroItem)) (s : State) :
  exists rows s0,
    rows <> []
    /\ mapContainer s0 = mapContainer s
    /\ viewMode s0 = viewMode s
    /\ onMount Math_sqrt mapR emR metroR s
       = renderMap Math_sqrt (set_dataLoaded true (set_countyData rows s0)).
Proof.
  unfold onMount, tryCatch, tryBlock, catchBlock.
  destruct mapR as [| |mapData]; simpl;
    try (eexists fallbackCounties, _;
         (split; [discriminate | split; [| split; [| reflexivity]]]);
         reflexivity).
  destruct emR as [| |emData]; simpl;
    try (eexists fallbackCounties, _;
         (split; [discriminate | split; [| split; [| reflexivity]]]);
         reflexivity).
  destruct metroR as [| |metroData]; simpl;
    try (eexists fallbackCounties, _;
         (split; [discriminate | split; [| split; [| reflexivity]]]);
         reflexivity).
  exists (sortByEmissions (chooseCounties mapData emData metroData)), s.
  repeat split.
  apply sortByEmissions_not_empty, chooseCounties_not_empty.
Qed.

(** Whatever the three requests of Chapter 2 come to, after [onMount] the
    chapter shows its content and holds at least one county, so that the
    summaries of the template always have a record to read. *)
Theorem Chapter2_onMount_never_empty (Math_sqrt : num -> num)
  (mapR : Response (list MapItem)) (emR : Response (list EmissionsItem))
  (metroR : Response (list MetroItem)) (s : State) :
  countyData (onMount Math_sqrt mapR emR metroR s) <> []
  /\ view (onMount Math_sqrt mapR emR metroR s) = Content.
Proof.
  destruct (onMount_installs_rows Math_sqrt mapR emR metroR s)
    as [rows [s0 [Hne [_ [_ ->]]]]].
  unfold view.
  destruct (LoadFacts.Chapter2_renderMap_keeps Math_sqrt
              (set_dataLoaded true (set_countyData rows s0))) as [-> [-> _]].
  split; [exact Hne | reflexivity].
Qed.

(** [onMount] calls [renderMap] before the container exists: the
    container sits in the branch of the template that is shown only once
    [dataLoaded] is set, so the call is skipped and the chart area stays
    empty when Svelte binds it; the first click on the view toggle draws the
    chart, in the other view mode. *)
Theorem Chapter2_chart_not_drawn_on_mount (Math_sqrt : num -> num)
  (mapR : Response (list MapItem)) (emR : Response (list EmissionsItem))
  (metroR : Response (list MetroItem)) (s : State) :
  mapContainer s = None ->
  let loaded := onMount Math_sqrt mapR emR metroR s in
  mapContainer loaded = None
  /\ mapContainer (bindContainer loaded) = Some []
  /\ mapContainer (toggleView Math_sqrt (bindContainer loaded))
     = Some [mapScene Math_sqrt (countyData loaded)
                      match viewMode s with
                      | total => per_capita
                      | per_capita => total
                      end].
Proof.
  intros Hc loaded. subst loaded.
  destruct (onMount_installs_rows Math_sqrt mapR emR metroR s)
    as [rows [s0 [Hne [Hc0 [Hv0 ->]]]]].
  rewrite Hc in Hc0.
  assert (Hskip : renderMap Math_sqrt (set_dataLoaded true (set_countyData rows s0))
                  = set_dataLoaded true (set_countyData rows s0)).
  { unfold renderMap. simpl. rewrite Hc0. reflexivity. }
  rewrite Hskip. simpl. rewrite Hc0.
  split; [reflexivity|].
  unfold bindContainer, view. simpl. rewrite Hc0. simpl.
  split; [reflexivity|].
  unfold toggleView, renderMap. simpl.
  destruct rows; [contradiction|]. simpl. rewrite Hv0. reflexivity.
Qed.

Lemma Chapter2_chart_not_drawn_example :
  mapContainer (onMount (fun x => x) Unreachable Unreachable Unreachable initial)
  = None.
Proof.
  apply (Chapter2_chart_not_drawn_on_mount
           (fun x => x) Unreachable Unreachable Unreachable initial).
  reflexivity.
Defined.

(** After a load that succeeds on rows of finite emissions, the counties
    are those the files gave, largest emitters first: every record of the
    top ten emits at least as much as every record left out of it. *)
Theorem Chapter2_onMount_top10_are_largest (Math_sqrt : num -> num)
  (mapData : list MapItem) (emissionsData : list EmissionsItem)
  (metroData : list MetroItem) (s : State) :
  finiteEmissions (chooseCounties mapData emissionsData metroData) ->
  let loaded := onMount Math_sqrt (Json mapData) (Json emissionsData)
                        (Json metroData) s in
  Permutation (chooseCounties mapData emissionsData metroData) (countyData loaded)
  /\ StronglySorted emitsAtLeast (countyData loaded)
  /\ forall c d, In c (top10Records loaded) -> In d (beyondTop10 loaded) ->
                 emitsAtLeast c d.
Proof.
  intros Hfin loaded.
  assert (Hrows : countyData loaded
                  = sortByEmissions (chooseCounties mapData emissionsData metroData)).
  { subst loaded. unfold onMount, tryCatch, tryBlock. simpl.
    destruct (LoadFacts.Chapter2_renderMap_keeps Math_sqrt
                (set_dataLoaded true
                   (set_countyData
                      (sortByEmissions
                         (chooseCounties mapData emissionsData metroData)) s)))
      as [-> _].
    reflexivity. }
  assert (Hsorted : StronglySorted emitsAtLeast (countyData loaded)).
  { rewrite Hrows. apply sortByEmissions_sorted. exact Hfin. }
  split; [rewrite Hrows; apply sortByEmissions_perm|].
  split; [exact Hsorted|].
  intros c d Hc Hd. unfold top10Records in Hc. unfold beyondTop10 in Hd.
  apply (sorted_prefix_dominates _ _ Hsorted c d Hc Hd).
Qed.

(** An emissions file of twelve counties in no order: the rows come out
    sorted, the two smallest emitters beyond the top ten. *)
Lemma Chapter2_onMount_top10_example :
  StronglySorted emitsAtLeast
    (countyData
       (onMount (fun x => x) (Json []) (Json twelveEmissionsRows) (Json []) initial)).
Proof.
  apply (Chapter2_onMount_top10_are_largest
           (fun x => x) [] twelveEmissionsRows [] initial).
  vm_compute. repeat constructor.
Defined.

(** A sum of non-negative finite emissions is finite and not below its
    start. *)
Lemma sum_nonneg (rows : list CountyData) :
  nonNegEmissions rows ->
  forall a : Q, exists b : Q,
    fold_left (fun sum c => add sum (co2_tons c)) rows (Fin a) = Fin b /\ a <= b.
Proof.
  induction 1 as [|c rows Hc _ IH]; intros a; simpl.
  - exists a. split; [reflexivity | lra].
  - destruct (co2_tons c) as [q| | |]; try contradiction. simpl in Hc.
    destruct (IH (a + q)) as [b [Hb Hab]].
    exists b. split; [exact Hb | lra].
Qed.

Lemma moderateEmissions_nonNeg (rows : list CountyData) :
  moderateEmissions rows -> nonNegEmissions rows.
Proof.
  apply Forall_impl. intros c Hc.
  destruct (co2_tons c) as [q| | |]; try contradiction.
  exact (proj1 Hc).
Qed.

Lemma moderateEmissions_finite (rows : list CountyData) :
  moderateEmissions rows -> finiteEmissions rows.
Proof.
  apply Forall_impl. intros c Hc.
  destruct (co2_tons c) as [q| | |]; try contradiction. reflexivity.
Qed.

(** On exact numbers: when no county has negative or non-finite
    emissions, the headline percentage is the numeral of a number between 0
    and 100. *)
Lemma top10Percentage_ratio (s : State) :
  nonNegEmissions (countyData s) ->
  exists q : Q, 0 <= q <= 100 /\ top10Percentage s = toFixed 0 (Fin q).
Proof.
  intros Hnn.
  assert (Hsplit : countyData s = (top10Records s ++ beyondTop10 s)%list).
  { unfold top10Records, beyondTop10. symmetry. apply firstn_skipn. }
  assert (Htop : nonNegEmissions (top10Records s)
                 /\ nonNegEmissions (beyondTop10 s)).
  { unfold nonNegEmissions in *. rewrite Hsplit in Hnn.
    apply Forall_app in Hnn. exact Hnn. }
  destruct Htop as [Htop Hrest].
  unfold top10Percentage, totalEmissions, top10Emissions.
  destruct (0 <? List.length (countyData s))%nat;
    [|exists 0; split; [lra | reflexivity]].
  destruct (sum_nonneg _ Htop 0) as [t [Ht H0t]].
  destruct (sum_nonneg _ Hrest t) as [b [Hb Htb]].
  assert (Htotal : fold_left (fun sum c => add sum (co2_tons c)) (countyData s) (Fin 0)
                   = Fin b).
  { rewrite Hsplit, fold_left_app, Ht. exact Hb. }
  rewrite Htotal, Ht.
  destruct (gt (Fin b) (Fin 0)) eqn:Hpos;
    [|exists 0; split; [lra | reflexivity]].
  unfold gt in Hpos. apply lt_Fin in Hpos.
  assert (Hnz : Qeq_bool b 0 = false).
  { destruct (Qeq_bool b 0) eqn:Hz; [|reflexivity].
    apply Qeq_bool_iff in Hz. lra. }
  exists (t / b * 100). split.
  - assert (Hr0 : 0 <= t / b) by (apply Qle_shift_div_l; lra).
    assert (Hr1 : t / b <= 1) by (apply Qle_shift_div_r; lra).
    lra.
  - unfold div. rewrite Hnz. reflexivity.
Qed.

(** ** C10, as the code has it.  When every county's emissions are
    finite, not negative and at most [MAX_SAFE_INTEGER], [top10Percentage]
    is the numeral of a whole number, [toFixed(0)] of a number between 0
    and 100; on empty data, on a total of zero and on a total that is not
    a number it is ["0"]; and the top-10 sum runs over the first
    [min(10, countyData.length)] records, a prefix of the list.  (The
    bound keeps the sums of doubles finite, and with no negative row the
    ratio cannot leave the range in which [toFixed] prints plain
    digits.) *)
Theorem top10Percentage_numeral (s : State) :
  (moderateEmissions (countyData s) ->
   isNumeral (top10Percentage s) = true
   /\ exists q : Q, 0 <= q <= 100 /\ top10Percentage s = toFixed 0 (Fin q))
  /\ (countyData s = []
      \/ eqb (totalEmissions s) (Fin 0) = true
      \/ isNaN (totalEmissions s) = true ->
      top10Percentage s = "0"%string)
  /\ List.length (top10Records s) = Nat.min 10 (List.length (countyData s))
  /\ (List.length (top10Records s) <= List.length (countyData s))%nat
  /\ exists rest, countyData s = (top10Records s ++ rest)%list.
Proof.
  split; [|split; [apply ChartFacts.top10Percentage_guard|]].
  - intros Hmod.
    destruct (top10Percentage_ratio s (moderateEmissions_nonNeg _ Hmod))
      as [q [Hq Hs]].
    split; [|exists q; split; [exact Hq | exact Hs]].
    rewrite Hs. apply ChartFacts.toFixed0_isNumeral.
  - unfold top10Records.
    rewrite length_firstn.
    split; [lia|]. split; [lia|].
    exists (skipn (Nat.min 10 (List.length (countyData s))) (countyData s)).
    symmetry. apply firstn_skipn.
Qed.

(** The three fallback counties account for a whole percentage of
    themselves, and no county for ["0"]. *)
Lemma top10Percentage_fallback_example :
  isNumeral (top10Percentage (chapter2With fallbackCounties None)) = true
  /\ top10Percentage (chapter2With [] None) = "0"%string.
Proof.
  split.
  - apply (proj1 (top10Percentage_numeral (chapter2With fallbackCounties None))).
    repeat constructor; discriminate.
  - apply (proj1 (proj2 (top10Percentage_numeral (chapter2With [] None)))).
    left. reflexivity.
Defined.

(** With ten counties or fewer, emissions that are finite, not negative
    and at most [MAX_SAFE_INTEGER], and a positive total, the top ten are
    all the counties and the headline reads 100 percent: so it does on the
    three fallback and the five default counties.  (The two sums are then
    the same sum, also on doubles, and finite.) *)
Theorem top10Percentage_is_100_up_to_ten (s : State) :
  (List.length (countyData s) <= 10)%nat ->
  moderateEmissions (countyData s) ->
  gt (totalEmissions s) (Fin 0) = true ->
  top10Percentage s = "100"%string.
Proof.
  intros Hlen Hmod Hpos.
  pose proof (moderateEmissions_finite _ Hmod) as Hfin.
  assert (Hall : top10Records s = countyData s).
  { unfold top10Records. apply firstn_all2. lia. }
  assert (Hsame : top10Emissions s = totalEmissions s).
  { unfold top10Emissions, totalEmissions. rewrite Hall. reflexivity. }
  unfold top10Percentage. rewrite Hpos, Hsame.
  destruct (ChartFacts.totalEmissions_finite s Hfin) as [b Hb].
  rewrite Hb in *. unfold gt in Hpos. apply lt_Fin in Hpos.
  assert (Hnz : Qeq_bool b 0 = false).
  { destruct (Qeq_bool b 0) eqn:Hz; [|reflexivity].
    apply Qeq_bool_iff in Hz. lra. }
  unfold div. rewrite Hnz. simpl mul.
  rewrite (toFixed_Qeq 0 (b / b * 100) 100); [reflexivity|].
  field. lra.
Qed.

Lemma top10Percentage_is_100_example :
  top10Percentage (chapter2With fallbackCounties None) = "100"%string.
Proof.
  apply top10Percentage_is_100_up_to_ten.
  - simpl. lia.
  - repeat constructor; discriminate.
  - reflexivity.
Defined.

End CountyFacts.

(** ** The scene of Chapter 2: one circle per county, inside the plot *)

Module MapSceneFacts.

Import Fetch Template Svg Fixtures NumFacts.
Import Chapter2.
Local Open Scope Q_scope.

Lemma filter_flat_map_nil {A B : Type} (p : B -> bool) (f : A -> list B)
  (l : list A) :
  (forall x, filter p (f x) = []) -> filter p (flat_map f l) = [].
Proof.
  intros H. induction l as [|x l IH]; simpl; [reflexivity|].
  rewrite filter_app, H, IH. reflexivity.
Qed.

(** The circles among the children of the scene are those of the county
    marks. *)
Lemma mapScene_circles (Math_sqrt : num -> num) (data : list CountyData)
  (mode : ViewMode) :
  exists minCommute maxCommute minValue maxValue,
    filter (hasTag "circle") (childrenOf (mapScene Math_sqrt data mode))
    = filter (hasTag "circle")
        (flat_map (countyMarks Math_sqrt data mode minCommute maxCommute
                               minValue maxValue) data).
Proof.
  unfold mapScene. cbv zeta. do 4 eexists. cbn [childrenOf].
  rewrite !filter_app.
  rewrite (filter_flat_map_nil _ (xTick _ _)) by reflexivity.
  rewrite (filter_flat_map_nil _ (yTick _ _ _)) by (intros; destruct mode; reflexivity).
  reflexivity.
Qed.

Lemma countyMarks_circle (Math_sqrt : num -> num) (all : list CountyData)
  (mode : ViewMode) (a b lo hi : num) (c : CountyData) :
  map listenersOf
      (filter (hasTag "circle") (countyMarks Math_sqrt all mode a b lo hi c))
  = [[("mouseenter"%string, MouseEnter c); ("mouseleave"%string, MouseLeave)]].
Proof.
  unfold countyMarks. cbv zeta.
  destruct (strictEq (valueOf mode c) hi); destruct mode; reflexivity.
Qed.

Lemma circles_listeners (Math_sqrt : num -> num) (all : list CountyData)
  (mode : ViewMode) (a b lo hi : num) (l : list CountyData) :
  map listenersOf
      (filter (hasTag "circle")
         (flat_map (countyMarks Math_sqrt all mode a b lo hi) l))
  = map (fun c => [("mouseenter"%string, MouseEnter c);
                   ("mouseleave"%string, MouseLeave)]) l.
Proof.
  induction l as [|c l IH]; [reflexivity|].
  cbn [flat_map]. rewrite filter_app, map_app, countyMarks_circle, IH.
  reflexivity.
Qed.

(** The children of the scene, with the ends of the two scales named. *)
Lemma mapScene_marks (Math_sqrt : num -> num) (data : list CountyData)
  (mode : ViewMode) (n : Node Handler) :
  In n (childrenOf (mapScene Math_sqrt data mode)) ->
  hasTag "circle" n = true ->
  exists c, In c data
    /\ In n (countyMarks Math_sqrt data mode
               (fst (commuteRange data)) (snd (commuteRange data))
               (fst (valueRange mode data)) (snd (valueRange mode data)) c).
Proof.
  intros Hin Htag.
  assert (Hf : In n (filter (hasTag "circle")
                       (childrenOf (mapScene Math_sqrt data mode))))
    by (apply filter_In; split; assumption).
  unfold mapScene in Hf. cbv zeta in Hf. cbn [childrenOf] in Hf.
  rewrite !filter_app in Hf.
  rewrite (filter_flat_map_nil _ (xTick _ _)) in Hf by reflexivity.
  rewrite (filter_flat_map_nil _ (yTick _ _ _)) in Hf
    by (intros; destruct mode; reflexivity).
  cbn [filter hasTag tagOf shape label String.eqb Ascii.eqb Bool.eqb app] in Hf.
  apply filter_In in Hf as [Hf _].
  apply in_flat_map in Hf as [c [Hc Hn]].
  exists c. split; [exact Hc | exact Hn].
Qed.

Lemma countyMarks_circle_style (Math_sqrt : num -> num)
  (all : list CountyData) (mode : ViewMode) (a b lo hi : num)
  (c : CountyData) (n : Node Handler) :
  In n (countyMarks Math_sqrt all mode a b lo hi c) ->
  hasTag "circle" n = true ->
  listenersOf n = [("mouseenter"%string, MouseEnter c);
                   ("mouseleave"%string, MouseLeave)]
  /\ forall h,
       getAttribute "fill-opacity" (hover h n)
       = lastSet "fill-opacity" (attributesSetBy h)
       /\ getAttribute "stroke-width" (hover h n)
          = lastSet "stroke-width" (attributesSetBy h)
       /\ getAttribute "fill-opacity" (hover MouseLeave (hover h n))
          = getAttribute "fill-opacity" n
       /\ getAttribute "stroke-width" (hover MouseLeave (hover h n))
          = getAttribute "stroke-width" n
       /\ getAttribute "cx" (hover h n) = getAttribute "cx" n
       /\ getAttribute "cy" (hover h n) = getAttribute "cy" n
       /\ getAttribute "r" (hover h n) = getAttribute "r" n.
Proof.
  unfold countyMarks. cbv zeta. intros Hin Htag.
  apply in_app_or in Hin. destruct Hin as [[<-|[<-|[]]]|Hin].
  - split; [reflexivity|]. intros h. destruct h; repeat split.
  - discriminate Htag.
  - destruct (strictEq (valueOf mode c) hi); [|destruct Hin].
    destruct Hin as [<-|[<-|[]]]; discriminate Htag.
Qed.

(** The scene holds one circle for each county, in the order of the
    list, with two listeners each.  [mouseenter] on the circle of a county
    selects that county and highlights the circle; [mouseleave] puts the
    opacity and the stroke of the circle back to what [renderMap] gave
    them and leaves the county selected; neither moves or resizes the
    circle. *)
Theorem mapScene_circles_hover (Math_sqrt : num -> num)
  (data : list CountyData) (mode : ViewMode) :
  map listenersOf
      (filter (hasTag "circle") (childrenOf (mapScene Math_sqrt data mode)))
  = map (fun c => [("mouseenter"%string, MouseEnter c);
                   ("mouseleave"%string, MouseLeave)]) data
  /\ List.length
       (filter (hasTag "circle") (childrenOf (mapScene Math_sqrt data mode)))
     = List.length data
  /\ (forall c s,
        selectedCounty (handle (MouseEnter c) s) = Some c
        /\ selectedCounty (handle MouseLeave (handle (MouseEnter c) s)) = Some c
        /\ handle MouseLeave s = s)
  /\ (forall n c,
        In n (childrenOf (mapScene Math_sqrt data mode)) ->
        hasTag "circle" n = true ->
        getAttribute "fill-opacity" (hover (MouseEnter c) n) = Some (Str "0.9")
        /\ getAttribute "stroke-width" (hover (MouseEnter c) n) = Some (Str "3")
        /\ getAttribute "fill-opacity" (hover MouseLeave (hover (MouseEnter c) n))
           = getAttribute "fill-opacity" n
        /\ getAttribute "stroke-width" (hover MouseLeave (hover (MouseEnter c) n))
           = getAttribute "stroke-width" n
        /\ getAttribute "cx" (hover (MouseEnter c) n) = getAttribute "cx" n
        /\ getAttribute "cy" (hover (MouseEnter c) n) = getAttribute "cy" n
        /\ getAttribute "r" (hover (MouseEnter c) n) = getAttribute "r" n).
Proof.
  split; [|split; [|split]].
  - destruct (mapScene_circles Math_sqrt data mode) as [a [b [lo [hi ->]]]].
    apply circles_listeners.
  - destruct (mapScene_circles Math_sqrt data mode) as [a [b [lo [hi ->]]]].
    rewrite <- (length_map listenersOf), circles_listeners, length_map.
    reflexivity.
  - intros c s. repeat split.
  - intros n c Hin Htag.
    destruct (mapScene_marks Math_sqrt data mode n Hin Htag) as [d [_ Hn]].
    destruct (countyMarks_circle_style _ _ _ _ _ _ _ _ _ Hn Htag) as [_ Hh].
    destruct (Hh (MouseEnter c)) as [H1 [H2 [H3 [H4 [H5 [H6 H7]]]]]].
    repeat split; assumption.
Qed.

(** On the three fallback counties: whichever county was hovered, a
    circle is back at its resting opacity once the mouse has left it. *)
Lemma mapScene_circles_hover_example :
  Forall (fun n =>
            hasTag "circle" n = true ->
            getAttribute "fill-opacity"
              (hover MouseLeave (hover (MouseEnter overflowCounty) n))
            = getAttribute "fill-opacity" n)
         (childrenOf (mapScene (fun x => x) fallbackCounties total)).
Proof.
  apply Forall_forall. intros n Hin Htag.
  destruct (mapScene_circles_hover (fun x => x) fallbackCounties total)
    as [_ [_ [_ Hhover]]].
  apply (Hhover n overflowCounty Hin Htag).
Defined.

Lemma countyMarks_circle_centre (Math_sqrt : num -> num)
  (all : list CountyData) (mode : ViewMode) (a b lo hi : num)
  (c : CountyData) (n : Node Handler) :
  In n (countyMarks Math_sqrt all mode a b lo hi c) ->
  hasTag "circle" n = true ->
  getAttribute "cx" n
  = Some (Num (add leftMargin
                   (mul (div (sub (orElse (mean_commute c)
                                          (div (add a b) (Fin 2))) a)
                             (JsNum.or (sub b a) (Fin 1)))
                        plotWidth)))
  /\ getAttribute "cy" n
     = Some (Num (sub (add topMargin plotHeight)
                      (mul (div (sub (toNumber (valueOf mode c)) lo)
                                (JsNum.or (sub hi lo) (Fin 1)))
                           plotHeight))).
Proof.
  unfold countyMarks. cbv zeta. intros Hin Htag.
  apply in_app_or in Hin. destruct Hin as [[<-|[<-|[]]]|Hin].
  - split; reflexivity.
  - discriminate Htag.
  - destruct (strictEq (valueOf mode c) hi); [|destruct Hin].
    destruct Hin as [<-|[<-|[]]]; discriminate Htag.
Qed.

(** Linear scaling between the two ends of a scale: a value between them
    is mapped to a ratio between 0 and 1, also when the ends coincide and
    the code divides by 1 instead. *)
Lemma scale_ratio (v lo hi : Q) :
  lo <= v <= hi ->
  exists r : Q,
    div (sub (Fin v) (Fin lo)) (JsNum.or (sub (Fin hi) (Fin lo)) (Fin 1)) = Fin r
    /\ 0 <= r <= 1.
Proof.
  intros [Hlo Hhi]. unfold sub, neg, add, JsNum.or, truthy.
  destruct (Qeq_bool (hi + - lo) 0) eqn:Hz; cbn [negb].
  - apply Qeq_bool_iff in Hz.
    exists ((v + - lo) / 1). split; [reflexivity|].
    assert (Hr : (v + - lo) / 1 == v + - lo) by (field).
    rewrite Hr. lra.
  - exists ((v + - lo) / (hi + - lo)). split.
    + unfold div. rewrite Hz. reflexivity.
    + assert (Hpos : 0 < hi + - lo).
      { destruct (Qlt_le_dec 0 (hi + - lo)) as [H|H]; [exact H|].
        assert (Heq : Qeq_bool (hi + - lo) 0 = true)
          by (apply Qeq_bool_iff; lra).
        congruence. }
      split; [apply Qle_shift_div_l | apply Qle_shift_div_r]; lra.
Qed.

Lemma valueRange_bounds (mode : ViewMode) (data : list CountyData)
  (c : CountyData) :
  finiteValues mode data ->
  In c data ->
  exists lo hi v : Q,
    valueRange mode data = (Fin lo, Fin hi)
    /\ toNumber (valueOf mode c) = Fin v
    /\ lo <= v <= hi.
Proof.
  intros Hfin Hc. unfold valueRange. cbv zeta.
  set (values := map (fun c => toNumber (valueOf mode c)) data).
  assert (Hall : Forall (fun x => isFinite x = true) values).
  { apply Forall_forall. intros x Hx. apply in_map_iff in Hx as [d [<- Hd]].
    destruct (Hfin d Hd) as [q ->]. reflexivity. }
  destruct (Hfin c Hc) as [v Hv].
  assert (Hin : In (Fin v) values).
  { apply in_map_iff. exists c. rewrite Hv. split; [reflexivity | exact Hc]. }
  assert (Hne : values <> []) by (intros Hnil; rewrite Hnil in Hin; destruct Hin).
  destruct (minOf_finite values Hne Hall) as [lo [-> [_ Hlo]]].
  destruct (maxOf_finite values Hne Hall) as [hi [-> [_ Hhi]]].
  exists lo, hi, v. split; [reflexivity|]. split; [rewrite Hv; reflexivity|].
  split; [apply Hlo | apply Hhi]; exact Hin.
Qed.

Lemma commuteRange_bounds (data : list CountyData) (c : CountyData) :
  commuteTimesValid data ->
  In c data ->
  exists lo hi t : Q,
    commuteRange data = (Fin lo, Fin hi)
    /\ orElse (mean_commute c) (div (add (Fin lo) (Fin hi)) (Fin 2)) = Fin t
    /\ lo <= t <= hi.
Proof.
  intros Hvalid Hc. unfold commuteRange. cbv zeta.
  set (times := filter (fun v => gt v (Fin 0))
                       (map (fun c => orElse (mean_commute c) (Fin 0)) data)).
  assert (Hall : Forall (fun x => isFinite x = true) times).
  { apply Forall_forall. intros x Hx. apply filter_In in Hx as [Hx _].
    apply in_map_iff in Hx as [d [<- Hd]].
    destruct (Hvalid d Hd) as [-> | [q [-> _]]]; [reflexivity|].
    simpl. destruct (negb _); reflexivity. }
  (* a positive commute time of [c] is one of the times *)
  assert (Hmember : forall q, mean_commute c = Some (Fin q) ->
                              Qeq_bool q 0 = false -> 0 <= q -> In (Fin q) times).
  { intros q Hq Hnz Hq0. apply filter_In. split.
    - apply in_map_iff. exists c. split; [|exact Hc].
      rewrite Hq. simpl. rewrite Hnz. reflexivity.
    - unfold gt. apply lt_Fin.
      destruct (Qlt_le_dec 0 q) as [H|H]; [exact H|].
      assert (Heq : Qeq_bool q 0 = true) by (apply Qeq_bool_iff; lra).
      congruence. }
  assert (Hmid : forall lo hi : Q,
             div (add (Fin lo) (Fin hi)) (Fin 2) = Fin ((lo + hi) / 2))
    by reflexivity.
  assert (Hhalf : forall lo hi : Q, lo <= hi -> lo <= (lo + hi) / 2 <= hi).
  { intros lo hi Hle.
    assert (E : (lo + hi) / 2 == (lo + hi) * (1 # 2)) by field.
    rewrite E. lra. }
  destruct times as [|x0 rest] eqn:Htimes.
  - (* no county has a commute time: the scale runs from 0 to 50 *)
    cbn [List.length Nat.ltb Nat.leb].
    exists 0, 50, ((0 + 50) / 2). split; [reflexivity|].
    split; [|apply Hhalf; lra].
    destruct (Hvalid c Hc) as [-> | [q [Hq Hq0]]]; [reflexivity|].
    rewrite Hq. simpl orElse. destruct (Qeq_bool q 0) eqn:Hnz; [reflexivity|].
    destruct (Hmember q Hq Hnz Hq0).
  - cbn [List.length Nat.ltb Nat.leb].
    assert (Hne : x0 :: rest <> []) by discriminate.
    destruct (minOf_finite _ Hne Hall) as [lo [-> [Hlo_in Hlo]]].
    destruct (maxOf_finite _ Hne Hall) as [hi [-> [Hhi_in Hhi]]].
    assert (Hle : lo <= hi) by (apply Hlo; exact Hhi_in).
    destruct (Hvalid c Hc) as [Hnone | [q [Hq Hq0]]].
    + exists lo, hi, ((lo + hi) / 2). split; [reflexivity|].
      split; [rewrite Hnone; apply Hmid | apply Hhalf; exact Hle].
    + destruct (Qeq_bool q 0) eqn:Hnz.
      * exists lo, hi, ((lo + hi) / 2). split; [reflexivity|].
        split; [|apply Hhalf; exact Hle].
        rewrite Hq. simpl orElse. rewrite Hnz. apply Hmid.
      * exists lo, hi, q. split; [reflexivity|]. split.
        -- rewrite Hq. simpl orElse. rewrite Hnz. reflexivity.
        -- pose proof (Hmember q Hq Hnz Hq0) as Hin.
           split; [apply Hlo | apply Hhi]; exact Hin.
Qed.

(** On exact numbers: with finite values and commute times that are
    missing or not negative, the linear scaling of [renderMap] puts the
    centre of every circle inside the plot area. *)
Lemma circle_centres_exact (Math_sqrt : num -> num)
  (data : list CountyData) (mode : ViewMode) (n : Node Handler) :
  finiteValues mode data ->
  commuteTimesValid data ->
  In n (childrenOf (mapScene Math_sqrt data mode)) ->
  hasTag "circle" n = true ->
  attributeWithin "cx" 80 750 n /\ attributeWithin "cy" 50 520 n.
Proof.
  intros Hval Htimes Hin Htag.
  destruct (mapScene_marks Math_sqrt data mode n Hin Htag) as [c [Hc Hn]].
  destruct (countyMarks_circle_centre _ _ _ _ _ _ _ _ _ Hn Htag) as [Hcx Hcy].
  destruct (commuteRange_bounds data c Htimes Hc) as [a [b [t [Hr [Ht Ha]]]]].
  destruct (valueRange_bounds mode data c Hval Hc) as [lo [hi [v [Hv [Hvc Hlo]]]]].
  rewrite Hr in Hcx. rewrite Hv, Hvc in Hcy. cbn [fst snd] in Hcx, Hcy.
  rewrite Ht in Hcx.
  destruct (scale_ratio t a b Ha) as [rx [Hrx Hx01]].
  destruct (scale_ratio v lo hi Hlo) as [ry [Hry Hy01]].
  rewrite Hrx in Hcx. rewrite Hry in Hcy.
  split.
  - exists (80 + rx * (800 + - 80 + - 50)). split; [exact Hcx | lra].
  - exists (50 + (600 + - 50 + - 80) + - (ry * (600 + - 50 + - 80))).
    split; [exact Hcy | lra].
Qed.

(** When the plotted values are of moderate magnitude and the commute
    times are missing, or not negative and of moderate magnitude, the
    linear scaling of [renderMap] puts the centre of every circle inside the
    plot area: [cx] between the left and the right edge (80 and 750), [cy]
    between the top and the bottom edge (50 and 520).  (On such values no
    difference overflows, a ratio of two rounded differences stays between
    0 and 1, and the edges are doubles, so that rounding does not carry a
    centre across them.) *)
Theorem mapScene_circles_within_plot (Math_sqrt : num -> num)
  (data : list CountyData) (mode : ViewMode) (n : Node Handler) :
  valuesModerate mode data ->
  commuteTimesModerate data ->
  In n (childrenOf (mapScene Math_sqrt data mode)) ->
  hasTag "circle" n = true ->
  attributeWithin "cx" 80 750 n /\ attributeWithin "cy" 50 520 n.
Proof.
  intros Hval Htimes.
  apply circle_centres_exact.
  - intros c Hc. destruct (Hval c Hc) as [q [Hq _]]. exists q. exact Hq.
  - intros c Hc. destruct (Htimes c Hc) as [Hnone | [q [Hq [Hq0 _]]]];
      [left; exact Hnone | right; exists q; split; assumption].
Qed.

Lemma mapScene_circles_within_plot_example :
  Forall (fun n => hasTag "circle" n = true ->
                   attributeWithin "cx" 80 750 n /\ attributeWithin "cy" 50 520 n)
         (childrenOf (mapScene (fun x => x) fallbackCounties total)).
Proof.
  apply Forall_forall. intros n.
  apply (mapScene_circles_within_plot (fun x => x) fallbackCounties total n).
  - intros c Hc.
    destruct Hc as [<-|[<-|[<-|[]]]]; eexists;
      (split; [reflexivity | split; discriminate]).
  - intros c Hc. left.
    destruct Hc as [<-|[<-|[<-|[]]]]; reflexivity.
Defined.

End MapSceneFacts.

(** ** Further properties of Chapter 3: the insights, the load, the bars *)

Module MetroFacts.

Import Fetch Template Svg Fixtures NumFacts.
Import Chapter3.
Local Open Scope Q_scope.

(** A [reduce] that keeps the left record when [before] holds for its key
    against the right one's returns a record of the list that [before] no
    other record of the list beats, provided all keys are finite and
    [before] is a strict order on them. *)
Lemma reduce_lowest (key : MetroData -> num) (rest : list MetroData) :
  forall first : MetroData,
    (forall x, In x (first :: rest) -> exists q, key x = Fin q) ->
    let r := fold_left (fun a b => if lt (key a) (key b) then a else b) rest first in
    In r (first :: rest)
    /\ forall x q qr, In x (first :: rest) -> key x = Fin q -> key r = Fin qr ->
                      qr <= q.
Proof.
  induction rest as [|b rest IH]; intros first Hfin; cbn [fold_left].
  - split; [left; reflexivity|].
    intros x q qr [<-|[]] Hq Hr. rewrite Hq in Hr. injection Hr as <-. lra.
  - destruct (Hfin first (or_introl eq_refl)) as [qa Ha].
    destruct (Hfin b (or_intror (or_introl eq_refl))) as [qb Hb].
    rewrite Ha, Hb.
    destruct (lt (Fin qa) (Fin qb)) eqn:Hlt.
    + apply lt_Fin in Hlt.
      destruct (IH first) as [Hin Hmin].
      { intros x [<-|Hx]; [exists qa; exact Ha | apply Hfin; right; right; exact Hx]. }
      split.
      * destruct Hin as [Hin|Hin]; [left; exact Hin | right; right; exact Hin].
      * intros x q qr [<-|[<-|Hx]] Hq Hr.
        -- apply (Hmin first q qr (or_introl eq_refl) Hq Hr).
        -- rewrite Hb in Hq. injection Hq as <-.
           pose proof (Hmin first qa qr (or_introl eq_refl) Ha Hr). lra.
        -- apply (Hmin x q qr (or_intror Hx) Hq Hr).
    + apply lt_Fin_false in Hlt.
      destruct (IH b) as [Hin Hmin].
      { intros x [<-|Hx]; [exists qb; exact Hb | apply Hfin; right; right; exact Hx]. }
      split.
      * right. exact Hin.
      * intros x q qr [<-|[<-|Hx]] Hq Hr.
        -- rewrite Ha in Hq. injection Hq as <-.
           pose proof (Hmin b qb qr (or_introl eq_refl) Hb Hr). lra.
        -- apply (Hmin b q qr (or_introl eq_refl) Hq Hr).
        -- apply (Hmin x q qr (or_intror Hx) Hq Hr).
Qed.

Lemma reduce_highest (key : MetroData -> num) (rest : list MetroData) :
  forall first : MetroData,
    (forall x, In x (first :: rest) -> exists q, key x = Fin q) ->
    let r := fold_left (fun a b => if gt (key a) (key b) then a else b) rest first in
    In r (first :: rest)
    /\ forall x q qr, In x (first :: rest) -> key x = Fin q -> key r = Fin qr ->
                      q <= qr.
Proof.
  induction rest as [|b rest IH]; intros first Hfin; cbn [fold_left].
  - split; [left; reflexivity|].
    intros x q qr [<-|[]] Hq Hr. rewrite Hq in Hr. injection Hr as <-. lra.
  - destruct (Hfin first (or_introl eq_refl)) as [qa Ha].
    destruct (Hfin b (or_intror (or_introl eq_refl))) as [qb Hb].
    rewrite Ha, Hb. change (gt (Fin qa) (Fin qb)) with (lt (Fin qb) (Fin qa)).
    destruct (lt (Fin qb) (Fin qa)) eqn:Hlt.
    + apply lt_Fin in Hlt.
      destruct (IH first) as [Hin Hmax].
      { intros x [<-|Hx]; [exists qa; exact Ha | apply Hfin; right; right; exact Hx]. }
      split.
      * destruct Hin as [Hin|Hin]; [left; exact Hin | right; right; exact Hin].
      * intros x q qr [<-|[<-|Hx]] Hq Hr.
        -- apply (Hmax first q qr (or_introl eq_refl) Hq Hr).
        -- rewrite Hb in Hq. injection Hq as <-.
           pose proof (Hmax first qa qr (or_introl eq_refl) Ha Hr). lra.
        -- apply (Hmax x q qr (or_intror Hx) Hq Hr).
    + apply lt_Fin_false in Hlt.
      destruct (IH b) as [Hin Hmax].
      { intros x [<-|Hx]; [exists qb; exact Hb | apply Hfin; right; right; exact Hx]. }
      split.
      * right. exact Hin.
      * intros x q qr [<-|[<-|Hx]] Hq Hr.
        -- rewrite Ha in Hq. injection Hq as <-.
           pose proof (Hmax b qb qr (or_introl eq_refl) Hb Hr). lra.
        -- apply (Hmax b q qr (or_introl eq_refl) Hq Hr).
        -- apply (Hmax x q qr (or_intror Hx) Hq Hr).
Qed.

Lemma co2Of_Fin (m : MetroData) (q : Q) :
  co2Of m = Some q -> toNumber (co2_per_capita m) = Fin q.
Proof.
  unfold co2Of. destruct (co2_per_capita m) as [[p| | |]|]; try discriminate.
  intros H. injection H as <-. reflexivity.
Qed.

Lemma commuteOf_Fin (m : MetroData) (q : Q) :
  commuteOf m = Some q -> toNumber (avg_commute m) = Fin q.
Proof.
  unfold commuteOf. destruct (avg_commute m) as [[p| | |]|]; try discriminate.
  intros H. injection H as <-. reflexivity.
Qed.

(** When both figures of every metro are finite numbers and there is a
    metro, [lowestCO2] is a metro of the list whose tons per person no metro
    undercuts, and [highestCommute] one whose commute no metro exceeds. *)
Theorem insights_are_extremes (s : State) :
  metroData s <> [] ->
  (forall m, In m (metroData s) ->
             (exists q, co2Of m = Some q) /\ (exists q, commuteOf m = Some q)) ->
  (exists low qlow,
      lowestCO2 s = Some low /\ In low (metroData s) /\ co2Of low = Some qlow
      /\ forall m q, In m (metroData s) -> co2Of m = Some q -> qlow <= q)
  /\ (exists high qhigh,
         highestCommute s = Some high /\ In high (metroData s)
         /\ commuteOf high = Some qhigh
         /\ forall m q, In m (metroData s) -> commuteOf m = Some q -> q <= qhigh).
Proof.
  intros Hne Hfin. unfold lowestCO2, highestCommute.
  destruct (metroData s) as [|first rest]; [contradiction|].
  split.
  - destruct (reduce_lowest (fun m => toNumber (co2_per_capita m)) rest first)
      as [Hin Hmin].
    { intros x Hx. destruct (Hfin x Hx) as [[q Hq] _]. exists q.
      apply co2Of_Fin. exact Hq. }
    cbv zeta in Hin, Hmin.
    set (low := fold_left _ rest first) in *.
    destruct (Hfin low Hin) as [[qlow Hqlow] _].
    exists low, qlow. repeat split; try assumption.
    intros m q Hm Hq.
    apply (Hmin m q qlow Hm (co2Of_Fin m q Hq) (co2Of_Fin low qlow Hqlow)).
  - destruct (reduce_highest (fun m => toNumber (avg_commute m)) rest first)
      as [Hin Hmax].
    { intros x Hx. destruct (Hfin x Hx) as [_ [q Hq]]. exists q.
      apply commuteOf_Fin. exact Hq. }
    cbv zeta in Hin, Hmax.
    set (high := fold_left _ rest first) in *.
    destruct (Hfin high Hin) as [_ [qhigh Hqhigh]].
    exists high, qhigh. repeat split; try assumption.
    intros m q Hm Hq.
    apply (Hmax m q qhigh Hm (commuteOf_Fin m q Hq) (commuteOf_Fin high qhigh Hqhigh)).
Qed.

Lemma insights_example :
  exists low qlow,
    lowestCO2 (chapter3With twoMetros None) = Some low
    /\ In low twoMetros /\ co2Of low = Some qlow
    /\ forall m q, In m twoMetros -> co2Of m = Some q -> qlow <= q.
Proof.
  apply (insights_are_extremes (chapter3With twoMetros None)).
  - discriminate.
  - intros m [<-|[<-|[]]]; split; eexists; reflexivity.
Defined.

(** The comparisons of the two [reduce] calls are false on a missing
    figure, so a row that lacks the figure and stands last in the list is
    returned whatever the other rows hold. *)
Theorem insights_on_missing_figure (s : State) (init : list MetroData)
  (m : MetroData) :
  metroData s = (init ++ [m])%list ->
  co2_per_capita m = None ->
  avg_commute m = None ->
  lowestCO2 s = Some m /\ highestCommute s = Some m.
Proof.
  intros Hdata Hco2 Hcommute. unfold lowestCO2, highestCommute. rewrite Hdata.
  destruct init as [|first init]; [split; reflexivity|].
  cbn [app]. rewrite !fold_left_app. cbn [fold_left].
  rewrite Hco2, Hcommute. cbn [toNumber].
  split; f_equal.
  destruct (toNumber (co2_per_capita _)); reflexivity.
Qed.

Lemma insights_on_missing_figure_example :
  lowestCO2 (chapter3With (twoMetros ++ [metroWithoutFigures]) None)
  = Some metroWithoutFigures.
Proof.
  apply (insights_on_missing_figure
           (chapter3With (twoMetros ++ [metroWithoutFigures]) None)
           twoMetros metroWithoutFigures);
    reflexivity.
Defined.

(** A file with at least one row: [onMount] selects the first metro (so
    that the narrative has one to name), waits for the container and draws
    the chart with that metro highlighted, and logs nothing. *)
Theorem Chapter3_onMount_selects_first (first : MetroData)
  (rest : list MetroData) :
  let loaded := onMount (Json (Some (first :: rest))) initial in
  view loaded = Content
  /\ selectedMetro loaded = Some first
  /\ chartContainer loaded = Some [chartScene (first :: rest) (Some first)]
  /\ currentSvg loaded = Some (chartScene (first :: rest) (Some first))
  /\ console loaded = [].
Proof. repeat split. Qed.

Lemma filter_forEachIndexed_nil {A B : Type} (p : B -> bool)
  (f : num -> A -> list B) (xs : list A) :
  (forall i x, filter p (f i x) = []) ->
  forall i, filter p (forEachIndexed f i xs) = [].
Proof.
  intros H. induction xs as [|x xs IH]; intros i; cbn [forEachIndexed];
    [reflexivity|].
  rewrite filter_app, H, IH. reflexivity.
Qed.

Lemma in_forEachIndexed {A B : Type} (f : num -> A -> list B) (xs : list A)
  (n : B) :
  forall i, In n (forEachIndexed f i xs) -> exists j x, In x xs /\ In n (f j x).
Proof.
  induction xs as [|x xs IH]; intros i Hin; cbn [forEachIndexed] in Hin;
    [destruct Hin|].
  apply in_app_or in Hin. destruct Hin as [Hin|Hin].
  - exists (ofZ i), x. split; [left; reflexivity | exact Hin].
  - destruct (IH _ Hin) as [j [y [Hy Hn]]].
    exists j, y. split; [right; exact Hy | exact Hn].
Qed.

(** The largest of the figures and 1, the denominator of the bar
    heights. *)
Lemma scaleMax_bounds (figure : MetroData -> option num) (data : list MetroData) :
  (forall m, In m data -> exists q, figure m = Some (Fin q) /\ 0 <= q) ->
  exists M : Q,
    maxOf (map (fun m => orElse (figure m) (Fin 0)) data ++ [Fin 1])%list = Fin M
    /\ 1 <= M
    /\ forall m q, In m data -> figure m = Some (Fin q) -> q <= M.
Proof.
  intros Hvalid.
  set (xs := (map (fun m => orElse (figure m) (Fin 0)) data ++ [Fin 1])%list).
  assert (Hall : Forall (fun x => isFinite x = true) xs).
  { apply Forall_app. split; [|repeat constructor].
    apply Forall_forall. intros x Hx. apply in_map_iff in Hx as [m [<- Hm]].
    destruct (Hvalid m Hm) as [q [-> _]]. simpl. destruct (negb _); reflexivity. }
  assert (Hne : xs <> []).
  { unfold xs. intros Hnil. apply app_eq_nil in Hnil as [_ Hnil]. discriminate. }
  destruct (maxOf_finite xs Hne Hall) as [M [HM [_ Hmax]]].
  assert (H1 : 1 <= M).
  { apply Hmax. unfold xs. apply in_or_app. right. left. reflexivity. }
  exists M. split; [exact HM|]. split; [exact H1|].
  intros m q Hm Hq.
  destruct (Qeq_bool q 0) eqn:Hz.
  - apply Qeq_bool_iff in Hz. lra.
  - apply Hmax. unfold xs. apply in_or_app. left.
    apply in_map_iff. exists m. split; [|exact Hm].
    rewrite Hq. simpl. rewrite Hz. reflexivity.
Qed.

(** The bars among the marks are those of the metro groups. *)
Lemma chartMarks_bars (data : list MetroData) (selected : option MetroData)
  (n : Node Handler) :
  In n (chartMarks data selected) ->
  isBar n = true ->
  exists j m groupWidth barWidth gap,
    In m data
    /\ In n (metroBars selected groupWidth barWidth gap
               (maxOf (map (fun m => orElse (avg_commute m) (Fin 0)) data
                       ++ [Fin 1])%list)
               (maxOf (map (fun m => orElse (co2_per_capita m) (Fin 0)) data
                       ++ [Fin 1])%list)
               j m).
Proof.
  intros Hin Hbar.
  assert (Hf : In n (filter isBar (chartMarks data selected)))
    by (apply filter_In; split; assumption).
  unfold chartMarks, chartScene in Hf. cbv zeta in Hf.
  cbn [childrenOf flat_map] in Hf. rewrite app_nil_r in Hf.
  rewrite !filter_app in Hf.
  rewrite (MapSceneFacts.filter_flat_map_nil _ (tickMarks _)) in Hf by reflexivity.
  rewrite (filter_forEachIndexed_nil isBar legendEntry) in Hf by reflexivity.
  cbn [filter isBar hasTag tagOf listenersOf shape label String.eqb Ascii.eqb
       Bool.eqb andb negb app] in Hf.
  rewrite app_nil_r in Hf.
  apply filter_In in Hf as [Hf _].
  apply in_forEachIndexed in Hf as [j [m [Hm Hn]]].
  do 5 eexists. split; [exact Hm | exact Hn].
Qed.

Lemma metroBars_bar (selected : option MetroData)
  (groupWidth barWidth gap maxCommute maxCO2 j : num) (m : MetroData)
  (n : Node Handler) :
  In n (metroBars selected groupWidth barWidth gap maxCommute maxCO2 j m) ->
  isBar n = true ->
  exists figure scaleMax,
    ((figure = avg_commute m /\ scaleMax = maxCommute)
     \/ (figure = co2_per_capita m /\ scaleMax = maxCO2))
    /\ getAttribute "height" n
       = Some (Num (mul (div (toNumber figure) scaleMax) chartHeight))
    /\ getAttribute "y" n
       = Some (Num (sub chartHeight
                        (mul (div (toNumber figure) scaleMax) chartHeight))).
Proof.
  unfold metroBars. cbv zeta. intros Hin Hbar.
  destruct Hin as [<-|[<-|[<-|[<-|[<-|[]]]]]]; try discriminate Hbar.
  - exists (avg_commute m), maxCommute. split; [left; split; reflexivity|].
    split; reflexivity.
  - exists (co2_per_capita m), maxCO2. split; [right; split; reflexivity|].
    split; reflexivity.
Qed.

(** When the figures of every metro are finite and not negative, no bar
    is taller than the chart and none starts above it: [height] and [y] of
    every bar lie between 0 and the chart height of 320. *)
Theorem chartScene_bars_within_chart (data : list MetroData)
  (selected : option MetroData) (n : Node Handler) :
  figuresValid data ->
  In n (chartMarks data selected) ->
  isBar n = true ->
  attributeWithin "height" 0 320 n /\ attributeWithin "y" 0 320 n.
Proof.
  intros Hvalid Hin Hbar.
  destruct (chartMarks_bars data selected n Hin Hbar)
    as [j [m [gw [bw [gap [Hm Hn]]]]]].
  destruct (metroBars_bar _ _ _ _ _ _ _ _ _ Hn Hbar)
    as [figure [scaleMax [Hcase [Hh Hy]]]].
  assert (Hratio : exists r : Q, div (toNumber figure) scaleMax = Fin r /\ 0 <= r <= 1).
  { destruct Hcase as [[-> ->] | [-> ->]].
    - destruct (scaleMax_bounds avg_commute data) as [M [-> [H1 Hmax]]].
      { intros x Hx. apply (proj1 (Hvalid x Hx)). }
      destruct (proj1 (Hvalid m Hm)) as [q [Hq Hq0]]. rewrite Hq.
      pose proof (Hmax m q Hm Hq) as HqM.
      exists (q / M). split.
      + simpl. destruct (Qeq_bool M 0) eqn:Hz; [|reflexivity].
        apply Qeq_bool_iff in Hz. lra.
      + split; [apply Qle_shift_div_l | apply Qle_shift_div_r]; lra.
    - destruct (scaleMax_bounds co2_per_capita data) as [M [-> [H1 Hmax]]].
      { intros x Hx. apply (proj2 (Hvalid x Hx)). }
      destruct (proj2 (Hvalid m Hm)) as [q [Hq Hq0]]. rewrite Hq.
      pose proof (Hmax m q Hm Hq) as HqM.
      exists (q / M). split.
      + simpl. destruct (Qeq_bool M 0) eqn:Hz; [|reflexivity].
        apply Qeq_bool_iff in Hz. lra.
      + split; [apply Qle_shift_div_l | apply Qle_shift_div_r]; lra. }
  destruct Hratio as [r [Hr Hr01]]. rewrite Hr in Hh, Hy.
  split.
  - exists (r * (520 + - 90 + - 110)). split; [exact Hh | lra].
  - exists (520 + - 90 + - 110 + - (r * (520 + - 90 + - 110))).
    split; [exact Hy | lra].
Qed.

Lemma chartScene_bars_example :
  Forall (fun n => isBar n = true ->
                   attributeWithin "height" 0 320 n /\ attributeWithin "y" 0 320 n)
         (chartMarks twoMetros None).
Proof.
  apply Forall_forall. intros n.
  apply (chartScene_bars_within_chart twoMetros None n).
  intros m [<-|[<-|[]]]; split; eexists; (split; [reflexivity | discriminate]).
Defined.

Lemma handlersOf_app (a b : list (Node Handler)) :
  handlersOf (a ++ b) = (handlersOf a ++ handlersOf b)%list.
Proof. unfold handlersOf. apply flat_map_app. Qed.

(** Every mark of the chart that listens to clicks belongs to a metro of
    the list and selects that metro: two bars and a name for each, in the
    order of the list; no other mark listens. *)
Theorem chartScene_click_targets (data : list MetroData)
  (selected : option MetroData) :
  handlersOf (chartMarks data selected)
  = flat_map (fun m => [Click m; Click m; Click m]) data.
Proof.
  unfold chartMarks, chartScene. cbv zeta.
  cbn [childrenOf flat_map]. rewrite app_nil_r.
  rewrite !handlersOf_app.
  set (bars := metroBars selected _ _ _ _ _).
  assert (Hticks : forall (mx : num) (l : list num),
             handlersOf (flat_map (tickMarks mx) l) = []).
  { intros mx l. induction l as [|i l IH]; [reflexivity|].
    cbn [flat_map]. rewrite handlersOf_app, IH. reflexivity. }
  assert (Hlegend : forall (l : list (string * string)) (i : Z),
             handlersOf (forEachIndexed legendEntry i l) = []).
  { induction l as [|x l IH]; intros i; [reflexivity|].
    cbn [forEachIndexed]. rewrite handlersOf_app, IH. reflexivity. }
  assert (Hbars : forall (l : list MetroData) (i : Z),
             handlersOf (forEachIndexed bars i l)
             = flat_map (fun m => [Click m; Click m; Click m]) l).
  { induction l as [|m l IH]; intros i; [reflexivity|].
    cbn [forEachIndexed flat_map]. rewrite handlersOf_app, IH. reflexivity. }
  rewrite Hticks, Hlegend, Hbars. cbn [handlersOf flat_map listenersOf shape label map app].
  rewrite app_nil_r. reflexivity.
Qed.

(** [selectMetro] on a drawn chart redraws it with the new selection and
    keeps the rows; the selection toggles by the metro's name, so that a
    second click on the same metro restores whether it is highlighted. *)
Theorem selectMetro_toggles_and_redraws (m : MetroData) (s : State)
  (old : list (Node Handler)) :
  chartContainer s = Some old ->
  metroData s <> [] ->
  metroData (selectMetro m s) = metroData s
  /\ selectedMetro (selectMetro m s)
     = (if isSelected (selectedMetro s) m then None else Some m)
  /\ chartContainer (selectMetro m s)
     = Some [chartScene (metroData s) (selectedMetro (selectMetro m s))]
  /\ isSelected (selectedMetro (selectMetro m s)) m
     = negb (isSelected (selectedMetro s) m)
  /\ isSelected (selectedMetro (selectMetro m (selectMetro m s))) m
     = isSelected (selectedMetro s) m.
Proof.
  intros Hc Hrows.
  assert (Hsel : forall s0 old0,
             chartContainer s0 = Some old0 -> metroData s0 <> [] ->
             metroData (selectMetro m s0) = metroData s0
             /\ selectedMetro (selectMetro m s0)
                = (if isSelected (selectedMetro s0) m then None else Some m)
             /\ chartContainer (selectMetro m s0)
                = Some [chartScene (metroData s0) (selectedMetro (selectMetro m s0))]).
  { intros s0 old0 Hc0 Hrows0. unfold selectMetro, renderChart. simpl.
    rewrite Hc0. destruct (metroData s0); [contradiction|]. repeat split. }
  assert (Hflip : forall s0 old0,
             chartContainer s0 = Some old0 -> metroData s0 <> [] ->
             isSelected (selectedMetro (selectMetro m s0)) m
             = negb (isSelected (selectedMetro s0) m)).
  { intros s0 old0 Hc0 Hrows0.
    destruct (Hsel s0 old0 Hc0 Hrows0) as [_ [-> _]].
    destruct (isSelected (selectedMetro s0) m); [reflexivity|].
    unfold isSelected. apply String.eqb_refl. }
  destruct (Hsel s old Hc Hrows) as [Hd [Hs Hcont]].
  split; [exact Hd|]. split; [exact Hs|]. split; [exact Hcont|].
  split; [apply (Hflip s old Hc Hrows)|].
  rewrite (Hflip (selectMetro m s) _ Hcont), (Hflip s old Hc Hrows).
  - apply negb_involutive.
  - rewrite Hd. exact Hrows.
Qed.

Lemma selectMetro_example :
  selectedMetro (selectMetro metroWithoutFigures
                             (chapter3With twoMetros (Some [staleMark])))
  = Some metroWithoutFigures.
Proof.
  destruct (selectMetro_toggles_and_redraws metroWithoutFigures
              (chapter3With twoMetros (Some [staleMark])) [staleMark])
    as [_ [Hs _]].
  - reflexivity.
  - discriminate.
  - exact Hs.
Defined.

End MetroFacts.

(* ===================================================================== *)
(** ** The scenario builder of Chapter 4 *)
(* ===================================================================== *)

Module ScenarioFacts.

Import Fetch Template Fixtures Chapter4.
Local Open Scope string_scope.
Local Open Scope Q_scope.

(** The CO2 reduced in closed form: each point moved from driving alone
    to transit saves 20 kg per commuter, each point of remote work
    19.35 kg. *)
Lemma emissionsReduced_closed (s : State) (commuters emissions drive transit wfh t w : Q) :
  total_commuters (PA_BASELINE s) = Some (Fin commuters) ->
  current_emissions_tons (PA_BASELINE s) = Some (Fin emissions) ->
  drive_alone_pct (PA_BASELINE s) = Some (Fin drive) ->
  transit_pct (PA_BASELINE s) = Some (Fin transit) ->
  wfh_pct (PA_BASELINE s) = Some (Fin wfh) ->
  slidersAt s t w ->
  exists r : Q,
    emissionsReduced s = Fin r
    /\ r == emissions - commuters * (0.0258 * drive + 0.0058 * transit)
            + commuters * (0.02 * t + 0.01935 * w).
Proof.
  intros Hc He Hd Ht Hw [Hst Hsw].
  exists (emissions
          + - ((commuters * ((drive + - t + - (w * 0.75)) / 100) * 2580
                + commuters * ((transit + t) / 100) * 580
                + commuters * ((wfh + w) / 100) * 0) / 1000)).
  split.
  - unfold emissionsReduced, newEmissions, driveCommuters, transitCommuters,
      wfhCommuters, newDrivePct, newTransitPct, newWfhPct.
    rewrite Hc, He, Hd, Ht, Hw, Hst, Hsw. reflexivity.
  - field.
Qed.
Lemma presets_range (named : string -> Scenarios -> bool)
  (type : ScenarioType) (s : State) :
  exists t w : Q,
    slidersAt (applyScenario named type s) t w
    /\ 0 <= t <= 15 /\ 0 <= w <= 15
    /\ PA_BASELINE (applyScenario named type s) = PA_BASELINE s.
Proof.
  unfold applyScenario.
  destruct (predefinedScenarios s) as [scenarios|]; destruct type;
    try destruct (named _ scenarios);
    do 2 eexists; (split; [split; reflexivity | repeat split; discriminate]).
Qed.

(** Whatever the scenarios file holds, every quick start leaves the two
    sliders on positions that they admit: a whole number of points up to
    20 for transit and up to 25 for remote work. *)
Theorem presets_within_sliders (named : string -> Scenarios -> bool)
  (type : ScenarioType) (s : State) :
  exists t w : Q,
    slidersAt (applyScenario named type s) t w
    /\ accepts transitSlider t = true
    /\ accepts wfhSlider w = true
    /\ PA_BASELINE (applyScenario named type s) = PA_BASELINE s.
Proof.
  unfold applyScenario.
  destruct (predefinedScenarios s) as [scenarios|]; destruct type;
    try destruct (named _ scenarios);
    do 2 eexists; (split; [split; reflexivity | repeat split]).
Qed.

(** On exact numbers: on a finite baseline, moving a slider up never
    lowers the CO2 reduced. *)
Lemma emissionsReduced_monotone_exact (s s' : State) (t w t' w' : Q) :
  finiteBaseline (PA_BASELINE s) ->
  PA_BASELINE s' = PA_BASELINE s ->
  slidersAt s t w ->
  slidersAt s' t' w' ->
  t <= t' ->
  w <= w' ->
  exists r r' : Q,
    emissionsReduced s = Fin r /\ emissionsReduced s' = Fin r' /\ r <= r'.
Proof.
  intros [C [E [d [tr [wf [Hc [He [Hd [Ht [Hw HC]]]]]]]]]] Hsame Hs Hs' Htt Hww.
  destruct (emissionsReduced_closed s C E d tr wf t w Hc He Hd Ht Hw Hs)
    as [r [Hr Hrq]].
  rewrite <- Hsame in Hc, He, Hd, Ht, Hw.
  destruct (emissionsReduced_closed s' C E d tr wf t' w' Hc He Hd Ht Hw Hs')
    as [r' [Hr' Hrq']].
  exists r, r'. split; [exact Hr|]. split; [exact Hr'|].
  rewrite Hrq, Hrq'.
  assert (Hgain : 0 <= C * ((0.02 * t' + 0.01935 * w') - (0.02 * t + 0.01935 * w))).
  { apply Qmult_le_0_compat; [exact HC | lra]. }
  lra.
Qed.

(** On a realistic baseline, moving a slider up a step or more never
    lowers the CO2 reduced: for slider positions that the two range inputs
    admit, [emissionsReduced] is monotone in each.  (A step changes the new
    emissions by about two hundredths of the number of commuters, far more
    than the rounding of the few operations involved.) *)
Theorem emissionsReduced_monotone (s s' : State) (t w t' w' : Q) :
  realisticBaseline (PA_BASELINE s) ->
  PA_BASELINE s' = PA_BASELINE s ->
  slidersAt s t w ->
  slidersAt s' t' w' ->
  accepts transitSlider t = true ->
  accepts wfhSlider w = true ->
  accepts transitSlider t' = true ->
  accepts wfhSlider w' = true ->
  t <= t' ->
  w <= w' ->
  exists r r' : Q,
    emissionsReduced s = Fin r /\ emissionsReduced s' = Fin r' /\ r <= r'.
Proof.
  intros [C [E [d [tr [wf [Hc [He [Hd [Ht [Hw [HC _]]]]]]]]]]] Hsame Hs Hs' _ _ _ _.
  apply (emissionsReduced_monotone_exact s s' t w t' w'); try assumption.
  exists C, E, d, tr, wf. repeat split; try assumption. lra.
Qed.

Lemma emissionsReduced_monotone_example :
  exists r r' : Q,
    emissionsReduced (resetScenario scenarioLoaded) = Fin r
    /\ emissionsReduced (applyScenario (fun _ _ => true) modest scenarioLoaded) = Fin r'
    /\ r <= r'.
Proof.
  apply (emissionsReduced_monotone
           (resetScenario scenarioLoaded)
           (applyScenario (fun _ _ => true) modest scenarioLoaded) 0 0 10 0);
    try reflexivity; try discriminate.
  - exists 6179069, 2166258, 47.1, 3.0, 7.6. repeat split; discriminate.
  - split; reflexivity.
  - split; reflexivity.
Defined.

(** After a load that failed, the CO2 reduced is negative on every quick
    start and after a reset: the emissions computed from the fallback
    shares exceed the fallback total by more than the presets save. *)
Theorem fallback_reduction_is_negative (available : bool)
  (summary : Response SummaryStats) (scenarios : Response Scenarios)
  (s0 : State) (named : string -> Scenarios -> bool) :
  failed summary = true \/ failed scenarios = true ->
  let s := onMount available summary scenarios s0 in
  (forall type, exists r : Q,
      emissionsReduced (applyScenario named type s) = Fin r /\ r < 0)
  /\ (exists r : Q, emissionsReduced (resetScenario s) = Fin r /\ r < 0).
Proof.
  intros Hfail s.
  assert (Hb : PA_BASELINE s = fallbackBaseline).
  { subst s. destruct (LoadFacts.Chapter4_fetch_failure available summary scenarios s0 Hfail)
      as [e ->].
    apply (LoadFacts.Chapter4_catchBlock available e s0). }
  assert (Hneg : forall s1 (t w : Q),
             PA_BASELINE s1 = fallbackBaseline -> slidersAt s1 t w ->
             0 <= t <= 15 -> 0 <= w <= 15 ->
             exists r : Q, emissionsReduced s1 = Fin r /\ r < 0).
  { intros s1 t w Hb1 Hs1 Ht Hw.
    destruct (emissionsReduced_closed s1 6179069 2166258 47.1 3.0 7.6 t w)
      as [r [Hr Hrq]]; try (rewrite Hb1; reflexivity); [exact Hs1|].
    exists r. split; [exact Hr|]. rewrite Hrq. lra. }
  split.
  - intros type.
    destruct (presets_range named type s) as [t [w [Hs [Ht [Hw Hsame]]]]].
    apply (Hneg _ t w); [rewrite Hsame; exact Hb | exact Hs | exact Ht | exact Hw].
  - apply (Hneg _ 0 0); [exact Hb | split; reflexivity | lra | lra].
Qed.

Lemma fallback_reduction_example :
  exists r : Q,
    emissionsReduced (resetScenario (onMount true Unreachable Unreachable initial)) = Fin r
    /\ r < 0.
Proof.
  apply (fallback_reduction_is_negative true Unreachable Unreachable initial
           (fun _ _ => true)).
  left. reflexivity.
Defined.


(** When the chart library cannot be imported, the loaded figures are
    lost: whatever the two responses hold, [onMount] ends in its [catch]
    branch, on the fallback baseline and with the error logged, and
    neither chart is created. *)
Theorem import_failure_discards_loaded_data
  (summary : Response SummaryStats) (scenarios : Response Scenarios)
  (s : State) :
  wfhChart s = false ->
  PA_BASELINE (onMount false summary scenarios s) = fallbackBaseline
  /\ view (onMount false summary scenarios s) = Content
  /\ chart (onMount false summary scenarios s) = chart s
  /\ wfhChart (onMount false summary scenarios s) = false
  /\ logs "Error loading PA data:" (console (onMount false summary scenarios s)).
Proof.
  intros Hw.
  destruct s as [b ts wi dl ps cc ch wc wch co]. simpl in Hw. subst wch.
  assert (Hlog : forall (msg : string) (before after : list LogEntry),
             logs msg before -> logs msg (before ++ after)).
  { intros msg before after [e He]. exists e. apply in_or_app. left. exact He. }
  assert (Hcatch : forall e s0,
             wfhChart s0 = false ->
             PA_BASELINE (catchBlock false e s0) = fallbackBaseline
             /\ view (catchBlock false e s0) = Content
             /\ chart (catchBlock false e s0) = chart s0
             /\ wfhChart (catchBlock false e s0) = false
             /\ logs "Error loading PA data:" (console (catchBlock false e s0))).
  { intros e [b0 ts0 wi0 dl0 ps0 cc0 ch0 wc0 wch0 co0] H0. simpl in H0. subst wch0.
    destruct ch0, cc0, dl0; repeat split; try reflexivity; cbn;
      repeat first [apply LoadFacts.logs_last | apply Hlog]. }
  destruct summary as [| |sd].
  - apply (Hcatch (NetworkError "/FinalViz/pa_summary_stats.json")). reflexivity.
  - apply (Hcatch (SyntaxError "/FinalViz/pa_summary_stats.json")). reflexivity.
  - destruct scenarios as [| |sc].
    + apply (Hcatch (NetworkError "/FinalViz/pa_scenarios.json")). reflexivity.
    + apply (Hcatch (SyntaxError "/FinalViz/pa_scenarios.json")). reflexivity.
    + unfold onMount, tryBlock, tryCatch, bind, fetchJson, property, assign, ret.
      cbn.
      destruct (current sc) as [c|]; [destruct (mode_split c) as [m|]|]; cbn.
      * destruct ch, cc, dl; repeat split; try reflexivity; cbn;
          repeat first [apply LoadFacts.logs_last | apply Hlog].
      * apply Hcatch. reflexivity.
      * apply Hcatch. reflexivity.
Qed.

Lemma import_failure_example :
  PA_BASELINE (onMount false (Json sampleSummary) (Json sampleScenarios) initial)
  = fallbackBaseline.
Proof.
  apply (import_failure_discards_loaded_data
           (Json sampleSummary) (Json sampleScenarios) initial).
  reflexivity.
Defined.


(** When the chart library is there, [onMount] ends with the content on
    screen and both charts created, whatever the two responses hold; the
    dataset of remote work holds two zeros. *)
Theorem onMount_creates_both_charts
  (summary : Response SummaryStats) (scenarios : Response Scenarios)
  (s : State) :
  chart s = None ->
  wfhChart s = false ->
  view (onMount true summary scenarios s) = Content
  /\ wfhChart (onMount true summary scenarios s) = true
  /\ exists driveAlone publicTransit : list num,
       chart (onMount true summary scenarios s)
       = Some [ ("Drive Alone", driveAlone);
                ("Public Transit", publicTransit);
                ("Work From Home", [Fin 0; Fin 0]) ]
       /\ List.length driveAlone = 2%nat
       /\ List.length publicTransit = 2%nat.
Proof.
  intros Hc Hw.
  destruct s as [b ts wi dl ps cc ch wc wch co]. simpl in Hc, Hw. subst ch wch.
  assert (Hcatch : forall e b0 ts0 wi0 dl0 ps0 cc0 wc0 co0,
             let s0 := {| PA_BASELINE := b0; transitShiftPct := ts0;
                          wfhIncreasePct := wi0; dataLoaded := dl0;
                          predefinedScenarios := ps0; chartCanvas := cc0;
                          chart := None; wfhCanvas := wc0; wfhChart := false;
                          console := co0 |} in
             view (catchBlock true e s0) = Content
             /\ wfhChart (catchBlock true e s0) = true
             /\ exists driveAlone publicTransit : list num,
                  chart (catchBlock true e s0)
                  = Some [ ("Drive Alone", driveAlone);
                           ("Public Transit", publicTransit);
                           ("Work From Home", [Fin 0; Fin 0]) ]
                  /\ List.length driveAlone = 2%nat
                  /\ List.length publicTransit = 2%nat).
  { intros. destruct cc0, dl0;
      (split; [reflexivity|]); (split; [reflexivity|]);
      do 2 eexists; (split; [reflexivity|]); split; reflexivity. }
  destruct summary as [| |sd].
  - exact (Hcatch (NetworkError "/FinalViz/pa_summary_stats.json")
             b ts wi dl ps cc wc co).
  - exact (Hcatch (SyntaxError "/FinalViz/pa_summary_stats.json")
             b ts wi dl ps cc wc co).
  - destruct scenarios as [| |sc].
    + exact (Hcatch (NetworkError "/FinalViz/pa_scenarios.json")
               b ts wi dl ps cc wc co).
    + exact (Hcatch (SyntaxError "/FinalViz/pa_scenarios.json")
               b ts wi dl ps cc wc co).
    + unfold onMount, tryBlock, tryCatch, bind, fetchJson, property, assign, ret.
      destruct (current sc) as [c|]; [destruct (mode_split c) as [m|]|].
      * destruct cc, dl;
          (split; [reflexivity|]); (split; [reflexivity|]);
          do 2 eexists; (split; [reflexivity|]); split; reflexivity.
      * exact (Hcatch (TypeError "mode_split") b ts wi dl (Some sc) cc wc co).
      * exact (Hcatch (TypeError "current") b ts wi dl (Some sc) cc wc co).
Qed.

Lemma onMount_creates_both_charts_example :
  wfhChart (onMount true (Json sampleSummary) NotJson initial) = true.
Proof.
  apply (onMount_creates_both_charts (Json sampleSummary) NotJson initial);
    reflexivity.
Defined.

End ScenarioFacts.

(* ===================================================================== *)
(** ** The case studies of Chapter 5 *)
(* ===================================================================== *)

Module CaseStudyFacts.

Import Fetch Template Fixtures Chapter5.
Local Open Scope string_scope.
Local Open Scope Q_scope.

Lemma orElse_json (v : option num) (d : Q) :
  jsonNumber v = true ->
  exists q : Q,
    orElse v (Fin d) = Fin q
    /\ (Qeq_bool d 0 = false -> Qeq_bool q 0 = false).
Proof.
  intros Hv. destruct v as [[q| | |]|]; try discriminate Hv.
  - unfold orElse, truthy. destruct (Qeq_bool q 0) eqn:Hq.
    + exists d. split; [reflexivity | tauto].
    + exists q. split; [reflexivity | intros _; exact Hq].
  - exists d. split; [reflexivity | tauto].
Qed.

Lemma or_Fin (q d : Q) :
  Qeq_bool d 0 = false ->
  exists r : Q, JsNum.or (Fin q) (Fin d) = Fin r /\ Qeq_bool r 0 = false.
Proof.
  intros Hd. unfold JsNum.or, truthy. destruct (Qeq_bool q 0) eqn:Hq.
  - exists d. split; [reflexivity | exact Hd].
  - exists q. split; [reflexivity | exact Hq].
Qed.

Lemma onMount_loaded (summaryData : SummaryStats) (scenariosData : Scenarios)
  (s : State) :
  paStats (onMount (Json summaryData) (Json scenariosData) s)
  = loadedStats summaryData scenariosData
  /\ caseStudies (onMount (Json summaryData) (Json scenariosData) s)
     = map (recompare (loadedStats summaryData scenariosData)) (caseStudies s)
  /\ dataLoaded (onMount (Json summaryData) (Json scenariosData) s) = true.
Proof. repeat split. Qed.

Lemma loadedStats_nonzero (summaryData : SummaryStats) (scenariosData : Scenarios) :
  jsonSummary (Json summaryData) = true ->
  jsonScenarios (Json scenariosData) = true ->
  exists commute transit co2 : Q,
    loadedStats summaryData scenariosData
    = {| pa_avgCommuteMinutes := Fin commute;
         pa_transitBikeWalkPct := Fin transit;
         pa_co2PerCapita := Fin co2 |}
    /\ Qeq_bool commute 0 = false
    /\ Qeq_bool transit 0 = false
    /\ Qeq_bool co2 0 = false.
Proof.
  intros Hs Hc. simpl in Hs, Hc.
  apply andb_prop in Hs. destruct Hs as [Hs Hbike].
  apply andb_prop in Hs. destruct Hs as [Hs Hwfh].
  apply andb_prop in Hs. destruct Hs as [Hs Htransit].
  apply andb_prop in Hs. destruct Hs as [Htotal Havg].
  unfold loadedStats.
  destruct (orElse_json _ 27.3 Havg) as [a [-> Ha]].
  destruct (orElse_json _ 0 Htransit) as [t [-> _]].
  destruct (orElse_json _ 0 Hwfh) as [w [-> _]].
  destruct (orElse_json _ 0 Hbike) as [b [-> _]].
  destruct (orElse_json _ 6179069 Htotal) as [n [-> Hn]].
  assert (Hem : jsonNumber (match current scenariosData with
                            | Some c => emissions_tons c
                            | None => None
                            end) = true).
  { destruct (current scenariosData); [exact Hc | reflexivity]. }
  destruct (orElse_json _ 0 Hem) as [e [-> _]].
  specialize (Ha eq_refl). specialize (Hn eq_refl).
  cbn [add]. unfold div. rewrite Hn.
  destruct (or_Fin (t + w + b) 11 eq_refl) as [tr [-> Htr]].
  destruct (or_Fin (e / n) 2.7 eq_refl) as [co [-> Hco]].
  exists a, tr, co. repeat split; assumption.
Qed.

Lemma recompare_finite (commute transit co2 : Q) (c : CountyCaseStudy) :
  Qeq_bool commute 0 = false ->
  Qeq_bool transit 0 = false ->
  Qeq_bool co2 0 = false ->
  isFinite (avgCommute c) = true ->
  isFinite (transitBikeWalkPct c) = true ->
  isFinite (co2PerCapita c) = true ->
  finiteComparison
    (recompare {| pa_avgCommuteMinutes := Fin commute;
                  pa_transitBikeWalkPct := Fin transit;
                  pa_co2PerCapita := Fin co2 |} c) = true.
Proof.
  intros H1 H2 H3 Ha Ht Hc.
  destruct c as [n l [a| | |] [t| | |] [k| | |] y f cmp]; try discriminate.
  unfold finiteComparison, recompare. cbn. rewrite H1, H2, H3. reflexivity.
Qed.

(** On exact numbers: whatever the two responses hold (a failure, or
    bodies whose fields are finite numbers or missing), the state figures
    after [onMount] are finite and not zero, and so is every comparison. *)
Lemma comparisons_finite_exact
  (summary : Response SummaryStats) (scenarios : Response Scenarios) :
  jsonSummary summary = true ->
  jsonScenarios scenarios = true ->
  nonZeroFinite (pa_avgCommuteMinutes (paStats (onMount summary scenarios initial))) = true
  /\ nonZeroFinite (pa_transitBikeWalkPct (paStats (onMount summary scenarios initial))) = true
  /\ nonZeroFinite (pa_co2PerCapita (paStats (onMount summary scenarios initial))) = true
  /\ forallb finiteComparison (caseStudies (onMount summary scenarios initial)) = true
  /\ view (onMount summary scenarios initial) = Content.
Proof.
  intros Hs Hc.
  destruct summary as [| |sd]; [repeat split | repeat split |].
  destruct scenarios as [| |sc]; [repeat split | repeat split |].
  destruct (onMount_loaded sd sc initial) as [Hpa [Hcs Hdl]].
  destruct (loadedStats_nonzero sd sc Hs Hc) as [a [t [k [Hstats [Ha [Ht Hk]]]]]].
  unfold view. rewrite Hpa, Hcs, Hdl, Hstats.
  unfold nonZeroFinite. cbn [pa_avgCommuteMinutes pa_transitBikeWalkPct
                             pa_co2PerCapita isFinite truthy andb].
  rewrite Ha, Ht, Hk.
  repeat split.
  cbn [initial caseStudies declaredCaseStudies map forallb].
  rewrite !recompare_finite by (assumption || reflexivity). reflexivity.
Qed.

Lemma plausibleNumber_json (v : option num) :
  plausibleNumber v = true -> jsonNumber v = true.
Proof. destruct v as [[q| | |]|]; intros H; try discriminate H; reflexivity. Qed.

(** Whatever the two responses hold (a failure, or bodies whose figures
    are plausible: missing, zero, or between a millionth and
    [MAX_SAFE_INTEGER]), the state figures after [onMount] are finite and
    not zero, so that every comparison of a case study against them is a
    finite number, never [NaN] or an infinity: each figure that a
    comparison divides by has its [||] fallback.  (On such figures no sum
    or quotient of the code overflows or underflows on doubles.) *)
Theorem comparisons_finite
  (summary : Response SummaryStats) (scenarios : Response Scenarios) :
  plausibleSummary summary = true ->
  plausibleScenarios scenarios = true ->
  nonZeroFinite (pa_avgCommuteMinutes (paStats (onMount summary scenarios initial))) = true
  /\ nonZeroFinite (pa_transitBikeWalkPct (paStats (onMount summary scenarios initial))) = true
  /\ nonZeroFinite (pa_co2PerCapita (paStats (onMount summary scenarios initial))) = true
  /\ forallb finiteComparison (caseStudies (onMount summary scenarios initial)) = true
  /\ view (onMount summary scenarios initial) = Content.
Proof.
  intros Hs Hc. apply comparisons_finite_exact.
  - destruct summary as [| |d]; try reflexivity. simpl in Hs |- *.
    repeat (apply andb_prop in Hs; destruct Hs as [Hs ?]).
    repeat (apply andb_true_intro; split); apply plausibleNumber_json; assumption.
  - destruct scenarios as [| |d]; try reflexivity. simpl in Hc |- *.
    destruct (current d); [apply plausibleNumber_json; exact Hc | reflexivity].
Qed.

Lemma comparisons_finite_example :
  forallb finiteComparison
          (caseStudies (onMount (Json sampleSummary) (Json sampleScenarios) initial))
  = true.
Proof.
  apply (comparisons_finite (Json sampleSummary) (Json sampleScenarios));
    reflexivity.
Defined.

End CaseStudyFacts.

(* ===================================================================== *)
(** ** The advice of Chapter 6 *)
(* ===================================================================== *)

Module AdviceFacts.

Import Fetch Template Fixtures Chapter6.
Local Open Scope Q_scope.

Ltac constant_divisions :=
  unfold Qdiv;
  change (/ 60) with (1 # 60); change (/ 1000) with (1 # 1000);
  change (/ 10000) with (1 # 10000).

Lemma annualMiles_closed (s : State) (m d : Q) :
  commuteMinutes s = Fin m ->
  daysPerWeek s = Fin d ->
  exists miles : Q, annualMiles s = Fin miles /\ miles == 50 * (m * d).
Proof.
  intros Hm Hd. exists (m / 60 * 30 * 2 * d * 50).
  split; [apply (CalculatorFacts.annualMiles_Fin s m d Hm Hd) | field].
Qed.

Lemma EMISSIONS_PER_MODE_bounds (mode : CommuteMode) :
  exists e : Q, EMISSIONS_PER_MODE mode = Fin e /\ 0 <= e <= 2580.
Proof.
  destruct mode; eexists; (split; [reflexivity | split; discriminate]).
Qed.

(** With a state average above zero, the colour and the sign of the
    comparison agree with its figure: the commute is shown as above the
    average exactly when the percentage against the average is above
    zero. *)
Theorem isAboveAverage_agrees_with_vsPA (s : State) (average m d : Q) :
  paAvgCO2PerPerson s = Fin average ->
  0 < average ->
  commuteMinutes s = Fin m ->
  daysPerWeek s = Fin d ->
  isAboveAverage s = gt (vsPA s) (Fin 0).
Proof.
  intros Hp Hpos Hm Hd.
  destruct (annualMiles_closed s m d Hm Hd) as [miles [Hmiles _]].
  destruct (EMISSIONS_PER_MODE_bounds (currentMode s)) as [e [He _]].
  assert (Hc : currentAnnualCO2 s = Fin (e * (miles / 10000) / 1000)).
  { unfold currentAnnualCO2. rewrite He, Hmiles. reflexivity. }
  set (c := e * (miles / 10000) / 1000) in Hc.
  assert (Hz : Qeq_bool average 0 = false).
  { destruct (Qeq_bool average 0) eqn:Hq; [|reflexivity].
    apply Qeq_bool_iff in Hq. lra. }
  unfold isAboveAverage, vsPA. rewrite Hc, Hp.
  unfold gt, div. rewrite Hz. cbn [sub add neg mul lt].
  f_equal.
  assert (Hiff : average <= c <-> 0 <= (c / average + - (1)) * 100).
  { split; intros H.
    - assert (1 <= c / average) by (apply Qle_shift_div_l; lra). lra.
    - assert (H1 : 1 <= c / average) by lra.
      assert (H2 : c / average * average == c) by (field; lra).
      assert (H3 : 1 * average <= c / average * average)
        by (apply Qmult_le_compat_r; lra).
      lra. }
  destruct (Qle_bool c average) eqn:H1, (Qle_bool ((c / average + - (1)) * 100) 0) eqn:H2;
    try reflexivity; exfalso.
  - apply Qle_bool_iff in H1.
    assert (H3 : ~ (c / average + - (1)) * 100 <= 0)
      by (intros H; apply Qle_bool_iff in H; congruence).
    assert (H4 : c / average <= 1) by (apply Qle_shift_div_r; lra).
    lra.
  - apply Qle_bool_iff in H2.
    assert (H3 : ~ c <= average)
      by (intros H; apply Qle_bool_iff in H; congruence).
    assert (H4 : c / average * average == c) by (field; lra).
    assert (H5 : c / average <= 1) by lra.
    assert (H6 : c / average * average <= 1 * average)
      by (apply Qmult_le_compat_r; lra).
    lra.
Qed.

Lemma isAboveAverage_example :
  isAboveAverage calculator6_45 = gt (vsPA calculator6_45) (Fin 0).
Proof.
  apply (isAboveAverage_agrees_with_vsPA calculator6_45
           0.35 45 3); reflexivity.
Defined.


Lemma vsPA_on_zero_average (s : State) (average : Q) :
  paAvgCO2PerPerson s = Fin average ->
  Qeq_bool average 0 = true ->
  isFinite (vsPA s) = false.
Proof.
  intros Hp Hz. unfold vsPA. rewrite Hp.
  destruct (currentAnnualCO2 s) as [c| | |]; try reflexivity.
  - unfold div. rewrite Hz. unfold infOfSign. destruct (Qsign c); reflexivity.
  - unfold div. unfold Qsign.
    destruct (0 ?= average); reflexivity.
  - unfold div. unfold Qsign.
    destruct (0 ?= average); reflexivity.
Qed.

(** When the scenarios file has no current scenario, or that scenario no
    emissions, the state average becomes zero and the comparison against
    it is no finite number, whatever the commute entered afterwards. *)
Theorem missing_emissions_comparison_not_finite
  (summaryData : SummaryStats) (scenariosData : Scenarios) (s : State)
  (minutes days : num) (mode : CommuteMode) :
  jsonNumber (total_commuters summaryData) = true ->
  match current scenariosData with
  | Some c => emissions_tons c = None
  | None => True
  end ->
  let loaded := onMount (Json summaryData) (Json scenariosData) s in
  isFin (paAvgCO2PerPerson loaded) 0
  /\ isFinite (vsPA {| dataLoaded := dataLoaded loaded;
                       paAvgCO2PerPerson := paAvgCO2PerPerson loaded;
                       commuteMinutes := minutes;
                       currentMode := mode;
                       daysPerWeek := days;
                       console := console loaded |}) = false.
Proof.
  intros Htotal Hmissing loaded.
  assert (Hem : orElse (match current scenariosData with
                        | Some c => emissions_tons c
                        | None => None
                        end) (Fin 0) = Fin 0).
  { destruct (current scenariosData) as [c|]; [rewrite Hmissing|]; reflexivity. }
  assert (Hn : exists n : Q,
             orElse (total_commuters summaryData) (Fin 6179069) = Fin n
             /\ Qeq_bool n 0 = false).
  { destruct (total_commuters summaryData) as [[q| | |]|]; try discriminate Htotal.
    - unfold orElse, truthy. destruct (Qeq_bool q 0) eqn:Hq.
      + exists 6179069. split; reflexivity.
      + exists q. split; [reflexivity | exact Hq].
    - exists 6179069. split; reflexivity. }
  destruct Hn as [n [Hn Hnz]].
  assert (Hp : paAvgCO2PerPerson loaded = Fin (0 / n)).
  { subst loaded. unfold onMount, tryBlock, tryCatch, bind, fetchJson, assign, ret.
    cbn [paAvgCO2PerPerson fst snd]. rewrite Hem, Hn. unfold div. rewrite Hnz.
    reflexivity. }
  assert (Hzero : 0 / n == 0).
  { field. intros H. apply Qeq_bool_iff in H. congruence. }
  split.
  - rewrite Hp. exact Hzero.
  - apply (vsPA_on_zero_average _ (0 / n)); [exact Hp|].
    apply Qeq_bool_iff. exact Hzero.
Qed.

Lemma missing_emissions_example :
  isFin (paAvgCO2PerPerson
           (onMount (Json sampleSummary) (Json {| current := None |}) initial)) 0.
Proof.
  apply (missing_emissions_comparison_not_finite
           sampleSummary {| current := None |} initial (Fin 30) (Fin 5) drive_alone).
  - reflexivity.
  - exact I.
Defined.

(** On exact numbers: the cost saving of moving closer is negative
    exactly below ten minutes. *)
Lemma move_closer_exact (s : State) (m d : Q) :
  commuteMinutes s = Fin m ->
  daysPerWeek s = Fin d ->
  0 < d ->
  exists saved : Q,
    option3_costSaved s = Fin saved /\ (saved < 0 <-> m < 10).
Proof.
  intros Hm Hd Hpos.
  exists ((m / 60 * 30 * 2 * d * 50 + - (5 * 2 * d * 50)) * 0.67).
  split.
  - unfold option3_costSaved. rewrite (CalculatorFacts.annualMiles_Fin s m d Hm Hd), Hd.
    reflexivity.
  - assert (Hclosed : (m / 60 * 30 * 2 * d * 50 + - (5 * 2 * d * 50)) * 0.67
                      == 33.5 * (d * (m - 10))) by field.
    rewrite Hclosed. split; intros H.
    + destruct (Qlt_le_dec m 10) as [Hlt|Hge]; [exact Hlt | exfalso].
      assert (0 <= d * (m - 10)) by (apply Qmult_le_0_compat; lra). lra.
    + assert (0 < d * (10 - m)) by (apply Qmult_lt_0_compat; lra). lra.
Qed.

Lemma accepts_bounds (i : Input) (v : Q) :
  accepts i v = true -> min i <= v <= max i.
Proof.
  unfold accepts. intros H.
  apply andb_prop in H. destruct H as [H _].
  apply andb_prop in H. destruct H as [Hlo Hhi].
  split; apply Qle_bool_iff; assumption.
Qed.

(** The option of moving closer assumes five miles each way, the
    distance of ten minutes.  For the minutes and the days that the two
    number inputs accept (whole minutes from 1 to 120, whole days from 1 to
    7) its cost saving is negative exactly when the commute is shorter than
    ten minutes: it shows a loss on the commutes of 1 to 9 minutes, and from
    ten minutes on it never does. *)
Theorem move_closer_loses_below_ten_minutes (s : State) (m d : Q) :
  commuteMinutes s = Fin m ->
  daysPerWeek s = Fin d ->
  accepts commuteInput m = true ->
  accepts daysInput d = true ->
  exists saved : Q,
    option3_costSaved s = Fin saved /\ (saved < 0 <-> m < 10).
Proof.
  intros Hm Hd _ Hdays.
  apply (move_closer_exact s m d Hm Hd).
  pose proof (accepts_bounds daysInput d Hdays) as [Hlo _].
  simpl in Hlo. lra.
Qed.

Lemma move_closer_example :
  exists saved : Q,
    option3_costSaved calculator6_short = Fin saved /\ (saved < 0 <-> 5 < 10).
Proof.
  apply (move_closer_loses_below_ten_minutes calculator6_short 5 5); reflexivity.
Defined.

(** On exact numbers: for a commute and a number of days that are not
    negative, no option shows more CO2 saved than the commute emits in a
    year. *)
Lemma savings_within_footprint_exact (s : State) (m d : Q) :
  commuteMinutes s = Fin m ->
  daysPerWeek s = Fin d ->
  0 <= m ->
  0 <= d ->
  exists footprint saved1 saved2 saved3 saved4 : Q,
    currentAnnualCO2 s = Fin footprint
    /\ option1_co2Saved s = Fin saved1 /\ saved1 <= footprint
    /\ option2_co2Saved s = Fin saved2 /\ saved2 <= footprint
    /\ option3_co2Saved s = Fin saved3 /\ saved3 <= footprint
    /\ option4_co2Saved s = Fin saved4 /\ saved4 <= footprint.
Proof.
  intros Hm Hd Hm0 Hd0.
  pose proof (CalculatorFacts.annualMiles_Fin s m d Hm Hd) as Hmiles.
  set (miles := m / 60 * 30 * 2 * d * 50) in Hmiles.
  assert (Hpos : 0 <= miles).
  { assert (Hmd : 0 <= m * d) by (apply Qmult_le_0_compat; assumption).
    assert (Hcl : miles == 50 * (m * d)) by (unfold miles; field).
    rewrite Hcl. lra. }
  unfold currentAnnualCO2, option1_co2Saved, option2_co2Saved, option3_co2Saved,
    option4_co2Saved.
  rewrite Hmiles, Hd.
  destruct (currentMode s); cbn [CommuteMode_eqb EMISSIONS_PER_MODE];
    do 5 eexists; repeat split; constant_divisions; lra.
Qed.

(** For a commute between 1 and 120 minutes on 1 to 7 days a week, the
    ranges of the two number inputs, and any commute mode, no option shows
    more CO2 saved than the commute emits in a year.  (On these ranges the
    saving of each option stays below the footprint by a margin far wider
    than the rounding of doubles, or is the footprint times a factor of at
    most one.) *)
Theorem savings_within_footprint (s : State) (m d : Q) :
  commuteMinutes s = Fin m ->
  daysPerWeek s = Fin d ->
  1 <= m <= 120 ->
  1 <= d <= 7 ->
  exists footprint saved1 saved2 saved3 saved4 : Q,
    currentAnnualCO2 s = Fin footprint
    /\ option1_co2Saved s = Fin saved1 /\ saved1 <= footprint
    /\ option2_co2Saved s = Fin saved2 /\ saved2 <= footprint
    /\ option3_co2Saved s = Fin saved3 /\ saved3 <= footprint
    /\ option4_co2Saved s = Fin saved4 /\ saved4 <= footprint.
Proof.
  intros Hm Hd Hmr Hdr.
  apply (savings_within_footprint_exact s m d Hm Hd); lra.
Qed.

Lemma savings_within_footprint_example :
  exists footprint saved1 saved2 saved3 saved4 : Q,
    currentAnnualCO2 calculator6_45 = Fin footprint
    /\ option1_co2Saved calculator6_45 = Fin saved1 /\ saved1 <= footprint
    /\ option2_co2Saved calculator6_45 = Fin saved2 /\ saved2 <= footprint
    /\ option3_co2Saved calculator6_45 = Fin saved3 /\ saved3 <= footprint
    /\ option4_co2Saved calculator6_45 = Fin saved4 /\ saved4 <= footprint.
Proof.
  apply (savings_within_footprint calculator6_45 45 3);
    try reflexivity; split; discriminate.
Defined.

End AdviceFacts.
